(** * Python-Elan-API: the document model and codec of [elan.py]

    A shallow embedding of the classes of [elan.py] and the properties of
    its specification.  Every class of the source is a module holding a
    record for the instance attributes and one definition per method, under
    the method's name.  Methods that mutate [self] return the new state of
    the object; methods that can raise return a [result].

    Python is taken with the semantics of Python 3 (dictionaries keep their
    insertion order, [None] is not ordered against anything). *)

From Stdlib Require Import ZArith Ascii String List Bool Lia.
From Stdlib Require Import DecimalString DecimalZ DecimalPos.
From stdpp Require Import base option list gmap strings.

Local Open Scope string_scope.
Local Open Scope list_scope.

(** ** The Python runtime: exceptions *)

Inductive exn :=
| RuntimeError (msg : string)
| KeyError (msg : string)
| TypeError (msg : string)
| AttributeError (msg : string)
| ValueError (msg : string).

Inductive result (A : Type) :=
| OK (a : A)
| Raise (e : exn).
Arguments OK {A} a.
Arguments Raise {A} e.

#[global] Instance result_ret : MRet result := λ A a, OK a.
#[global] Instance result_bind : MBind result :=
  λ A B f m, match m with OK a => f a | Raise e => Raise e end.
#[global] Instance result_fmap : FMap result :=
  λ A B f m, match m with OK a => OK (f a) | Raise e => Raise e end.

Definition raises {A} (m : result A) : bool :=
  match m with OK _ => false | Raise _ => true end.

(** [for x in l: s = body(s, x)], leaving the loop at the first exception. *)
Fixpoint for_each {A S} (body : S → A → result S) (l : list A) (s : S) : result S :=
  match l with
  | [] => OK s
  | x :: l' => s' ← body s x; for_each body l' s'
  end.

(** Values that are either a Python object of a known type or [None] are
    [option]s.  Attributes that the source assigns booleans, strings or
    [None] to, and tests with [is True], are [pyval]s. *)
Inductive pyval :=
| PyNone
| PyBool (b : bool)
| PyStr (s : string).

#[global] Instance pyval_eq_dec : EqDecision pyval.
Proof. solve_decision. Defined.

(** The ordering operators on time values.  Two [int]s compare as integers;
    as soon as one operand is [None] the interpreter raises [TypeError]. *)
Definition py_type (v : option Z) : string :=
  match v with Some _ => "int" | None => "NoneType" end.

Definition unorderable (op : string) (x y : option Z) : exn :=
  TypeError ("'" +:+ op +:+ "' not supported between instances of '"
             +:+ py_type x +:+ "' and '" +:+ py_type y +:+ "'").

Definition py_lt (x y : option Z) : result bool :=
  match x, y with
  | Some a, Some b => OK (bool_decide (a < b)%Z)
  | _, _ => Raise (unorderable "<" x y)
  end.

Definition py_gt (x y : option Z) : result bool :=
  match x, y with
  | Some a, Some b => OK (bool_decide (a > b)%Z)
  | _, _ => Raise (unorderable ">" x y)
  end.

Definition py_eq (x y : option Z) : bool := bool_decide (x = y).

Definition py_le (x y : option Z) : result bool :=
  match x, y with
  | Some a, Some b => OK (bool_decide (a <= b)%Z)
  | _, _ => Raise (unorderable "<=" x y)
  end.

Definition py_ge (x y : option Z) : result bool :=
  match x, y with
  | Some a, Some b => OK (bool_decide (a >= b)%Z)
  | _, _ => Raise (unorderable ">=" x y)
  end.

(** Subtraction of time values: [int]s are subtracted, and an operand
    [None] raises [TypeError]. *)
Definition unsupported (op : string) (x y : option Z) : exn :=
  TypeError ("unsupported operand type(s) for " +:+ op +:+ ": '"
             +:+ py_type x +:+ "' and '" +:+ py_type y +:+ "'").

Definition py_sub (x y : option Z) : result Z :=
  match x, y with
  | Some a, Some b => OK (a - b)%Z
  | _, _ => Raise (unsupported "-" x y)
  end.

(** [str(i)] for an [int], and [int(s)] on the signed decimal numerals
    [str] writes.  ([int] also accepts surrounding blanks, a leading [+] and
    underscores; such numerals are a [ValueError] here.) *)
Definition str (i : Z) : string := NilZero.string_of_int (Z.to_int i).

Definition int (s : string) : result Z :=
  match NilZero.int_of_string s with
  | Some d => OK (Z.of_int d)
  | None => Raise (ValueError ("invalid literal for int() with base 10: " +:+ s))
  end.

(** ** The XML layer ([xml.dom.minidom])

    The parser is outside the program.  A DOM node is an element with its
    attributes (in the order written) and children, character data, or a
    comment.  A text buffer that the encoder builds is represented by the
    sequence of nodes it denotes: string concatenation is list append, a
    start tag with its end tag is an [Element] around the nodes written in
    between, [escape] and the parser's decoding of entities cancel.  What
    the parser still does is [merge]: adjacent character data becomes one
    text node and there is no empty text node.  The representation
    presupposes attribute values without double quotes (which [escape] does
    not protect) and strings made of characters XML can carry unchanged. *)

#[warnings="-register-all"]
Inductive node :=
| Element (tagName : string) (attributes : list (string * string)) (childNodes : list node)
| Text (data : string)
| Comment (data : string).

Definition nl : string := String (ascii_of_nat 10) EmptyString.

Fixpoint merge (l : list node) : list node :=
  match l with
  | [] => []
  | Text a :: r =>
      match merge r with
      | Text b :: r' => Text (a +:+ b) :: r'
      | r' => if String.eqb a EmptyString then r' else Text a :: r'
      end
  | n :: r => n :: merge r
  end.

(** [<tag attrs>content</tag>] *)
Definition element (tag : string) (attrs : list (string * string)) (content : list node) : node :=
  Element tag attrs (merge content).

(** [dom.parseString]: the children of the document node.  Character data
    outside the root element is white space and is not kept. *)
Definition parseString (buffer : list node) : list node :=
  List.filter (λ n, match n with Text _ => false | _ => true end) buffer.

Definition is_element (n : node) : bool :=
  match n with Element _ _ _ => true | _ => false end.

Definition hasAttribute (attrs : list (string * string)) (name : string) : bool :=
  existsb (λ kv, String.eqb kv.1 name) attrs.

Fixpoint getAttribute (attrs : list (string * string)) (name : string) : string :=
  match attrs with
  | [] => EmptyString
  | (k, v) :: r => if String.eqb k name then v else getAttribute r name
  end.

(** [if n.hasAttribute(a): x = n.getAttribute(a) else: x = None] *)
Definition optional (attrs : list (string * string)) (name : string) : option string :=
  if hasAttribute attrs name then Some (getAttribute attrs name) else None.

(** [if n.hasAttribute(a): x = n.getAttribute(a) else: raise RuntimeError(msg)] *)
Definition required (attrs : list (string * string)) (name msg : string) : result string :=
  if hasAttribute attrs name then OK (getAttribute attrs name) else Raise (RuntimeError msg).

(** [' NAME="' + escape(v) + '"'] when [v] is present *)
Definition attr (name : string) (v : option string) : list (string * string) :=
  match v with Some s => [(name, s)] | None => [] end.

(** The node reached by
    [c = n.firstChild; while c.nodeType != ELEMENT_NODE and c.nextSibling is not None: c = c.nextSibling]:
    the first element child, or the last child when there is no element. *)
Fixpoint first_element (children : list node) : option node :=
  match children with
  | [] => None
  | [n] => Some n
  | n :: r => if is_element n then Some n else first_element r
  end.

(** The first element child of an element *)
Definition child_element (n : node) : option node :=
  match n with
  | Element _ _ childNodes => first_element childNodes
  | _ => None
  end.

(** The indentation the [to_xml] methods have by default *)
Definition default_indent : string := "    ".

(** The element nodes of a list of nodes *)
Definition elements (l : list node) : list node := List.filter is_element l.

Definition tag_names (l : list node) : list string :=
  omap (λ n, match n with Element tag _ _ => Some tag | _ => None end) l.

(** The text read by
    [if n.hasChildNodes() and n.firstChild.nodeType == TEXT_NODE: n.firstChild.data],
    [None] when the element has no child or another first child. *)
Definition first_text (children : list node) : option string :=
  match children with
  | Text d :: _ => Some d
  | _ => None
  end.

(** Nodes other than comments *)
Definition no_comment (n : node) : Prop :=
  match n with Comment _ => False | _ => True end.

(** ** class ELANTimeSlot *)
Module ELANTimeSlot.

Record t := mk { ID : string; time_value : option Z }.

Definition __init__ (ID : string) (time_value : option Z) : t := mk ID time_value.

Definition get_id (self : t) : string := ID self.
Definition get_time_value (self : t) : option Z := time_value self.

Definition has_time_value (self : t) : bool :=
  match time_value self with Some _ => true | None => false end.

Definition from_xml (xml_node : node) : result t :=
  match xml_node with
  | Element tagName attrs _ =>
      if negb (String.eqb tagName "TIME_SLOT") then
        Raise (RuntimeError ("Cannot construct an ELANTimeSlot object from xml node of type " +:+ tagName))
      else
        time_slot_id ← required attrs "TIME_SLOT_ID" "TIME_SLOT is missing TIME_SLOT_ID attribute.";
        time_value ← (if hasAttribute attrs "TIME_VALUE"
                      then v ← int (getAttribute attrs "TIME_VALUE"); mret (Some v)
                      else mret None);
        mret (__init__ time_slot_id time_value)
  | _ => Raise (AttributeError "tagName")
  end.

Definition to_xml (indent : string) (self : t) : list node :=
  [ Text (indent +:+ indent);
    element "TIME_SLOT"
      ([("TIME_SLOT_ID", get_id self)]
         ++ attr "TIME_VALUE" (str <$> (if has_time_value self then get_time_value self else None)))
      [];
    Text nl ].

(** Equality of ID and value *)
Definition __eq__ (self other : t) : bool :=
  if bool_decide (ID self = ID other) && py_eq (time_value self) (time_value other)
  then true else false.

(** Only compare time values *)
Definition __gt__ (self other : t) : result bool :=
  py_gt (time_value self) (time_value other)
    ≫= λ b : bool, mret (if b then true else false).

Definition __lt__ (self other : t) : result bool :=
  py_lt (time_value self) (time_value other)
    ≫= λ b : bool, mret (if b then true else false).

Definition __ge__ (self other : t) : result bool :=
  if py_eq (time_value self) (time_value other) then mret true
  else py_gt (time_value self) (time_value other)
         ≫= λ b : bool, mret (if b then true else false).

Definition __le__ (self other : t) : result bool :=
  if py_eq (time_value self) (time_value other) then mret true
  else py_lt (time_value self) (time_value other)
         ≫= λ b : bool, mret (if b then true else false).

Definition __ne__ (self other : t) : bool :=
  if __eq__ self other then false else true.

End ELANTimeSlot.

(** ** class ELANTimeOrder

    The back-reference [ELAN_file] is not stored: no method reads it. *)
Module ELANTimeOrder.

Record t := mk {
  time_slots : list ELANTimeSlot.t;
  time_slots_dict : gmap string ELANTimeSlot.t
}.

Definition __init__ : t := mk [] ∅.

Definition get_time_slots (self : t) := time_slots self.

Definition get_time_slot_by_id (self : t) (ID : string) : result ELANTimeSlot.t :=
  match time_slots_dict self !! ID with
  | Some time_slot => OK time_slot
  | None => Raise (KeyError "No ELANTimeSlot with the given ID found.")
  end.

Definition has_time_slots (self : t) : bool :=
  bool_decide (0 < length (time_slots self)).

(** The [in] operator considers the ID only. *)
Definition __contains__ (self : t) (time_slot : ELANTimeSlot.t) : bool :=
  bool_decide (is_Some (time_slots_dict self !! ELANTimeSlot.get_id time_slot)).

Definition add_time_slot (self : t) (time_slot : ELANTimeSlot.t) : result t :=
  if __contains__ self time_slot then
    Raise (KeyError "Cannot append time_slot. ID is already in use.")
  else
    OK (mk (time_slots self ++ [time_slot])
           (<[ELANTimeSlot.get_id time_slot := time_slot]> (time_slots_dict self))).

(** One pass of the loop of [from_xml] over the child nodes *)
Definition from_xml_child (time_order : t) (child_node : node) : result t :=
  match child_node with
  | Element tag _ _ =>
      if negb (String.eqb tag "TIME_SLOT") then
        Raise (RuntimeError ("Expected TIME_SLOT element in TIME_ORDER but found a "
                             +:+ tag +:+ " element."))
      else
        time_slot ← ELANTimeSlot.from_xml child_node;
        add_time_slot time_order time_slot
  | _ => OK time_order
  end.

Definition from_xml (xml_node : node) : result t :=
  match xml_node with
  | Element tagName _ childNodes =>
      if negb (String.eqb tagName "TIME_ORDER") then
        Raise (RuntimeError ("Cannot construct an ELANTimeOrder object from xml node of type " +:+ tagName))
      else
        for_each from_xml_child childNodes __init__
  | _ => Raise (AttributeError "tagName")
  end.

Definition to_xml (indent : string) (self : t) : list node :=
  [ Text indent;
    element "TIME_ORDER" []
      ([Text nl]
         ++ (if has_time_slots self
             then concat (ELANTimeSlot.to_xml indent <$> time_slots self) else [])
         ++ [Text indent]);
    Text nl ].

Definition __len__ (self : t) : nat := length (time_slots self).

End ELANTimeOrder.

(** ** class ELANMediaDescriptor *)
Module ELANMediaDescriptor.

Record t := mk {
  media_url : string;
  mime_type : string;
  relative_media_url : option string;
  time_origin : option string;
  extracted_from : option string
}.

Definition __init__ := mk.

Definition get_media_url (self : t) := media_url self.

Definition from_xml (xml_node : node) : result t :=
  match xml_node with
  | Element tagName attrs _ =>
      if negb (String.eqb tagName "MEDIA_DESCRIPTOR") then
        Raise (RuntimeError ("Cannot construct an ELANMediaDescriptor object from xml node of type " +:+ tagName))
      else
        media_url ← required attrs "MEDIA_URL" "MEDIA_DESCRIPTOR is missing MEDIA_URL attribute.";
        let relative_media_url := optional attrs "RELATIVE_MEDIA_URL" in
        mime_type ← required attrs "MIME_TYPE" "MEDIA_DESCRIPTOR is missing MIME_TYPE attribute.";
        let time_origin := optional attrs "TIME_ORIGIN" in
        let extracted_from := optional attrs "EXTRACTED_FROM" in
        mret (__init__ media_url mime_type relative_media_url time_origin extracted_from)
  | _ => Raise (AttributeError "tagName")
  end.

Definition to_xml (indent : string) (self : t) : list node :=
  [ Text (indent +:+ indent);
    element "MEDIA_DESCRIPTOR"
      ([("MEDIA_URL", media_url self)]
         ++ attr "RELATIVE_MEDIA_URL" (relative_media_url self)
         ++ [("MIME_TYPE", mime_type self)]
         ++ attr "TIME_ORIGIN" (time_origin self)
         ++ attr "EXTRACTED_FROM" (extracted_from self))
      [];
    Text nl ].

End ELANMediaDescriptor.

(** ** class ELANLinkedFileDescriptor *)
Module ELANLinkedFileDescriptor.

Record t := mk {
  link_url : string;
  mime_type : string;
  relative_link_url : option string;
  time_origin : option string;
  associated_with : option string
}.

Definition __init__ := mk.

Definition get_link_url (self : t) := link_url self.

Definition from_xml (xml_node : node) : result t :=
  match xml_node with
  | Element tagName attrs _ =>
      if negb (String.eqb tagName "LINKED_FILE_DESCRIPTOR") then
        Raise (RuntimeError ("Cannot construct an ELANLinkedFileDescriptor object from xml node of type " +:+ tagName))
      else
        link_url ← required attrs "LINK_URL" "LINKED_FILE_DESCRIPTOR is missing LINK_URL attribute.";
        let relative_link_url := optional attrs "RELATIVE_LINK_URL" in
        mime_type ← required attrs "MIME_TYPE" "LINKED_FILE_DESCRIPTOR is missing MIME_TYPE attribute.";
        let time_origin := optional attrs "TIME_ORIGIN" in
        let associated_with := optional attrs "ASSOCIATED_WITH" in
        mret (__init__ link_url mime_type relative_link_url time_origin associated_with)
  | _ => Raise (AttributeError "tagName")
  end.

Definition to_xml (indent : string) (self : t) : list node :=
  [ Text (indent +:+ indent);
    element "LINKED_FILE_DESCRIPTOR"
      ([("LINK_URL", link_url self)]
         ++ attr "RELATIVE_LINK_URL" (relative_link_url self)
         ++ [("MIME_TYPE", mime_type self)]
         ++ attr "TIME_ORIGIN" (time_origin self)
         ++ attr "ASSOCIATED_WITH" (associated_with self))
      [];
    Text nl ].

End ELANLinkedFileDescriptor.

(** ** class ELANAnnotation

    The attributes and methods the two kinds of annotation inherit.  The
    back-references [ELAN_file] and [tier] are not stored; the methods that
    follow them take what they read as an argument.  The annotation value is
    a string. *)
Module ELANAnnotation.

Record t := mk {
  annotation_id : string;
  annotation_value : string;
  external_ref : option string
}.

Definition get_annotation_id (self : t) := annotation_id self.
Definition get_annotation_value (self : t) := annotation_value self.
Definition get_external_ref (self : t) := external_ref self.

Definition set_external_ref (self : t) (external_ref : option string) : t :=
  mk (annotation_id self) (annotation_value self) external_ref.

Definition has_external_ref (self : t) : bool :=
  match external_ref self with Some _ => true | None => false end.

Definition is_empty (self : t) : bool := String.eqb (annotation_value self) EmptyString.

(** The value of the daughter element ANNOTATION_VALUE, as both
    [from_xml] factories extract it; [owner] is the tag in the message. *)
Definition value_from_xml (owner : string) (childNodes : list node) : result string :=
  match first_element childNodes with
  | None => Raise (AttributeError "'NoneType' object has no attribute 'nodeType'")
  | Some (Element tag _ grand_children) =>
      if negb (String.eqb tag "ANNOTATION_VALUE") then
        Raise (RuntimeError ("Expected ANNOTATION_VALUE element in " +:+ owner
                             +:+ " but found a " +:+ tag +:+ " element."))
      else
        match first_text grand_children with
        | Some data => OK data
        | None => OK EmptyString
        end
  | Some _ => Raise (AttributeError "tagName")
  end.

(** [<ANNOTATION_VALUE>...</ANNOTATION_VALUE>] with its indentation *)
Definition value_to_xml (indent : string) (self : t) : list node :=
  if negb (is_empty self) then
    [ Text (indent +:+ indent +:+ indent +:+ indent);
      element "ANNOTATION_VALUE" [] [Text (get_annotation_value self)];
      Text nl ]
  else
    [ Text (indent +:+ indent +:+ indent +:+ indent);
      element "ANNOTATION_VALUE" [] [];
      Text nl ].

End ELANAnnotation.

(** ** class ELANAlignableAnnotation(ELANAnnotation) *)
Module ELANAlignableAnnotation.

Record t := mk {
  base : ELANAnnotation.t;
  start_time_slot : string;
  end_time_slot : string;
  svg_ref : option string
}.

(** The constructor takes [external_ref] and does not assign it: the
    attribute keeps the class default [None]. *)
Definition __init__ (annotation_id annotation_value start_time_slot end_time_slot : string)
    (svg_ref external_ref : option string) : t :=
  mk (ELANAnnotation.mk annotation_id annotation_value None)
     start_time_slot end_time_slot svg_ref.

Definition from_xml (xml_node : node) : result t :=
  match xml_node with
  | Element tagName attrs childNodes =>
      if negb (String.eqb tagName "ALIGNABLE_ANNOTATION") then
        Raise (RuntimeError ("Cannot construct an ELANAlignableAnnotation object from xml node of type " +:+ tagName))
      else
        annotation_id ← required attrs "ANNOTATION_ID" "ALIGNABLE_ANNOTATION is missing ANNOTATION_ID attribute.";
        time_slot_ref1 ← required attrs "TIME_SLOT_REF1" "ALIGNABLE_ANNOTATION is missing TIME_SLOT_REF1 attribute.";
        time_slot_ref2 ← required attrs "TIME_SLOT_REF2" "ALIGNABLE_ANNOTATION is missing TIME_SLOT_REF2 attribute.";
        let svg_ref := optional attrs "SVG_REF" in
        let external_ref := optional attrs "EXTERNAL_REF" in
        annotation_value ← ELANAnnotation.value_from_xml "ALIGNABLE_ANNOTATION" childNodes;
        mret (__init__ annotation_id annotation_value time_slot_ref1 time_slot_ref2 svg_ref external_ref)
  | _ => Raise (AttributeError "tagName")
  end.

Definition get_start_time_slot (self : t) := start_time_slot self.
Definition get_end_time_slot (self : t) := end_time_slot self.

Definition to_xml (indent : string) (self : t) : list node :=
  [ Text (indent +:+ indent);
    element "ANNOTATION" []
      [ Text nl;
        Text (indent +:+ indent +:+ indent);
        element "ALIGNABLE_ANNOTATION"
          ([("ANNOTATION_ID", ELANAnnotation.get_annotation_id (base self));
            ("TIME_SLOT_REF1", get_start_time_slot self);
            ("TIME_SLOT_REF2", get_end_time_slot self)]
             ++ attr "SVG_REF" (svg_ref self)
             ++ attr "EXT_REF" (ELANAnnotation.get_external_ref (base self)))
          ([Text nl]
             ++ ELANAnnotation.value_to_xml indent (base self)
             ++ [Text (indent +:+ indent +:+ indent)]);
        Text nl;
        Text (indent +:+ indent) ];
    Text nl ].

(** [self.ELAN_file.time_order.get_time_slot_by_id(self.start_time_slot)]
    and the value of that slot.  [time_order] is the attribute of the
    annotation's [ELAN_file] as it is when the method is called. *)
Definition get_start_time (time_order : option ELANTimeOrder.t) (self : t) : result (option Z) :=
  match time_order with
  | None => Raise (AttributeError "'NoneType' object has no attribute 'get_time_slot_by_id'")
  | Some time_order =>
      time_slot ← ELANTimeOrder.get_time_slot_by_id time_order (start_time_slot self);
      mret (ELANTimeSlot.get_time_value time_slot)
  end.

Definition get_end_time (time_order : option ELANTimeOrder.t) (self : t) : result (option Z) :=
  match time_order with
  | None => Raise (AttributeError "'NoneType' object has no attribute 'get_time_slot_by_id'")
  | Some time_order =>
      time_slot ← ELANTimeOrder.get_time_slot_by_id time_order (end_time_slot self);
      mret (ELANTimeSlot.get_time_value time_slot)
  end.

(** The hooks.  Each annotation reads the time order of its own document:
    [file] is that of [self] and [file'] that of [other].  The operands of
    [and] are evaluated from left to right, the second only when the first
    is true. *)

(** The length in milliseconds: the absolute difference *)
Definition __len__ (file : option ELANTimeOrder.t) (self : t) : result Z :=
  start_time ← get_start_time file self;
  end_time ← get_end_time file self;
  difference ← py_sub end_time start_time;
  mret (Z.abs difference).

(** Temporal equality *)
Definition __eq__ (file file' : option ELANTimeOrder.t) (self other : t) : result bool :=
  start_time ← get_start_time file self;
  start_time' ← get_start_time file' other;
  if py_eq start_time start_time' then
    end_time ← get_end_time file self;
    end_time' ← get_end_time file' other;
    mret (if py_eq end_time end_time' then true else false)
  else mret false.

Definition __ne__ (file file' : option ELANTimeOrder.t) (self other : t) : result bool :=
  __eq__ file file' self other ≫= λ b : bool, mret (if b then false else true).

(** Temporal precedence *)
Definition __lt__ (file file' : option ELANTimeOrder.t) (self other : t) : result bool :=
  start_time ← get_start_time file self;
  start_time' ← get_start_time file' other;
  py_lt start_time start_time' ≫= λ b : bool,
  if b then
    end_time ← get_end_time file self;
    start_time' ← get_start_time file' other;
    py_le end_time start_time' ≫= λ b : bool, mret (if b then true else false)
  else mret false.

Definition __gt__ (file file' : option ELANTimeOrder.t) (self other : t) : result bool :=
  start_time ← get_start_time file self;
  end_time' ← get_end_time file' other;
  py_ge start_time end_time' ≫= λ b : bool,
  if b then
    start_time ← get_start_time file self;
    start_time' ← get_start_time file' other;
    py_gt start_time start_time' ≫= λ b : bool, mret (if b then true else false)
  else mret false.

End ELANAlignableAnnotation.

(** ** class ELANRefAnnotation(ELANAnnotation) *)
Module ELANRefAnnotation.

Record t := mk {
  base : ELANAnnotation.t;
  annotation_ref : string;
  previous_annotation : option string
}.

Definition __init__ (annotation_id annotation_value annotation_ref : string)
    (previous_annotation external_ref : option string) : t :=
  mk (ELANAnnotation.mk annotation_id annotation_value external_ref)
     annotation_ref previous_annotation.

Definition from_xml (xml_node : node) : result t :=
  match xml_node with
  | Element tagName attrs childNodes =>
      if negb (String.eqb tagName "REF_ANNOTATION") then
        Raise (RuntimeError ("Cannot construct an ELANRefAnnotation object from xml node of type " +:+ tagName))
      else
        annotation_id ← required attrs "ANNOTATION_ID" "ALIGNABLE_ANNOTATION is missing ANNOTATION_ID attribute.";
        annotation_ref ← required attrs "ANNOTATION_REF" "REF_ANNOTATION is missing ANNOTATION_REF attribute.";
        let previous_annotation := optional attrs "PREVIOUS_ANNOTATION" in
        let external_ref := optional attrs "EXTERNAL_REF" in
        annotation_value ← ELANAnnotation.value_from_xml "REF_ANNOTATION" childNodes;
        mret (__init__ annotation_id annotation_value annotation_ref previous_annotation external_ref)
  | _ => Raise (AttributeError "tagName")
  end.

Definition to_xml (indent : string) (self : t) : list node :=
  [ Text (indent +:+ indent);
    element "ANNOTATION" []
      [ Text nl;
        Text (indent +:+ indent +:+ indent);
        element "REF_ANNOTATION"
          ([("ANNOTATION_ID", ELANAnnotation.get_annotation_id (base self));
            ("ANNOTATION_REF", annotation_ref self)]
             ++ attr "PREVIOUS_ANNOTATION" (previous_annotation self)
             ++ attr "EXT_REF" (ELANAnnotation.get_external_ref (base self)))
          ([Text nl]
             ++ ELANAnnotation.value_to_xml indent (base self)
             ++ [Text (indent +:+ indent +:+ indent)]);
        Text nl;
        Text (indent +:+ indent) ];
    Text nl ].

End ELANRefAnnotation.

(** An annotation object is of one of the two subclasses; the methods of
    the base class and [to_xml] dispatch on it. *)
Inductive annotation :=
| Alignable (a : ELANAlignableAnnotation.t)
| Ref (r : ELANRefAnnotation.t).

Definition annotation_base (a : annotation) : ELANAnnotation.t :=
  match a with
  | Alignable a => ELANAlignableAnnotation.base a
  | Ref r => ELANRefAnnotation.base r
  end.

Definition get_annotation_id (a : annotation) : string :=
  ELANAnnotation.get_annotation_id (annotation_base a).

Definition has_external_ref (a : annotation) : bool :=
  ELANAnnotation.has_external_ref (annotation_base a).

Definition get_external_ref (a : annotation) : option string :=
  ELANAnnotation.get_external_ref (annotation_base a).

Definition annotation_to_xml (indent : string) (a : annotation) : list node :=
  match a with
  | Alignable a => ELANAlignableAnnotation.to_xml indent a
  | Ref r => ELANRefAnnotation.to_xml indent r
  end.

(** ** class ELANTier

    The dictionary [annotations_dict] that the constructor creates is never
    written and is left out. *)
Module ELANTier.

Record t := mk {
  tier_id : string;
  linguistic_type : string;
  participant : option string;
  annotator : option string;
  default_locale : option string;
  parent_tier_ref : option string;
  annotations : list annotation
}.

Definition __init__ (tier_id linguistic_type : string)
    (participant annotator default_locale parent_tier_ref : option string) : t :=
  mk tier_id linguistic_type participant annotator default_locale parent_tier_ref [].

Definition get_tier_id (self : t) := tier_id self.
Definition get_annotations (self : t) := annotations self.

(** [self.annotations.append(annotation)] *)
Definition add_annotation (self : t) (annotation : annotation) : t :=
  mk (tier_id self) (linguistic_type self) (participant self) (annotator self)
     (default_locale self) (parent_tier_ref self) (annotations self ++ [annotation]).

Definition __len__ (self : t) : nat := length (annotations self).

(** One pass of the loop of [from_xml] over the child nodes *)
Definition from_xml_child (tier : t) (child_node : node) : result t :=
  match child_node with
  | Element tag _ grand_children =>
      if negb (String.eqb tag "ANNOTATION") then
        Raise (RuntimeError ("Expected ANNOTATION element in TIER but found a "
                             +:+ tag +:+ " element."))
      else
        match first_element grand_children with
        | None => Raise (AttributeError "'NoneType' object has no attribute 'nodeType'")
        | Some (Element gtag _ _ as grand_child_node) =>
            if String.eqb gtag "ALIGNABLE_ANNOTATION" then
              alignable_annotation ← ELANAlignableAnnotation.from_xml grand_child_node;
              mret (add_annotation tier (Alignable alignable_annotation))
            else if String.eqb gtag "REF_ANNOTATION" then
              ref_annotation ← ELANRefAnnotation.from_xml grand_child_node;
              mret (add_annotation tier (Ref ref_annotation))
            else
              Raise (RuntimeError ("Expected ALIGNABLE_ANNOTATION or REF_ANNOTATION element in ANNOTATION but found a "
                                   +:+ tag +:+ " element."))
        | Some _ => Raise (AttributeError "tagName")
        end
  | _ => OK tier
  end.

Definition from_xml (xml_node : node) : result t :=
  match xml_node with
  | Element tagName attrs childNodes =>
      if negb (String.eqb tagName "TIER") then
        Raise (RuntimeError ("Cannot construct an ELANTier object from xml node of type " +:+ tagName))
      else
        tier_id ← required attrs "TIER_ID" "TIER is missing TIER_ID attribute.";
        let participant := optional attrs "PARTICIPANT" in
        let annotator := optional attrs "ANNOTATOR" in
        linguistic_type_ref ← required attrs "LINGUISTIC_TYPE_REF" "TIER is missing LINGUISTIC_TYPE_REF attribute.";
        let default_locale := optional attrs "DEFAULT_LOCALE" in
        let parent_ref := optional attrs "PARENT_REF" in
        for_each from_xml_child childNodes
          (__init__ tier_id linguistic_type_ref participant annotator default_locale parent_ref)
  | _ => Raise (AttributeError "tagName")
  end.

Definition to_xml (indent : string) (self : t) : list node :=
  [ Text indent;
    element "TIER"
      ([("TIER_ID", tier_id self)]
         ++ attr "PARTICIPANT" (participant self)
         ++ attr "ANNOTATOR" (annotator self)
         ++ [("LINGUISTIC_TYPE_REF", linguistic_type self)]
         ++ attr "DEFAULT_LOCALE" (default_locale self)
         ++ attr "PARENT_REF" (parent_tier_ref self))
      ([Text nl]
         ++ concat (annotation_to_xml indent <$> annotations self)
         ++ [Text indent]);
    Text nl ].

End ELANTier.

(** ** class ELANLinguisticType *)
Module ELANLinguisticType.

Record t := mk {
  linguistic_type_id : string;
  time_alignable : pyval;
  constraints : option string;
  graphic_references : pyval;
  controlled_vocabulary_ref : option string;
  external_ref : option string;
  lexicon_ref : option string
}.

(** [str(v)] in the message of the constructor *)
Definition py_str (v : pyval) : string :=
  match v with
  | PyNone => "None"
  | PyBool true => "True"
  | PyBool false => "False"
  | PyStr s => s
  end.

Definition __init__ (ID : string) (time_alignable : pyval) (constraints : option string)
    (graphic_ref : pyval) (cv_ref external_ref lexicon_ref : option string) : result t :=
  let new flag := mk ID flag constraints graphic_ref cv_ref external_ref lexicon_ref in
  match constraints with
  | None =>
      if bool_decide (time_alignable = PyStr "true") then OK (new (PyBool true))
      else if bool_decide (time_alignable = PyStr "false") then OK (new (PyBool false))
      else Raise (RuntimeError ("Illegal value " +:+ py_str time_alignable
                                +:+ " of attribute TIME_ALIGNABLE in LINGUISTIC_TYPE element."))
  | Some c =>
      if String.eqb c "None" then OK (new (PyBool true))
      else if String.eqb c "Time_Subdivision" then OK (new (PyBool true))
      else if String.eqb c "Symbolic_Subdivision" then OK (new (PyBool false))
      else if String.eqb c "Symbolic_Association" then OK (new (PyBool false))
      else if String.eqb c "Included_In" then OK (new (PyBool true))
      else Raise (RuntimeError ("Unknown constraint: " +:+ c))
  end.

Definition of_attribute (v : option string) : pyval :=
  match v with Some s => PyStr s | None => PyNone end.

Definition from_xml (xml_node : node) : result t :=
  match xml_node with
  | Element tagName attrs _ =>
      if negb (String.eqb tagName "LINGUISTIC_TYPE") then
        Raise (RuntimeError ("Cannot construct an ELANLinguisticType object from xml node of type " +:+ tagName))
      else
        linguistic_type_id ← required attrs "LINGUISTIC_TYPE_ID" "LINGUISTIC_TYPE is missing LINGUISTIC_TYPE_ID attribute.";
        let time_alignable := of_attribute (optional attrs "TIME_ALIGNABLE") in
        let constraints := optional attrs "CONSTRAINTS" in
        let graphic_ref := of_attribute (optional attrs "GRAPHIC_REFERENCES") in
        let cv_ref := optional attrs "CONTROLLED_VOCABULARY_REF" in
        let ext_ref := optional attrs "EXT_REF" in
        let lexicon_ref := optional attrs "LEXICON_REF" in
        __init__ linguistic_type_id time_alignable constraints graphic_ref cv_ref ext_ref lexicon_ref
  | _ => Raise (AttributeError "tagName")
  end.

Definition get_linguistic_type_id (self : t) := linguistic_type_id self.

Definition is_time_alignable (self : t) : bool :=
  bool_decide (time_alignable self = PyBool true).

Definition has_time_alignable_flag (self : t) : bool :=
  negb (bool_decide (time_alignable self = PyNone)).

Definition has_graphic_references_flag (self : t) : bool :=
  negb (bool_decide (graphic_references self = PyNone)).

Definition has_graphic_references (self : t) : bool :=
  bool_decide (graphic_references self = PyBool true).

Definition to_xml (indent : string) (self : t) : list node :=
  [ Text indent;
    element "LINGUISTIC_TYPE"
      ([("LINGUISTIC_TYPE_ID", linguistic_type_id self)]
         ++ (if has_time_alignable_flag self
             then if is_time_alignable self
                  then [("TIME_ALIGNABLE", "true")] else [("TIME_ALIGNABLE", "false")]
             else [])
         ++ attr "CONSTRAINTS" (constraints self)
         ++ (if has_graphic_references_flag self
             then if has_graphic_references self
                  then [("GRAPHIC_REFERENCES", "true")] else [("GRAPHIC_REFERENCES", "false")]
             else [])
         ++ attr "CONTROLLED_VOCABULARY_REF" (controlled_vocabulary_ref self)
         ++ attr "EXT_REF" (external_ref self)
         ++ attr "LEXICON_REF" (lexicon_ref self))
      [];
    Text nl ].

Definition with_time_alignable (self : t) (time_alignable : pyval) : t :=
  mk (linguistic_type_id self) time_alignable (constraints self) (graphic_references self)
     (controlled_vocabulary_ref self) (external_ref self) (lexicon_ref self).

(** In the second branch the message concatenates [self.constraints],
    which is [None] in the first of the three cases: that case raises
    [TypeError] instead of the [RuntimeError]. *)
Definition set_time_alignable (self : t) (time_alignable : pyval) : result t :=
  match time_alignable with
  | PyBool true =>
      match constraints self with
      | Some c =>
          if negb (String.eqb c "Time_Subdivison") && negb (String.eqb c "Included_In") then
            Raise (RuntimeError ("Constraint " +:+ c +:+ " is not time alignable."))
          else OK (with_time_alignable self time_alignable)
      | None => OK (with_time_alignable self time_alignable)
      end
  | PyBool false =>
      match constraints self with
      | None => Raise (TypeError "can only concatenate str (not NoneType) to str")
      | Some c =>
          if String.eqb c "Symbolic_Subdivision" || String.eqb c "Symbolic_Association" then
            Raise (RuntimeError ("Constraint " +:+ c +:+ " is time alignable."))
          else OK (with_time_alignable self time_alignable)
      end
  | _ => OK (with_time_alignable self time_alignable)
  end.

Definition with_constraints (self : t) (constraints : option string) : t :=
  mk (linguistic_type_id self) (time_alignable self) constraints (graphic_references self)
     (controlled_vocabulary_ref self) (external_ref self) (lexicon_ref self).

(** [set_constraints] assigns the constraint and then derives the flag
    from it.  The result is the object as the call leaves it, with the
    exception when one is raised: the constraint has then been assigned and
    the flag has not. *)
Definition set_constraints (self : t) (constraints : option string) : t * option exn :=
  let self := with_constraints self constraints in
  match constraints with
  | None => (with_time_alignable self (PyBool true), None)
  | Some c =>
      if String.eqb c "Time_Subdivision" then (with_time_alignable self (PyBool true), None)
      else if String.eqb c "Symbolic_Subdivision" then (with_time_alignable self (PyBool false), None)
      else if String.eqb c "Symbolic_Association" then (with_time_alignable self (PyBool false), None)
      else if String.eqb c "Included_In" then (with_time_alignable self (PyBool true), None)
      else (self, Some (RuntimeError ("Unknown constraint: " +:+ c)))
  end.

End ELANLinguisticType.

(** ** class ELANConstraint *)
Module ELANConstraint.

Record t := mk { stereotype : string; description : option string }.

Definition __init__ := mk.

Definition get_stereotype (self : t) := stereotype self.

Definition from_xml (xml_node : node) : result t :=
  match xml_node with
  | Element tagName attrs _ =>
      if negb (String.eqb tagName "CONSTRAINT") then
        Raise (RuntimeError ("Cannot construct an ELANConstraint object from xml node of type " +:+ tagName))
      else
        stereotype ← required attrs "STEREOTYPE" "CONSTRAINT is missing STEREOTYPE attribute.";
        let description := optional attrs "DESCRIPTION" in
        mret (__init__ stereotype description)
  | _ => Raise (AttributeError "tagName")
  end.

Definition to_xml (indent : string) (self : t) : list node :=
  [ Text indent;
    element "CONSTRAINT"
      ([("STEREOTYPE", stereotype self)] ++ attr "DESCRIPTION" (description self))
      [];
    Text nl ].

(** The method falls off its end, returning [None], for any other
    stereotype. *)
Definition is_time_alignable (self : t) : option bool :=
  if String.eqb (stereotype self) "Time_Subdivision" then Some true
  else if String.eqb (stereotype self) "Symbolic_Subdivision" then Some false
  else if String.eqb (stereotype self) "Symbolic_Association" then Some false
  else if String.eqb (stereotype self) "Included_In" then Some true
  else None.

End ELANConstraint.

(** ** class ELANControlledVocabularyEntry

    The back-reference [cv_ref] to the vocabulary is not stored. *)
Module ELANControlledVocabularyEntry.

Record t := mk {
  value : string;
  description : option string;
  ext_ref : option string
}.

Definition __init__ := mk.

Definition get_value (self : t) := value self.

Definition from_xml (xml_node : node) : result t :=
  match xml_node with
  | Element tagName attrs childNodes =>
      if negb (String.eqb tagName "CV_ENTRY") then
        Raise (RuntimeError ("Cannot construct an ELANControlledVocabularyEntry object from xml node of type " +:+ tagName))
      else
        let description := optional attrs "DESCRIPTION" in
        let external_ref := optional attrs "EXT_REF" in
        let value := match first_text childNodes with
                     | Some data => data
                     | None => EmptyString
                     end in
        mret (__init__ value description external_ref)
  | _ => Raise (AttributeError "tagName")
  end.

Definition to_xml (indent : string) (self : t) : list node :=
  [ Text (indent +:+ indent);
    element "CV_ENTRY"
      (attr "DESCRIPTION" (description self) ++ attr "EXT_REF" (ext_ref self))
      [Text (value self)];
    Text nl ].

End ELANControlledVocabularyEntry.

(** ** class ELANControlledVocabulary

    The class body creates one list [cv_entries] and one dictionary
    [cv_entries_dict]; the constructor assigns [cv_id], [description] and
    [ext_ref] only, and no method assigns the other two.  Every read of
    [self.cv_entries] or [self.cv_entries_dict] therefore finds the
    attribute of the class: [cls] is the state of these two objects, which
    all instances share, and [t] holds the attributes of an instance. *)
Module ELANControlledVocabulary.

Record cls := mk_cls {
  cv_entries : list ELANControlledVocabularyEntry.t;
  cv_entries_dict : gmap string ELANControlledVocabularyEntry.t
}.

(** The class attributes when the module has been loaded: [[]] and [{}] *)
Definition class_body : cls := mk_cls [] ∅.

Record t := mk {
  cv_id : string;
  description : option string;
  ext_ref : option string
}.

Definition __init__ (cv_id : string) (description ext_ref : option string) : t :=
  mk cv_id description ext_ref.

Definition get_cv_id (self : t) := cv_id self.
Definition get_cv_entries (C : cls) (self : t) := cv_entries C.
Definition get_cv_entries_dict (C : cls) (self : t) := cv_entries_dict C.

Definition __len__ (C : cls) (self : t) : nat := length (cv_entries C).

(** Only new, non-redundant entries are added. *)
Definition add_cv_entry (self : t) (cv_entry : ELANControlledVocabularyEntry.t) (C : cls)
    : result cls :=
  match ext_ref self with
  | None =>
      if bool_decide (cv_entries_dict C !! ELANControlledVocabularyEntry.get_value cv_entry = None)
      then OK (mk_cls (cv_entries C ++ [cv_entry])
                      (<[ELANControlledVocabularyEntry.get_value cv_entry := cv_entry]>
                         (cv_entries_dict C)))
      else OK C
  | Some _ =>
      Raise (RuntimeError "Cannot add entries to a controlled vocabulary pointing to an external reference.")
  end.

Definition get_cv_entry_by_value (C : cls) (self : t) (value : string)
    : option ELANControlledVocabularyEntry.t :=
  cv_entries_dict C !! value.

(** One pass of the loop of [from_xml] over the child nodes.  The loop
    skips text nodes only; the message of its error names the tag of the
    vocabulary element. *)
Definition from_xml_child (tagName : string) (cv : t) (C : cls) (child_node : node)
      : result cls :=
  match child_node with
  | Text _ => OK C
  | Element tag _ _ =>
      if negb (String.eqb tag "CV_ENTRY") then
        Raise (RuntimeError ("Cannot construct an ELANControlledVocabularyEntry object from xml node of type " +:+ tagName))
      else
        cv_entry ← ELANControlledVocabularyEntry.from_xml child_node;
        add_cv_entry cv cv_entry C
  | Comment _ => Raise (AttributeError "tagName")
  end.

Definition from_xml (xml_node : node) (C : cls) : result (t * cls) :=
  match xml_node with
  | Element tagName attrs childNodes =>
      if negb (String.eqb tagName "CONTROLLED_VOCABULARY") then
        Raise (RuntimeError ("Cannot construct an ELANControlledVocabulary object from xml node of type " +:+ tagName))
      else
        cv_id ← required attrs "CV_ID" "CONTROLLED_VOCABULARY is missing CV_ID attribute.";
        let description := optional attrs "DESCRIPTION" in
        let external_ref := optional attrs "EXT_REF" in
        let cv := __init__ cv_id description external_ref in
        C' ← for_each (from_xml_child tagName cv) childNodes C;
        mret (cv, C')
  | _ => Raise (AttributeError "tagName")
  end.

Definition to_xml (indent : string) (C : cls) (self : t) : list node :=
  [ Text indent;
    element "CONTROLLED_VOCABULARY"
      ([("CV_ID", cv_id self)]
         ++ attr "DESCRIPTION" (description self)
         ++ attr "EXT_REF" (ext_ref self))
      ([Text nl]
         ++ concat (ELANControlledVocabularyEntry.to_xml indent <$> cv_entries C)
         ++ [Text indent]);
    Text nl ].

End ELANControlledVocabulary.

(** ** class ELANExternalReference *)
Module ELANExternalReference.

Record t := mk {
  ext_ref_id : string;
  ext_ref_type : string;
  value : string
}.

Definition known_types : list string :=
  ["iso12620"; "ecv"; "cve_id"; "lexen_id"; "resource_url"].

Definition __init__ (ext_ref_id ext_ref_type value : string) : result t :=
  if negb (existsb (String.eqb ext_ref_type) known_types) then
    Raise (RuntimeError ("Unknown type of external reference: " +:+ ext_ref_type))
  else OK (mk ext_ref_id ext_ref_type value).

Definition get_id (self : t) := ext_ref_id self.

Definition from_xml (xml_node : node) : result t :=
  match xml_node with
  | Element tagName attrs childNodes =>
      if negb (String.eqb tagName "EXTERNAL_REF") then
        Raise (RuntimeError ("Cannot construct an ELANExternalReference object from xml node of type " +:+ tagName))
      else
        external_ref_id ← required attrs "EXT_REF_ID" "EXTERNAL_REF is missing EXT_REF_ID attribute.";
        external_ref_type ← required attrs "TYPE" "EXTERNAL_REF is missing TYPE attribute.";
        external_ref_value ← match first_text childNodes with
                             | Some data => OK data
                             | None => Raise (RuntimeError "EXTERNAL_REF is empty.")
                             end;
        __init__ external_ref_id external_ref_type external_ref_value
  | _ => Raise (AttributeError "tagName")
  end.

(** The start tag is closed with a line break, and the value follows. *)
Definition to_xml (indent : string) (self : t) : list node :=
  [ Text indent;
    element "EXTERNAL_REF"
      [("EXT_REF_ID", ext_ref_id self); ("TYPE", ext_ref_type self)]
      [Text nl; Text (value self)];
    Text nl ].

Definition refers_to_isocat (self : t) : bool :=
  if String.eqb (ext_ref_type self) "iso12620" then true else false.

Definition refers_to_external_cv (self : t) : bool :=
  if String.eqb (ext_ref_type self) "ecv" then true else false.

Definition refers_to_external_cv_entry (self : t) : bool :=
  if String.eqb (ext_ref_type self) "cve_id" then true else false.

Definition refers_to_lexeme (self : t) : bool :=
  if String.eqb (ext_ref_type self) "lexen_id" then true else false.

Definition refers_to_url (self : t) : bool :=
  if String.eqb (ext_ref_type self) "resource_url" then true else false.

End ELANExternalReference.

(** ** class ELANLocale *)
Module ELANLocale.

Record t := mk {
  language_code : string;
  country_code : option string;
  variant : option string
}.

Definition __init__ := mk.

Definition from_xml (xml_node : node) : result t :=
  match xml_node with
  | Element tagName attrs _ =>
      if negb (String.eqb tagName "LOCALE") then
        Raise (RuntimeError ("Cannot construct an ELANLocale object from xml node of type " +:+ tagName))
      else
        language_code ← required attrs "LANGUAGE_CODE" "LOCALE is missing LANGUAGE_CODE attribute.";
        let country_code := optional attrs "COUNTRY_CODE" in
        let variant := optional attrs "VARIANT" in
        mret (__init__ language_code country_code variant)
  | _ => Raise (AttributeError "tagName")
  end.

Definition to_xml (indent : string) (self : t) : list node :=
  [ Text indent;
    element "LOCALE"
      ([("LANGUAGE_CODE", language_code self)]
         ++ attr "COUNTRY_CODE" (country_code self)
         ++ attr "VARIANT" (variant self))
      [];
    Text nl ].

End ELANLocale.

(** ** class ELANLexiconReference *)
Module ELANLexiconReference.

Record t := mk {
  lex_ref_id : string;
  lex_ref_name : string;
  lex_ref_type : string;
  url : string;
  lexicon_id : string;
  lexicon_name : string;
  datcat_id : option string;
  datcat_name : option string
}.

Definition __init__ := mk.

Definition get_id (self : t) := lex_ref_id self.

(** The identifier is read from LEX_REF_ID, and the lexicon name, once
    LEXICON_NAME is present, from the attribute LEXINCON_NAME. *)
Definition from_xml (xml_node : node) : result t :=
  match xml_node with
  | Element tagName attrs _ =>
      if negb (String.eqb tagName "LEXICON_REF") then
        Raise (RuntimeError ("Cannot construct an ELANLexiconReference object from xml node of type " +:+ tagName))
      else
        lexicon_ref_id ← required attrs "LEX_REF_ID" "LEXICON_REF is missing LEX_REF_ID attribute.";
        name ← required attrs "NAME" "LEXICON_REF is missing NAME attribute.";
        lexicon_ref_type ← required attrs "TYPE" "LEXICON_REF is missing TYPE attribute.";
        url ← required attrs "URL" "LEXICON_REF is missing URL attribute.";
        lexicon_id ← required attrs "LEXICON_ID" "LEXICON_REF is missing LEXICON_ID attribute.";
        lexicon_name ← (if hasAttribute attrs "LEXICON_NAME"
                        then OK (getAttribute attrs "LEXINCON_NAME")
                        else Raise (RuntimeError "LEXICON_REF is missing LEXICON_NAME attribute."));
        let datcat_id := optional attrs "DATCAT_ID" in
        let datcat_name := optional attrs "DATCAT_NAME" in
        mret (__init__ lexicon_ref_id name lexicon_ref_type url lexicon_id lexicon_name
                       datcat_id datcat_name)
  | _ => Raise (AttributeError "tagName")
  end.

(** The identifier is written as LEXICON_REF_ID. *)
Definition to_xml (indent : string) (self : t) : list node :=
  [ Text indent;
    element "LEXICON_REF"
      ([("LEXICON_REF_ID", lex_ref_id self);
        ("NAME", lex_ref_name self);
        ("TYPE", lex_ref_type self);
        ("URL", url self);
        ("LEXICON_ID", lexicon_id self);
        ("LEXICON_NAME", lexicon_name self)]
         ++ attr "DATCAT_ID" (datcat_id self)
         ++ attr "DATCAT_NAME" (datcat_name self))
      [];
    Text nl ].

End ELANLexiconReference.

(** ** Objects shared by reference

    A tier is reached both from the variable that holds it and from the
    list and the dictionary of the document it was added to, and
    [add_annotation] changes it in place.  Tier objects therefore live in a
    store and are referred to by their position in it.  The store also
    holds the class attributes of [ELANControlledVocabulary]. *)
Definition tier_ref := nat.

#[projections(primitive)]
Record store := mk_store {
  tier_objects : list ELANTier.t;
  cv_class : ELANControlledVocabulary.cls
}.

(** [tier.add_annotation(annotation)] where [tier] is the object at [r] *)
Definition call_add_annotation (r : tier_ref) (a : annotation) (s : store) : result store :=
  match tier_objects s !! r with
  | Some tier =>
      OK (mk_store (<[r := ELANTier.add_annotation tier a]> (tier_objects s)) (cv_class s))
  | None => Raise (AttributeError "no such object")
  end.

(** A new tier object *)
Definition new_tier (tier : ELANTier.t) (s : store) : tier_ref * store :=
  (length (tier_objects s), mk_store (tier_objects s ++ [tier]) (cv_class s)).

(** A dictionary with string keys: [d[k] = v] keeps the place of a key
    that is present and puts a new key last; iteration follows the list. *)
Fixpoint dict_set (d : list (string * string)) (k v : string) : list (string * string) :=
  match d with
  | [] => [(k, v)]
  | (k', v') :: r => if String.eqb k' k then (k, v) :: r else (k', v') :: dict_set r k v
  end.

Fixpoint dict_get (d : list (string * string)) (k : string) : option string :=
  match d with
  | [] => None
  | (k', v') :: r => if String.eqb k' k then Some v' else dict_get r k
  end.

(** [for x in l: d[key(x)] = x], the way every dictionary view of a
    document is filled from a list *)
Definition index {A} (key : A → string) (d : gmap string A) (l : list A) : gmap string A :=
  foldl (λ d x, <[key x := x]> d) d l.

(** ** class ELANFile

    [url] and [xml_tree] only record where the document came from and are
    left out.  [media_file] has no class default: it is [None] here as long
    as it has not been assigned. *)
Module ELANFile.

#[projections(primitive)]
Record t := mk {
  author : option string;
  date : option string;
  format : option string;
  version : option string;
  media_file : option string;
  time_units : option string;
  media_files : list ELANMediaDescriptor.t;
  linked_files : list ELANLinkedFileDescriptor.t;
  properties : list (string * string);
  time_order : option ELANTimeOrder.t;
  tiers : list tier_ref;
  linguistic_types : list ELANLinguisticType.t;
  constraints : list ELANConstraint.t;
  controlled_vocabularies : list ELANControlledVocabulary.t;
  locales : list ELANLocale.t;
  lexicon_references : list ELANLexiconReference.t;
  external_references : list ELANExternalReference.t;
  media_files_dict : gmap string ELANMediaDescriptor.t;
  linked_files_dict : gmap string ELANLinkedFileDescriptor.t;
  time_slots_dict : gmap string ELANTimeSlot.t;
  tiers_dict : gmap string tier_ref;
  annotations_dict : gmap string annotation;
  linguistic_types_dict : gmap string ELANLinguisticType.t;
  constraints_dict : gmap string ELANConstraint.t;
  controlled_vocabularies_dict : gmap string ELANControlledVocabulary.t;
  external_references_dict : gmap string ELANExternalReference.t;
  lexicon_references_dict : gmap string ELANLexiconReference.t
}.

Definition with_media_file (x : option string) (self : t) : t :=
  let 'mk f1 f2 f3 f4 f5 f6 f7 f8 f9 f10 f11 f12 f13 f14 f15 f16 f17 f18 f19 f20 f21 f22
    f23 f24 f25 f26 f27 := self in
  mk f1 f2 f3 f4 x f6 f7 f8 f9 f10 f11 f12 f13 f14 f15 f16 f17 f18 f19 f20 f21 f22 f23
    f24 f25 f26 f27.

Definition with_time_units (x : option string) (self : t) : t :=
  let 'mk f1 f2 f3 f4 f5 f6 f7 f8 f9 f10 f11 f12 f13 f14 f15 f16 f17 f18 f19 f20 f21 f22
    f23 f24 f25 f26 f27 := self in
  mk f1 f2 f3 f4 f5 x f7 f8 f9 f10 f11 f12 f13 f14 f15 f16 f17 f18 f19 f20 f21 f22 f23
    f24 f25 f26 f27.

Definition with_media_files (x : list ELANMediaDescriptor.t) (self : t) : t :=
  let 'mk f1 f2 f3 f4 f5 f6 f7 f8 f9 f10 f11 f12 f13 f14 f15 f16 f17 f18 f19 f20 f21 f22
    f23 f24 f25 f26 f27 := self in
  mk f1 f2 f3 f4 f5 f6 x f8 f9 f10 f11 f12 f13 f14 f15 f16 f17 f18 f19 f20 f21 f22 f23
    f24 f25 f26 f27.

Definition with_linked_files (x : list ELANLinkedFileDescriptor.t) (self : t) : t :=
  let 'mk f1 f2 f3 f4 f5 f6 f7 f8 f9 f10 f11 f12 f13 f14 f15 f16 f17 f18 f19 f20 f21 f22
    f23 f24 f25 f26 f27 := self in
  mk f1 f2 f3 f4 f5 f6 f7 x f9 f10 f11 f12 f13 f14 f15 f16 f17 f18 f19 f20 f21 f22 f23
    f24 f25 f26 f27.

Definition with_properties (x : list (string * string)) (self : t) : t :=
  let 'mk f1 f2 f3 f4 f5 f6 f7 f8 f9 f10 f11 f12 f13 f14 f15 f16 f17 f18 f19 f20 f21 f22
    f23 f24 f25 f26 f27 := self in
  mk f1 f2 f3 f4 f5 f6 f7 f8 x f10 f11 f12 f13 f14 f15 f16 f17 f18 f19 f20 f21 f22 f23
    f24 f25 f26 f27.

Definition with_time_order (x : option ELANTimeOrder.t) (self : t) : t :=
  let 'mk f1 f2 f3 f4 f5 f6 f7 f8 f9 f10 f11 f12 f13 f14 f15 f16 f17 f18 f19 f20 f21 f22
    f23 f24 f25 f26 f27 := self in
  mk f1 f2 f3 f4 f5 f6 f7 f8 f9 x f11 f12 f13 f14 f15 f16 f17 f18 f19 f20 f21 f22 f23
    f24 f25 f26 f27.

Definition with_tiers (x : list tier_ref) (self : t) : t :=
  let 'mk f1 f2 f3 f4 f5 f6 f7 f8 f9 f10 f11 f12 f13 f14 f15 f16 f17 f18 f19 f20 f21 f22
    f23 f24 f25 f26 f27 := self in
  mk f1 f2 f3 f4 f5 f6 f7 f8 f9 f10 x f12 f13 f14 f15 f16 f17 f18 f19 f20 f21 f22 f23
    f24 f25 f26 f27.

Definition with_linguistic_types (x : list ELANLinguisticType.t) (self : t) : t :=
  let 'mk f1 f2 f3 f4 f5 f6 f7 f8 f9 f10 f11 f12 f13 f14 f15 f16 f17 f18 f19 f20 f21 f22
    f23 f24 f25 f26 f27 := self in
  mk f1 f2 f3 f4 f5 f6 f7 f8 f9 f10 f11 x f13 f14 f15 f16 f17 f18 f19 f20 f21 f22 f23
    f24 f25 f26 f27.

Definition with_constraints (x : list ELANConstraint.t) (self : t) : t :=
  let 'mk f1 f2 f3 f4 f5 f6 f7 f8 f9 f10 f11 f12 f13 f14 f15 f16 f17 f18 f19 f20 f21 f22
    f23 f24 f25 f26 f27 := self in
  mk f1 f2 f3 f4 f5 f6 f7 f8 f9 f10 f11 f12 x f14 f15 f16 f17 f18 f19 f20 f21 f22 f23
    f24 f25 f26 f27.

Definition with_controlled_vocabularies (x : list ELANControlledVocabulary.t) (self : t) : t :=
  let 'mk f1 f2 f3 f4 f5 f6 f7 f8 f9 f10 f11 f12 f13 f14 f15 f16 f17 f18 f19 f20 f21 f22
    f23 f24 f25 f26 f27 := self in
  mk f1 f2 f3 f4 f5 f6 f7 f8 f9 f10 f11 f12 f13 x f15 f16 f17 f18 f19 f20 f21 f22 f23
    f24 f25 f26 f27.

Definition with_locales (x : list ELANLocale.t) (self : t) : t :=
  let 'mk f1 f2 f3 f4 f5 f6 f7 f8 f9 f10 f11 f12 f13 f14 f15 f16 f17 f18 f19 f20 f21 f22
    f23 f24 f25 f26 f27 := self in
  mk f1 f2 f3 f4 f5 f6 f7 f8 f9 f10 f11 f12 f13 f14 x f16 f17 f18 f19 f20 f21 f22 f23
    f24 f25 f26 f27.

Definition with_lexicon_references (x : list ELANLexiconReference.t) (self : t) : t :=
  let 'mk f1 f2 f3 f4 f5 f6 f7 f8 f9 f10 f11 f12 f13 f14 f15 f16 f17 f18 f19 f20 f21 f22
    f23 f24 f25 f26 f27 := self in
  mk f1 f2 f3 f4 f5 f6 f7 f8 f9 f10 f11 f12 f13 f14 f15 x f17 f18 f19 f20 f21 f22 f23
    f24 f25 f26 f27.

Definition with_external_references (x : list ELANExternalReference.t) (self : t) : t :=
  let 'mk f1 f2 f3 f4 f5 f6 f7 f8 f9 f10 f11 f12 f13 f14 f15 f16 f17 f18 f19 f20 f21 f22
    f23 f24 f25 f26 f27 := self in
  mk f1 f2 f3 f4 f5 f6 f7 f8 f9 f10 f11 f12 f13 f14 f15 f16 x f18 f19 f20 f21 f22 f23
    f24 f25 f26 f27.

Definition with_media_files_dict (x : gmap string ELANMediaDescriptor.t) (self : t) : t :=
  let 'mk f1 f2 f3 f4 f5 f6 f7 f8 f9 f10 f11 f12 f13 f14 f15 f16 f17 f18 f19 f20 f21 f22
    f23 f24 f25 f26 f27 := self in
  mk f1 f2 f3 f4 f5 f6 f7 f8 f9 f10 f11 f12 f13 f14 f15 f16 f17 x f19 f20 f21 f22 f23
    f24 f25 f26 f27.

Definition with_linked_files_dict (x : gmap string ELANLinkedFileDescriptor.t) (self : t) : t :=
  let 'mk f1 f2 f3 f4 f5 f6 f7 f8 f9 f10 f11 f12 f13 f14 f15 f16 f17 f18 f19 f20 f21 f22
    f23 f24 f25 f26 f27 := self in
  mk f1 f2 f3 f4 f5 f6 f7 f8 f9 f10 f11 f12 f13 f14 f15 f16 f17 f18 x f20 f21 f22 f23
    f24 f25 f26 f27.

Definition with_time_slots_dict (x : gmap string ELANTimeSlot.t) (self : t) : t :=
  let 'mk f1 f2 f3 f4 f5 f6 f7 f8 f9 f10 f11 f12 f13 f14 f15 f16 f17 f18 f19 f20 f21 f22
    f23 f24 f25 f26 f27 := self in
  mk f1 f2 f3 f4 f5 f6 f7 f8 f9 f10 f11 f12 f13 f14 f15 f16 f17 f18 f19 x f21 f22 f23
    f24 f25 f26 f27.

Definition with_tiers_dict (x : gmap string tier_ref) (self : t) : t :=
  let 'mk f1 f2 f3 f4 f5 f6 f7 f8 f9 f10 f11 f12 f13 f14 f15 f16 f17 f18 f19 f20 f21 f22
    f23 f24 f25 f26 f27 := self in
  mk f1 f2 f3 f4 f5 f6 f7 f8 f9 f10 f11 f12 f13 f14 f15 f16 f17 f18 f19 f20 x f22 f23
    f24 f25 f26 f27.

Definition with_annotations_dict (x : gmap string annotation) (self : t) : t :=
  let 'mk f1 f2 f3 f4 f5 f6 f7 f8 f9 f10 f11 f12 f13 f14 f15 f16 f17 f18 f19 f20 f21 f22
    f23 f24 f25 f26 f27 := self in
  mk f1 f2 f3 f4 f5 f6 f7 f8 f9 f10 f11 f12 f13 f14 f15 f16 f17 f18 f19 f20 f21 x f23
    f24 f25 f26 f27.

Definition with_linguistic_types_dict (x : gmap string ELANLinguisticType.t) (self : t) : t :=
  let 'mk f1 f2 f3 f4 f5 f6 f7 f8 f9 f10 f11 f12 f13 f14 f15 f16 f17 f18 f19 f20 f21 f22
    f23 f24 f25 f26 f27 := self in
  mk f1 f2 f3 f4 f5 f6 f7 f8 f9 f10 f11 f12 f13 f14 f15 f16 f17 f18 f19 f20 f21 f22 x
    f24 f25 f26 f27.

Definition with_constraints_dict (x : gmap string ELANConstraint.t) (self : t) : t :=
  let 'mk f1 f2 f3 f4 f5 f6 f7 f8 f9 f10 f11 f12 f13 f14 f15 f16 f17 f18 f19 f20 f21 f22
    f23 f24 f25 f26 f27 := self in
  mk f1 f2 f3 f4 f5 f6 f7 f8 f9 f10 f11 f12 f13 f14 f15 f16 f17 f18 f19 f20 f21 f22 f23
    x f25 f26 f27.

Definition with_controlled_vocabularies_dict (x : gmap string ELANControlledVocabulary.t) (self : t) : t :=
  let 'mk f1 f2 f3 f4 f5 f6 f7 f8 f9 f10 f11 f12 f13 f14 f15 f16 f17 f18 f19 f20 f21 f22
    f23 f24 f25 f26 f27 := self in
  mk f1 f2 f3 f4 f5 f6 f7 f8 f9 f10 f11 f12 f13 f14 f15 f16 f17 f18 f19 f20 f21 f22 f23
    f24 x f26 f27.

Definition with_external_references_dict (x : gmap string ELANExternalReference.t) (self : t) : t :=
  let 'mk f1 f2 f3 f4 f5 f6 f7 f8 f9 f10 f11 f12 f13 f14 f15 f16 f17 f18 f19 f20 f21 f22
    f23 f24 f25 f26 f27 := self in
  mk f1 f2 f3 f4 f5 f6 f7 f8 f9 f10 f11 f12 f13 f14 f15 f16 f17 f18 f19 f20 f21 f22 f23
    f24 f25 x f27.

Definition with_lexicon_references_dict (x : gmap string ELANLexiconReference.t) (self : t) : t :=
  let 'mk f1 f2 f3 f4 f5 f6 f7 f8 f9 f10 f11 f12 f13 f14 f15 f16 f17 f18 f19 f20 f21 f22
    f23 f24 f25 f26 f27 := self in
  mk f1 f2 f3 f4 f5 f6 f7 f8 f9 f10 f11 f12 f13 f14 f15 f16 f17 f18 f19 f20 f21 f22 f23
    f24 f25 f26 x.
(** The object [parse_xml] starts from: every attribute reinitialised *)
Definition fresh : t :=
  mk None None None None None None [] [] [] None [] [] [] [] [] [] []
     ∅ ∅ ∅ ∅ ∅ ∅ ∅ ∅ ∅ ∅.

Definition get_property (self : t) (key : string) : option string :=
  dict_get (properties self) key.

(** One pass of the loop over the children of HEADER *)
Definition parse_header_child (elan_file : t) (header_child_node : node) : result t :=
  match header_child_node with
  | Element tag attrs childNodes =>
      if String.eqb tag "MEDIA_DESCRIPTOR" then
        media_descriptor ← ELANMediaDescriptor.from_xml header_child_node;
        mret (with_media_files_dict
                (<[ELANMediaDescriptor.get_media_url media_descriptor := media_descriptor]>
                   (media_files_dict elan_file))
                (with_media_files (media_files elan_file ++ [media_descriptor]) elan_file))
      else if String.eqb tag "LINKED_FILE_DESCRIPTOR" then
        linked_file_descriptor ← ELANLinkedFileDescriptor.from_xml header_child_node;
        mret (with_linked_files_dict
                (<[ELANLinkedFileDescriptor.get_link_url linked_file_descriptor := linked_file_descriptor]>
                   (linked_files_dict elan_file))
                (with_linked_files (linked_files elan_file ++ [linked_file_descriptor]) elan_file))
      else if String.eqb tag "PROPERTY" then
        name ← required attrs "NAME" "PROPERTY element is missing NAME attribute.";
        value ← match first_text childNodes with
                | Some data => OK data
                | None => Raise (RuntimeError "PROPERTY is empty.")
                end;
        mret (with_properties (dict_set (properties elan_file) name value) elan_file)
      else
        Raise (RuntimeError ("Unknown ELAN header entry: " +:+ tag))
  | _ => OK elan_file
  end.

(** [self.tiers.append(tier)], [self.tiers_dict[tier.get_tier_id()] = tier]
    and [self.annotations_dict[annotation.get_annotation_id()] = annotation]
    for every annotation of the tier: the statements that [parse_xml] and
    [add_tier] have in common.  [r] refers to the object [tier]. *)
Definition append_tier (r : tier_ref) (tier : ELANTier.t) (self : t) : t :=
  with_annotations_dict
    (index get_annotation_id (annotations_dict self) (ELANTier.annotations tier))
    (with_tiers_dict (<[ELANTier.get_tier_id tier := r]> (tiers_dict self))
       (with_tiers (tiers self ++ [r]) self)).

(** One pass of the loop over the children of ANNOTATION_DOCUMENT.  The
    value of TIME_UNITS is assigned to [media_file]. *)
Definition parse_child (acc : t * store) (child_node : node) : result (t * store) :=
  let elan_file := acc.1 in
  let s := acc.2 in
  match child_node with
  | Element tag attrs childNodes =>
      if String.eqb tag "HEADER" then
        let elan_file :=
          if hasAttribute attrs "MEDIA_FILE"
          then with_media_file (Some (getAttribute attrs "MEDIA_FILE")) elan_file
          else elan_file in
        let elan_file :=
          if hasAttribute attrs "TIME_UNITS"
          then with_media_file (Some (getAttribute attrs "TIME_UNITS")) elan_file
          else with_time_units (Some "milliseconds") elan_file in
        elan_file ← for_each parse_header_child childNodes elan_file;
        mret (elan_file, s)
      else if String.eqb tag "TIME_ORDER" then
        time_order ← ELANTimeOrder.from_xml child_node;
        mret (with_time_slots_dict
                (index ELANTimeSlot.get_id (time_slots_dict elan_file)
                   (ELANTimeOrder.time_slots time_order))
                (with_time_order (Some time_order) elan_file), s)
      else if String.eqb tag "TIER" then
        tier ← ELANTier.from_xml child_node;
        let '(r, s) := new_tier tier s in
        mret (append_tier r tier elan_file, s)
      else if String.eqb tag "LINGUISTIC_TYPE" then
        linguistic_type ← ELANLinguisticType.from_xml child_node;
        mret (with_linguistic_types_dict
                (<[ELANLinguisticType.get_linguistic_type_id linguistic_type := linguistic_type]>
                   (linguistic_types_dict elan_file))
                (with_linguistic_types (linguistic_types elan_file ++ [linguistic_type])
                   elan_file), s)
      else if String.eqb tag "CONSTRAINT" then
        constraint ← ELANConstraint.from_xml child_node;
        mret (with_constraints_dict
                (<[ELANConstraint.get_stereotype constraint := constraint]>
                   (constraints_dict elan_file))
                (with_constraints (constraints elan_file ++ [constraint]) elan_file), s)
      else if String.eqb tag "CONTROLLED_VOCABULARY" then
        '(controlled_vocabulary, C) ← ELANControlledVocabulary.from_xml child_node (cv_class s);
        mret (with_controlled_vocabularies_dict
                (<[ELANControlledVocabulary.get_cv_id controlled_vocabulary := controlled_vocabulary]>
                   (controlled_vocabularies_dict elan_file))
                (with_controlled_vocabularies
                   (controlled_vocabularies elan_file ++ [controlled_vocabulary]) elan_file),
              mk_store (tier_objects s) C)
      else if String.eqb tag "EXTERNAL_REF" then
        external_ref ← ELANExternalReference.from_xml child_node;
        mret (with_external_references_dict
                (<[ELANExternalReference.get_id external_ref := external_ref]>
                   (external_references_dict elan_file))
                (with_external_references (external_references elan_file ++ [external_ref])
                   elan_file), s)
      else if String.eqb tag "LOCALE" then
        locale ← ELANLocale.from_xml child_node;
        mret (with_locales (locales elan_file ++ [locale]) elan_file, s)
      else if String.eqb tag "LEXICON_REF" then
        lexicon_ref ← ELANLexiconReference.from_xml child_node;
        mret (with_lexicon_references_dict
                (<[ELANLexiconReference.get_id lexicon_ref := lexicon_ref]>
                   (lexicon_references_dict elan_file))
                (with_lexicon_references (lexicon_references elan_file ++ [lexicon_ref])
                   elan_file), s)
      else
        Raise (RuntimeError ("Unknown XML node: " +:+ tag))
  | _ => OK acc
  end.

(** [xml_tree] is the list of children of the DOM document.  AUTHOR,
    DATE, FORMAT and VERSION are each read when present. *)
Definition parse_xml (xml_tree : list node) (s : store) : result (t * store) :=
  match xml_tree with
  | [] => Raise (AttributeError "'NoneType' object has no attribute 'nodeName'")
  | Element nodeName attrs childNodes :: _ =>
      if String.eqb nodeName "ANNOTATION_DOCUMENT" then
        let elan_file :=
          mk (optional attrs "AUTHOR") (optional attrs "DATE") (optional attrs "FORMAT")
             (optional attrs "VERSION") None None [] [] [] None [] [] [] [] [] [] []
             ∅ ∅ ∅ ∅ ∅ ∅ ∅ ∅ ∅ ∅ in
        for_each parse_child childNodes (elan_file, s)
      else
        Raise (RuntimeError "XML document does not have the correct type ANNOTATION_DOCUMENT.")
  | _ :: _ =>
      Raise (RuntimeError "XML document does not have the correct type ANNOTATION_DOCUMENT.")
  end.

(** [escape(v)], which fails on [None] *)
Definition escape (v : option string) : result string :=
  match v with
  | Some s => OK s
  | None => Raise (AttributeError "'NoneType' object has no attribute 'replace'")
  end.

Definition has_format (self : t) : bool :=
  match format self with Some _ => true | None => false end.

Definition has_time_units (self : t) : bool :=
  match time_units self with Some _ => true | None => false end.

(** The tier objects of the document *)
Definition get_tier_objects (s : store) (self : t) : result (list ELANTier.t) :=
  mapM (λ r, match tier_objects s !! r with
             | Some tier => OK tier
             | None => Raise (AttributeError "no such object")
             end) (tiers self).

Definition header_to_xml (indent : string) (self : t) : result (list node) :=
  time_units ← (if has_time_units self then escape (time_units self) else OK "milliseconds");
  properties ← mapM (λ prop, value ← escape (get_property self prop.1);
                             mret [ Text (indent +:+ indent);
                                    element "PROPERTY" [("NAME", prop.1)] [Text value];
                                    Text nl ])
                    (properties self);
  mret [ Text indent;
         element "HEADER"
           [("MEDIA_FILE", EmptyString); ("TIME_UNITS", time_units)]
           ([Text nl]
              ++ concat (ELANMediaDescriptor.to_xml indent <$> media_files self)
              ++ concat (ELANLinkedFileDescriptor.to_xml indent <$> linked_files self)
              ++ concat properties
              ++ [Text indent]);
         Text nl ].

(** The buffer is well formed by construction, so that the final
    [dom.parseString] of the source succeeds and the buffer is returned.
    The XML declaration that opens the buffer is not a node. *)
Definition to_xml (s : store) (indent : string) (self : t) : result (list node) :=
  date ← escape (date self);
  author ← escape (author self);
  version ← escape (version self);
  format ← (if has_format self then escape (format self) else OK "2.7");
  header ← header_to_xml indent self;
  time_order ← match time_order self with
               | Some time_order => OK time_order
               | None => Raise (AttributeError "'NoneType' object has no attribute 'to_xml'")
               end;
  tiers ← get_tier_objects s self;
  mret [ element "ANNOTATION_DOCUMENT"
           [("DATE", date); ("AUTHOR", author); ("VERSION", version); ("FORMAT", format)]
           ([Text nl]
              ++ header
              ++ ELANTimeOrder.to_xml indent time_order
              ++ concat (ELANTier.to_xml indent <$> tiers)
              ++ concat (ELANLinguisticType.to_xml indent <$> linguistic_types self)
              ++ concat (ELANLocale.to_xml indent <$> locales self)
              ++ concat (ELANConstraint.to_xml indent <$> constraints self)
              ++ concat (ELANControlledVocabulary.to_xml indent (cv_class s)
                           <$> controlled_vocabularies self)
              ++ concat (ELANLexiconReference.to_xml indent <$> lexicon_references self)
              ++ concat (ELANExternalReference.to_xml indent <$> external_references self));
         Text nl ].

(** [add_tier]: the type check fails when [r] is not a tier object. *)
Definition add_tier (s : store) (r : tier_ref) (self : t) : result t :=
  match tier_objects s !! r with
  | Some tier => OK (append_tier r tier self)
  | None => Raise (TypeError "Tier to be added has to be of type ELANTier.")
  end.

Definition get_tier_by_id (self : t) (tier_id : string) : option tier_ref :=
  tiers_dict self !! tier_id.

Definition get_annotation_by_id (self : t) (annotation_id : string) : result annotation :=
  match annotations_dict self !! annotation_id with
  | Some a => OK a
  | None => Raise (KeyError ("Unknown annotation ID: " +:+ annotation_id))
  end.

(** [self.properties[prop] = value] *)
Definition set_property (self : t) (prop value : string) : t :=
  with_properties (dict_set (properties self) prop value) self.

(** The [add_] methods below check the type of their argument first; an
    argument of the type passes the check. *)
Definition add_linguistic_type (self : t) (linguistic_type : ELANLinguisticType.t) : t :=
  with_linguistic_types_dict
    (<[ELANLinguisticType.get_linguistic_type_id linguistic_type := linguistic_type]>
       (linguistic_types_dict self))
    (with_linguistic_types (linguistic_types self ++ [linguistic_type]) self).

Definition add_constraint (self : t) (constraint : ELANConstraint.t) : t :=
  with_constraints_dict
    (<[ELANConstraint.get_stereotype constraint := constraint]> (constraints_dict self))
    (with_constraints (constraints self ++ [constraint]) self).

Definition add_locale (self : t) (locale : ELANLocale.t) : t :=
  with_locales (locales self ++ [locale]) self.

Definition add_lexicon_reference (self : t) (lexicon_reference : ELANLexiconReference.t) : t :=
  with_lexicon_references_dict
    (<[ELANLexiconReference.get_id lexicon_reference := lexicon_reference]>
       (lexicon_references_dict self))
    (with_lexicon_references (lexicon_references self ++ [lexicon_reference]) self).

Definition add_external_reference (self : t) (external_reference : ELANExternalReference.t) : t :=
  with_external_references_dict
    (<[ELANExternalReference.get_id external_reference := external_reference]>
       (external_references_dict self))
    (with_external_references (external_references self ++ [external_reference]) self).

(** [self.time_order.add_time_slot(time_slot)], which raises when the
    identifier is in use, and then [self.time_slots_dict[...] = time_slot] *)
Definition add_time_slot (self : t) (time_slot : ELANTimeSlot.t) : result t :=
  match time_order self with
  | None => Raise (AttributeError "'NoneType' object has no attribute 'add_time_slot'")
  | Some time_order =>
      time_order ← ELANTimeOrder.add_time_slot time_order time_slot;
      mret (with_time_slots_dict
              (<[ELANTimeSlot.get_id time_slot := time_slot]> (time_slots_dict self))
              (with_time_order (Some time_order) self))
  end.

(** [add_media_file], [add_linked_file] and [add_controlled_vocabulary]
    append to the list and then ask the new entity for its key with a
    method that its class does not define ([get_url], [get_url] and
    [get_id]): the call raises [AttributeError] when the list has been
    changed and the dictionary has not.  The result is the document as the
    call leaves it, and the exception. *)
Definition add_media_file (self : t) (media_file : ELANMediaDescriptor.t) : t * exn :=
  (with_media_files (media_files self ++ [media_file]) self,
   AttributeError "'ELANMediaDescriptor' object has no attribute 'get_url'").

Definition add_linked_file (self : t) (linked_file : ELANLinkedFileDescriptor.t) : t * exn :=
  (with_linked_files (linked_files self ++ [linked_file]) self,
   AttributeError "'ELANLinkedFileDescriptor' object has no attribute 'get_url'").

Definition add_controlled_vocabulary (self : t)
    (controlled_vocabulary : ELANControlledVocabulary.t) : t * exn :=
  (with_controlled_vocabularies (controlled_vocabularies self ++ [controlled_vocabulary]) self,
   AttributeError "'ELANControlledVocabulary' object has no attribute 'get_id'").

(** The lookups that return [None] for an unknown key *)
Definition get_media_file_by_url (self : t) (url : string) : option ELANMediaDescriptor.t :=
  media_files_dict self !! url.

Definition get_linked_file_by_url (self : t) (url : string)
    : option ELANLinkedFileDescriptor.t :=
  linked_files_dict self !! url.

End ELANFile.

(** ** Comparing a document with its decoded encoding

    The encoder writes the external reference of an annotation as EXT_REF
    and the decoder looks for EXTERNAL_REF; the flag GRAPHIC_REFERENCES is
    written from a boolean and read as a string; the value of an external
    reference is written after a line break.  The comparison leaves these
    three attributes aside, and the time units, which the decoder assigns
    to [media_file]. *)

Definition without_external_ref (a : annotation) : annotation :=
  match a with
  | Alignable a =>
      Alignable (ELANAlignableAnnotation.mk
                   (ELANAnnotation.set_external_ref (ELANAlignableAnnotation.base a) None)
                   (ELANAlignableAnnotation.start_time_slot a)
                   (ELANAlignableAnnotation.end_time_slot a)
                   (ELANAlignableAnnotation.svg_ref a))
  | Ref r =>
      Ref (ELANRefAnnotation.mk
             (ELANAnnotation.set_external_ref (ELANRefAnnotation.base r) None)
             (ELANRefAnnotation.annotation_ref r)
             (ELANRefAnnotation.previous_annotation r))
  end.

Definition without_external_refs (tier : ELANTier.t) : ELANTier.t :=
  ELANTier.mk (ELANTier.tier_id tier) (ELANTier.linguistic_type tier)
    (ELANTier.participant tier) (ELANTier.annotator tier) (ELANTier.default_locale tier)
    (ELANTier.parent_tier_ref tier) (without_external_ref <$> ELANTier.annotations tier).

Definition without_graphic_references (lt : ELANLinguisticType.t) : ELANLinguisticType.t :=
  ELANLinguisticType.mk (ELANLinguisticType.linguistic_type_id lt)
    (ELANLinguisticType.time_alignable lt) (ELANLinguisticType.constraints lt) PyNone
    (ELANLinguisticType.controlled_vocabulary_ref lt) (ELANLinguisticType.external_ref lt)
    (ELANLinguisticType.lexicon_ref lt).

Definition without_value (x : ELANExternalReference.t) : ELANExternalReference.t :=
  ELANExternalReference.mk (ELANExternalReference.ext_ref_id x)
    (ELANExternalReference.ext_ref_type x) EmptyString.

(** The tier found under an identifier: [get_tier_by_id], then the object *)
Definition tier_by_id (s : store) (D : ELANFile.t) (tier_id : string) : option ELANTier.t :=
  ELANFile.get_tier_by_id D tier_id ≫= λ r, tier_objects s !! r.

(** The tiers of a document, in the order of its list *)
Definition tiers_of (s : store) (D : ELANFile.t) : list (option ELANTier.t) :=
  (λ r, tier_objects s !! r) <$> ELANFile.tiers D.

(** [for tier in tiers: d[tier.get_tier_id()] = tier], on references *)
Definition index_tiers (s : store) (d : gmap string tier_ref) (l : list tier_ref)
    : gmap string tier_ref :=
  foldl (λ d r, match tier_objects s !! r with
                | Some tier => <[ELANTier.get_tier_id tier := r]> d
                | None => d
                end) d l.

(** The dictionary views of a document hold what its lists hold, entered
    in the order of the lists: the state in which [parse_xml] and the [add_]
    methods leave them. *)
Record indexed (s : store) (D : ELANFile.t) : Prop := {
  indexed_media_files :
    ELANFile.media_files_dict D
    = index ELANMediaDescriptor.get_media_url ∅ (ELANFile.media_files D);
  indexed_linked_files :
    ELANFile.linked_files_dict D
    = index ELANLinkedFileDescriptor.get_link_url ∅ (ELANFile.linked_files D);
  indexed_time_order :
    ∀ time_order, ELANFile.time_order D = Some time_order →
      ELANTimeOrder.time_slots_dict time_order
      = index ELANTimeSlot.get_id ∅ (ELANTimeOrder.time_slots time_order)
      ∧ ELANFile.time_slots_dict D = ELANTimeOrder.time_slots_dict time_order;
  indexed_tiers :
    ELANFile.tiers_dict D = index_tiers s ∅ (ELANFile.tiers D);
  indexed_annotations :
    ∀ tiers, ELANFile.get_tier_objects s D = OK tiers →
      ELANFile.annotations_dict D
      = index get_annotation_id ∅ (tiers ≫= ELANTier.annotations);
  indexed_linguistic_types :
    ELANFile.linguistic_types_dict D
    = index ELANLinguisticType.get_linguistic_type_id ∅ (ELANFile.linguistic_types D);
  indexed_constraints :
    ELANFile.constraints_dict D
    = index ELANConstraint.get_stereotype ∅ (ELANFile.constraints D);
  indexed_controlled_vocabularies :
    ELANFile.controlled_vocabularies_dict D
    = index ELANControlledVocabulary.get_cv_id ∅ (ELANFile.controlled_vocabularies D);
  indexed_external_references :
    ELANFile.external_references_dict D
    = index ELANExternalReference.get_id ∅ (ELANFile.external_references D);
  indexed_lexicon_references :
    ELANFile.lexicon_references_dict D
    = index ELANLexiconReference.get_id ∅ (ELANFile.lexicon_references D)
}.

(** The entities of a document are as the code builds them: the
    properties form a dictionary with non-empty values, the time slots have
    distinct identifiers, linguistic types and external references are as
    their constructors return them, every entry of the vocabulary class is
    in its dictionary, and a vocabulary with an external reference exists
    only while the class has no entries. *)
Record constructed (s : store) (D : ELANFile.t) : Prop := {
  constructed_properties : NoDup (ELANFile.properties D).*1;
  constructed_property_values :
    ∀ prop, prop ∈ ELANFile.properties D → prop.2 ≠ EmptyString;
  constructed_time_order :
    ∀ time_order, ELANFile.time_order D = Some time_order →
      NoDup (ELANTimeSlot.get_id <$> ELANTimeOrder.time_slots time_order);
  constructed_linguistic_types :
    ∀ lt, lt ∈ ELANFile.linguistic_types D →
      ∃ time_alignable,
        ELANLinguisticType.__init__ (ELANLinguisticType.linguistic_type_id lt) time_alignable
          (ELANLinguisticType.constraints lt) (ELANLinguisticType.graphic_references lt)
          (ELANLinguisticType.controlled_vocabulary_ref lt)
          (ELANLinguisticType.external_ref lt) (ELANLinguisticType.lexicon_ref lt) = OK lt;
  constructed_external_references :
    ∀ x, x ∈ ELANFile.external_references D →
      ELANExternalReference.__init__ (ELANExternalReference.ext_ref_id x)
        (ELANExternalReference.ext_ref_type x) (ELANExternalReference.value x) = OK x;
  constructed_cv_entries :
    ∀ e, e ∈ ELANControlledVocabulary.cv_entries (cv_class s) →
      is_Some (ELANControlledVocabulary.cv_entries_dict (cv_class s)
                 !! ELANControlledVocabularyEntry.get_value e);
  constructed_controlled_vocabularies :
    ELANControlledVocabulary.cv_entries (cv_class s) = []
    ∨ ∀ cv, cv ∈ ELANFile.controlled_vocabularies D → ELANControlledVocabulary.ext_ref cv = None
}.

(** What the decoded encoding [(D', s')] of [(D, s)] has in common with it:
    the metadata but for the format, which is 2.7 when [D] has none, and
    but for the time units; the lists, and with them the counts; and what
    is found in each dictionary view. *)
Record preserved (s : store) (D : ELANFile.t) (s' : store) (D' : ELANFile.t) : Prop := {
  preserved_author : ELANFile.author D' = ELANFile.author D;
  preserved_date : ELANFile.date D' = ELANFile.date D;
  preserved_version : ELANFile.version D' = ELANFile.version D;
  preserved_format :
    ELANFile.format D' = Some (default "2.7" (ELANFile.format D));
  preserved_media_files : ELANFile.media_files D' = ELANFile.media_files D;
  preserved_media_files_dict : ELANFile.media_files_dict D' = ELANFile.media_files_dict D;
  preserved_linked_files : ELANFile.linked_files D' = ELANFile.linked_files D;
  preserved_linked_files_dict :
    ELANFile.linked_files_dict D' = ELANFile.linked_files_dict D;
  preserved_properties : ELANFile.properties D' = ELANFile.properties D;
  preserved_time_order : ELANFile.time_order D' = ELANFile.time_order D;
  preserved_time_slots_dict : ELANFile.time_slots_dict D' = ELANFile.time_slots_dict D;
  preserved_tiers :
    fmap (M:=option) without_external_refs <$> tiers_of s' D'
    = fmap (M:=option) without_external_refs <$> tiers_of s D;
  preserved_tiers_dict :
    ∀ tier_id, without_external_refs <$> tier_by_id s' D' tier_id
               = without_external_refs <$> tier_by_id s D tier_id;
  preserved_annotations_dict :
    without_external_ref <$> ELANFile.annotations_dict D'
    = without_external_ref <$> ELANFile.annotations_dict D;
  preserved_linguistic_types :
    without_graphic_references <$> ELANFile.linguistic_types D'
    = without_graphic_references <$> ELANFile.linguistic_types D;
  preserved_linguistic_types_dict :
    without_graphic_references <$> ELANFile.linguistic_types_dict D'
    = without_graphic_references <$> ELANFile.linguistic_types_dict D;
  preserved_constraints : ELANFile.constraints D' = ELANFile.constraints D;
  preserved_constraints_dict : ELANFile.constraints_dict D' = ELANFile.constraints_dict D;
  preserved_controlled_vocabularies :
    ELANFile.controlled_vocabularies D' = ELANFile.controlled_vocabularies D;
  preserved_controlled_vocabularies_dict :
    ELANFile.controlled_vocabularies_dict D' = ELANFile.controlled_vocabularies_dict D;
  preserved_cv_entries : cv_class s' = cv_class s;
  preserved_locales : ELANFile.locales D' = ELANFile.locales D;
  preserved_lexicon_references :
    ELANFile.lexicon_references D' = ELANFile.lexicon_references D;
  preserved_lexicon_references_dict :
    ELANFile.lexicon_references_dict D' = ELANFile.lexicon_references_dict D;
  preserved_external_references :
    without_value <$> ELANFile.external_references D'
    = without_value <$> ELANFile.external_references D;
  preserved_external_references_dict :
    without_value <$> ELANFile.external_references_dict D'
    = without_value <$> ELANFile.external_references_dict D
}.

(** What [parse_xml] establishes of the entities of a document, whatever the
    element tree: [s0] is the store before the call and [acc] the document
    and the store so far. *)
Abbreviation decoded_entities s0 acc :=
  ((∃ new, tier_objects (snd acc) = tier_objects s0 ++ new
           ∧ ELANFile.tiers (fst acc) = seq (length (tier_objects s0)) (length new))
   ∧ NoDup (ELANFile.properties (fst acc)).*1
   ∧ (∀ time_order, ELANFile.time_order (fst acc) = Some time_order →
        NoDup (ELANTimeSlot.get_id <$> ELANTimeOrder.time_slots time_order)
        ∧ ELANTimeOrder.time_slots_dict time_order
          = index ELANTimeSlot.get_id ∅ (ELANTimeOrder.time_slots time_order))
   ∧ (∀ lt, lt ∈ ELANFile.linguistic_types (fst acc) →
        ∃ time_alignable,
          ELANLinguisticType.__init__ (ELANLinguisticType.linguistic_type_id lt) time_alignable
            (ELANLinguisticType.constraints lt) (ELANLinguisticType.graphic_references lt)
            (ELANLinguisticType.controlled_vocabulary_ref lt)
            (ELANLinguisticType.external_ref lt) (ELANLinguisticType.lexicon_ref lt) = OK lt)
   ∧ (∀ x, x ∈ ELANFile.external_references (fst acc) →
        ELANExternalReference.__init__ (ELANExternalReference.ext_ref_id x)
          (ELANExternalReference.ext_ref_type x) (ELANExternalReference.value x) = OK x)).

(** ** A sample document

    Time slots ts1 (0 ms) and ts2 (1000 ms) and the unanchored ts3; one tier
    T of linguistic type default with the alignable annotation a1 from ts1
    to ts2, of value hello. *)
Module Sample.

Definition ts1 := ELANTimeSlot.mk "ts1" (Some 0%Z).
Definition ts2 := ELANTimeSlot.mk "ts2" (Some 1000%Z).
Definition ts3 := ELANTimeSlot.mk "ts3" None.

Definition time_order : ELANTimeOrder.t :=
  ELANTimeOrder.mk [ts1; ts2; ts3] (<["ts3" := ts3]> (<["ts2" := ts2]> (<["ts1" := ts1]> ∅))).

Definition a1 : ELANAlignableAnnotation.t :=
  ELANAlignableAnnotation.__init__ "a1" "hello" "ts1" "ts2" None None.

(** An annotation from the unanchored slot ts3 to ts9, which does not exist *)
Definition a2 : ELANAlignableAnnotation.t :=
  ELANAlignableAnnotation.__init__ "a2" "world" "ts3" "ts9" None None.

(** Another annotation that is given the identifier a1 *)
Definition a1' : ELANAlignableAnnotation.t :=
  ELANAlignableAnnotation.__init__ "a1" "again" "ts2" "ts3" None None.

Definition T : ELANTier.t :=
  ELANTier.add_annotation (ELANTier.__init__ "T" "default" None None None None) (Alignable a1).

(** A second tier, which holds the annotation [a1'] *)
Definition U : ELANTier.t :=
  ELANTier.add_annotation (ELANTier.__init__ "U" "default" None None None None) (Alignable a1').

Definition default_type : ELANLinguisticType.t :=
  ELANLinguisticType.mk "default" (PyBool true) None PyNone None None None.

(** The store holds [T] at 0 and [U] at 1; the vocabulary class is as
    loaded. *)
Definition objects : store := mk_store [T; U] ELANControlledVocabulary.class_body.

(** The document: [T] has been added, [U] has not. *)
Definition doc : ELANFile.t :=
  ELANFile.mk (Some "author") (Some "2016-06-01") (Some "2.7") (Some "2.7")
    None (Some "milliseconds") [] [] [("a", "1"); ("b", "2")] (Some time_order)
    [0] [default_type] [] [] [] [] []
    ∅ ∅ (ELANTimeOrder.time_slots_dict time_order) (<["T" := 0]> ∅)
    (<["a1" := Alignable a1]> ∅) (<["default" := default_type]> ∅) ∅ ∅ ∅ ∅.

(** A linguistic type with the given constraint and no flag yet *)
Definition linguistic_type_with (constraints : option string) : ELANLinguisticType.t :=
  ELANLinguisticType.mk "lt" PyNone constraints PyNone None None None.

(** Two vocabulary entries of value a, and the class attributes of
    [ELANControlledVocabulary] once the first has been added *)
Definition entry_a : ELANControlledVocabularyEntry.t :=
  ELANControlledVocabularyEntry.mk "a" None None.

Definition entry_a' : ELANControlledVocabularyEntry.t :=
  ELANControlledVocabularyEntry.mk "a" (Some "the same value once more") None.

Definition class_with_a : ELANControlledVocabulary.cls :=
  ELANControlledVocabulary.mk_cls [entry_a] (<["a" := entry_a]> ∅).

(** A document with an entity of every kind.

    The document [archive] has no format; beside the time order, the tier
    [T] and the linguistic type of [doc] it holds a media descriptor, a
    linked file, a property, a constraint, a controlled vocabulary, a locale
    and an external reference.  The vocabulary class of its store holds the
    entry a. *)
Definition media : ELANMediaDescriptor.t :=
  ELANMediaDescriptor.mk "file:///rec/m.wav" "audio/x-wav" (Some "./m.wav") None None.

Definition linked : ELANLinkedFileDescriptor.t :=
  ELANLinkedFileDescriptor.mk "file:///rec/m.txt" "text/plain" None None None.

Definition locale : ELANLocale.t := ELANLocale.mk "en" (Some "US") None.

Definition constraint : ELANConstraint.t :=
  ELANConstraint.mk "Symbolic_Association" (Some "1-1 association with a parent annotation").

Definition vocabulary : ELANControlledVocabulary.t :=
  ELANControlledVocabulary.mk "cv" (Some "a vocabulary") None.

Definition xref : ELANExternalReference.t :=
  ELANExternalReference.mk "er1" "iso12620" "http://www.isocat.org/datcat/DC-1345".

Definition lexicon : ELANLexiconReference.t :=
  ELANLexiconReference.mk "lr1" "lexicon" "type" "http://lexicon" "l1" "lexicon" None None.

Definition archive_objects : store := mk_store [T] class_with_a.

Definition archive : ELANFile.t :=
  ELANFile.mk (Some "author") (Some "2016-06-01") None (Some "2.7")
    None None [media] [linked] [("a", "1")] (Some time_order)
    [0] [default_type] [constraint] [vocabulary] [locale] [] [xref]
    (<["file:///rec/m.wav" := media]> ∅) (<["file:///rec/m.txt" := linked]> ∅)
    (ELANTimeOrder.time_slots_dict time_order) (<["T" := 0]> ∅)
    (<["a1" := Alignable a1]> ∅) (<["default" := default_type]> ∅)
    (<["Symbolic_Association" := constraint]> ∅) (<["cv" := vocabulary]> ∅)
    (<["er1" := xref]> ∅) ∅.

Definition doc_with_lexicon : ELANFile.t :=
  ELANFile.with_lexicon_references_dict (<["lr1" := lexicon]> ∅)
    (ELANFile.with_lexicon_references [lexicon] doc).

(** Four anchored time slots, and three annotations that follow one
    another on them *)
Definition timeline : ELANTimeOrder.t :=
  let slots := [ELANTimeSlot.mk "t1" (Some 0%Z); ELANTimeSlot.mk "t2" (Some 1000%Z);
                ELANTimeSlot.mk "t3" (Some 2500%Z); ELANTimeSlot.mk "t4" (Some 4000%Z)] in
  ELANTimeOrder.mk slots (index ELANTimeSlot.get_id ∅ slots).

Definition first : ELANAlignableAnnotation.t :=
  ELANAlignableAnnotation.__init__ "b1" "one" "t1" "t2" None None.

Definition second : ELANAlignableAnnotation.t :=
  ELANAlignableAnnotation.__init__ "b2" "two" "t2" "t3" None None.

Definition third : ELANAlignableAnnotation.t :=
  ELANAlignableAnnotation.__init__ "b3" "three" "t3" "t4" None None.

(** An element tree as the parser returns it for a small document *)
Definition tree : list node :=
  [Element "ANNOTATION_DOCUMENT"
     [("AUTHOR", "author"); ("DATE", "2016-06-01"); ("FORMAT", "2.7"); ("VERSION", "2.7")]
     [Text nl;
      Element "HEADER" [("MEDIA_FILE", EmptyString); ("TIME_UNITS", "milliseconds")]
        [Text nl;
         Element "MEDIA_DESCRIPTOR"
           [("MEDIA_URL", "file:///rec/m.wav"); ("MIME_TYPE", "audio/x-wav")] [];
         Text nl;
         Element "PROPERTY" [("NAME", "lastUsedAnnotationId")] [Text "1"];
         Text nl];
      Text nl;
      Element "TIME_ORDER" []
        [Element "TIME_SLOT" [("TIME_SLOT_ID", "ts1"); ("TIME_VALUE", "0")] [];
         Element "TIME_SLOT" [("TIME_SLOT_ID", "ts2"); ("TIME_VALUE", "1000")] [];
         Element "TIME_SLOT" [("TIME_SLOT_ID", "ts3")] []];
      Comment "the only tier";
      Element "TIER" [("TIER_ID", "T"); ("LINGUISTIC_TYPE_REF", "default")]
        [Element "ANNOTATION" []
           [Element "ALIGNABLE_ANNOTATION"
              [("ANNOTATION_ID", "a1"); ("TIME_SLOT_REF1", "ts1"); ("TIME_SLOT_REF2", "ts2")]
              [Element "ANNOTATION_VALUE" [] [Text "hello"]]]];
      Element "LINGUISTIC_TYPE"
        [("LINGUISTIC_TYPE_ID", "default"); ("TIME_ALIGNABLE", "true");
         ("GRAPHIC_REFERENCES", "false")] [];
      Element "LOCALE" [("LANGUAGE_CODE", "en"); ("COUNTRY_CODE", "US")] [];
      Element "CONSTRAINT" [("STEREOTYPE", "Symbolic_Association")] [];
      Element "EXTERNAL_REF" [("EXT_REF_ID", "er1"); ("TYPE", "iso12620")]
        [Text "http://www.isocat.org/datcat/DC-1345"];
      Text nl]].

End Sample.

(** * Properties *)

(** ** Auxiliary facts *)

Lemma bind_OK {A B} (m : result A) (f : A → result B) (b : B) :
  m ≫= f = OK b → ∃ a, m = OK a ∧ f a = OK b.
Proof. destruct m as [a|e]; simpl; [eauto | discriminate]. Qed.

Lemma for_each_app {A S} (body : S → A → result S) (l1 l2 : list A) (s : S) :
  for_each body (l1 ++ l2) s = for_each body l1 s ≫= for_each body l2.
Proof.
  revert s; induction l1 as [|x l1 IH]; intros s; simpl; [done|].
  destruct (body s x); simpl; [apply IH | done].
Qed.

Lemma mapM_OK {A B} (f : A → result B) (l : list A) (ys : list B) :
  mapM f l = OK ys → Forall2 (λ x y, f x = OK y) l ys.
Proof.
  revert ys; induction l as [|x l IH]; intros ys; simpl.
  - intros [= <-]. constructor.
  - intros H. apply bind_OK in H as (y & Hy & H).
    apply bind_OK in H as (ys' & Hys & [= <-]).
    constructor; [done | by apply IH].
Qed.

Section index.
Context {A : Type} (key : A → string).

Lemma index_app d l1 l2 : index key d (l1 ++ l2) = index key (index key d l1) l2.
Proof. apply foldl_app. Qed.

Lemma index_not_in d l k : (∀ x, x ∈ l → key x ≠ k) → index key d l !! k = d !! k.
Proof.
  revert d; induction l as [|x l IH]; intros d H; simpl; [done|].
  rewrite IH.
  - apply lookup_insert_ne, H. left.
  - intros y Hy. apply H. by right.
Qed.

(** The last entity entered under a key is the one found. *)
Lemma index_last d l1 x l2 :
  (∀ y, y ∈ l2 → key y ≠ key x) → index key d (l1 ++ x :: l2) !! key x = Some x.
Proof.
  intros H. rewrite index_app. simpl.
  rewrite index_not_in by done. apply lookup_insert_eq.
Qed.

Lemma index_is_Some d l x : x ∈ l → is_Some (index key d l !! key x).
Proof.
  induction l as [|y l IH] using rev_ind; [by intros ?%elem_of_nil|].
  rewrite index_app. simpl. intros [Hx | ->%list_elem_of_singleton]%elem_of_app.
  - destruct (decide (key y = key x)) as [E|E].
    + rewrite E, lookup_insert_eq. eauto.
    + rewrite lookup_insert_ne by done. by apply IH.
  - rewrite lookup_insert_eq. eauto.
Qed.
End index.


(** ** Time slots: ordering *)

(** C3 (as the code has it).  For two slots with concrete values each
    ordering operator returns the comparison of the two integers.  When
    exactly one value is absent every operator raises [TypeError].  When
    both values are absent [<] and [>] raise [TypeError], while [<=] and
    [>=] return [True]: the equality of the two values is tested first. *)
Theorem timeslot_ordering (i j : string) (x y : option Z) :
  let a := ELANTimeSlot.mk i x in
  let b := ELANTimeSlot.mk j y in
  ELANTimeSlot.__lt__ a b
    = match x, y with
      | Some u, Some v => OK (bool_decide (u < v)%Z)
      | _, _ => Raise (unorderable "<" x y)
      end
  ∧ ELANTimeSlot.__gt__ a b
    = match x, y with
      | Some u, Some v => OK (bool_decide (u > v)%Z)
      | _, _ => Raise (unorderable ">" x y)
      end
  ∧ ELANTimeSlot.__le__ a b
    = match x, y with
      | Some u, Some v => OK (bool_decide (u <= v)%Z)
      | None, None => OK true
      | _, _ => Raise (unorderable "<" x y)
      end
  ∧ ELANTimeSlot.__ge__ a b
    = match x, y with
      | Some u, Some v => OK (bool_decide (u >= v)%Z)
      | None, None => OK true
      | _, _ => Raise (unorderable ">" x y)
      end.
Proof.
  unfold ELANTimeSlot.__lt__, ELANTimeSlot.__gt__, ELANTimeSlot.__le__,
    ELANTimeSlot.__ge__, py_eq; simpl.
  destruct x as [u|], y as [v|]; simpl; repeat split; try reflexivity.
  - by destruct (bool_decide (u < v)%Z).
  - by destruct (bool_decide (u > v)%Z).
  - case_bool_decide as E.
    + inversion E; subst. rewrite bool_decide_eq_true_2; [done | lia].
    + simpl. destruct (decide (u < v)%Z) as [L|L].
      * rewrite !bool_decide_eq_true_2; [done | lia | done].
      * rewrite !bool_decide_eq_false_2; [done | | done].
        intros ?. apply E. f_equal. lia.
  - case_bool_decide as E.
    + inversion E; subst. rewrite bool_decide_eq_true_2; [done | lia].
    + simpl. destruct (decide (u > v)%Z) as [L|L].
      * rewrite !bool_decide_eq_true_2; [done | lia | done].
      * rewrite !bool_decide_eq_false_2; [done | | done].
        intros ?. apply E. f_equal. lia.
Qed.

(** Two slots without a value: [<=] and [>=] answer [True] and no error is
    raised. *)
Lemma timeslot_absent_values_compare_equal :
  ELANTimeSlot.has_time_value (ELANTimeSlot.mk "ts1" None) = false
  ∧ ELANTimeSlot.has_time_value (ELANTimeSlot.mk "ts2" None) = false
  ∧ ELANTimeSlot.__le__ (ELANTimeSlot.mk "ts1" None) (ELANTimeSlot.mk "ts2" None) = OK true
  ∧ ELANTimeSlot.__ge__ (ELANTimeSlot.mk "ts1" None) (ELANTimeSlot.mk "ts2" None) = OK true.
Proof. repeat split; reflexivity. Qed.

(** ** Alignable annotations: start and end time *)

(** C6 (as the code has it).  In a document with a time order, each call
    of [get_start_time] and [get_end_time] looks the slot identifier up in
    the time order the document has at that call.  An identifier that is
    not there raises [KeyError]; otherwise the call returns the time value
    of the slot, which is [None] for a slot without a value: no error is
    raised for an unanchored slot. *)
Theorem alignable_time_resolution
    (D : ELANFile.t) (time_order : ELANTimeOrder.t) (A : ELANAlignableAnnotation.t) :
  ELANFile.time_order D = Some time_order →
  ELANAlignableAnnotation.get_start_time (ELANFile.time_order D) A
    = match ELANTimeOrder.time_slots_dict time_order
              !! ELANAlignableAnnotation.start_time_slot A with
      | Some time_slot => OK (ELANTimeSlot.time_value time_slot)
      | None => Raise (KeyError "No ELANTimeSlot with the given ID found.")
      end
  ∧ ELANAlignableAnnotation.get_end_time (ELANFile.time_order D) A
    = match ELANTimeOrder.time_slots_dict time_order
              !! ELANAlignableAnnotation.end_time_slot A with
      | Some time_slot => OK (ELANTimeSlot.time_value time_slot)
      | None => Raise (KeyError "No ELANTimeSlot with the given ID found.")
      end.
Proof.
  intros ->.
  unfold ELANAlignableAnnotation.get_start_time, ELANAlignableAnnotation.get_end_time,
    ELANTimeOrder.get_time_slot_by_id.
  split.
  - by destruct (ELANTimeOrder.time_slots_dict time_order !! _).
  - by destruct (ELANTimeOrder.time_slots_dict time_order !! _).
Qed.

Lemma alignable_time_resolution_witness :
  ELANAlignableAnnotation.get_start_time (ELANFile.time_order Sample.doc) Sample.a1
    = OK (Some 0%Z)
  ∧ ELANAlignableAnnotation.get_end_time (ELANFile.time_order Sample.doc) Sample.a1
    = OK (Some 1000%Z).
Proof.
  exact (alignable_time_resolution Sample.doc Sample.time_order Sample.a1 eq_refl).
Defined.

(** The start slot ts3 of [a2] has no value: [get_start_time] returns [None]
    and raises nothing.  (Its end slot ts9 is missing: [KeyError].) *)
Lemma alignable_start_time_unanchored :
  ELANTimeOrder.get_time_slot_by_id Sample.time_order
      (ELANAlignableAnnotation.start_time_slot Sample.a2) = OK Sample.ts3
  ∧ ELANTimeSlot.has_time_value Sample.ts3 = false
  ∧ ELANAlignableAnnotation.get_start_time (ELANFile.time_order Sample.doc) Sample.a2
    = OK None
  ∧ ELANAlignableAnnotation.get_end_time (ELANFile.time_order Sample.doc) Sample.a2
    = Raise (KeyError "No ELANTimeSlot with the given ID found.").
Proof. repeat split; reflexivity. Qed.

(** ** Linguistic types: [set_time_alignable] *)

(** C4.  What [set_time_alignable] does for every constraint of the
    table and both booleans.  [True] is accepted without a constraint and
    for Included_In, and rejected for the two symbolic constraints, as the
    table has it; [True] is also rejected for Time_Subdivision, which the
    table makes time alignable (the method compares with the misspelt
    Time_Subdivison).  [False] is rejected without a constraint, with a
    [TypeError] raised while the message is built, and rejected for the two
    symbolic constraints, for which the table requires [False]; [False] is
    accepted for Time_Subdivision and Included_In, for which the table
    requires [True]. *)
Theorem set_time_alignable_against_table :
  (* True *)
  ELANLinguisticType.set_time_alignable (Sample.linguistic_type_with None) (PyBool true)
    = OK (ELANLinguisticType.with_time_alignable (Sample.linguistic_type_with None) (PyBool true))
  ∧ ELANLinguisticType.set_time_alignable (Sample.linguistic_type_with (Some "Time_Subdivision")) (PyBool true)
    = Raise (RuntimeError "Constraint Time_Subdivision is not time alignable.")
  ∧ ELANLinguisticType.set_time_alignable (Sample.linguistic_type_with (Some "Included_In")) (PyBool true)
    = OK (ELANLinguisticType.with_time_alignable (Sample.linguistic_type_with (Some "Included_In")) (PyBool true))
  ∧ ELANLinguisticType.set_time_alignable (Sample.linguistic_type_with (Some "Symbolic_Subdivision")) (PyBool true)
    = Raise (RuntimeError "Constraint Symbolic_Subdivision is not time alignable.")
  ∧ ELANLinguisticType.set_time_alignable (Sample.linguistic_type_with (Some "Symbolic_Association")) (PyBool true)
    = Raise (RuntimeError "Constraint Symbolic_Association is not time alignable.")
  (* False *)
  ∧ ELANLinguisticType.set_time_alignable (Sample.linguistic_type_with None) (PyBool false)
    = Raise (TypeError "can only concatenate str (not NoneType) to str")
  ∧ ELANLinguisticType.set_time_alignable (Sample.linguistic_type_with (Some "Time_Subdivision")) (PyBool false)
    = OK (ELANLinguisticType.with_time_alignable (Sample.linguistic_type_with (Some "Time_Subdivision")) (PyBool false))
  ∧ ELANLinguisticType.set_time_alignable (Sample.linguistic_type_with (Some "Included_In")) (PyBool false)
    = OK (ELANLinguisticType.with_time_alignable (Sample.linguistic_type_with (Some "Included_In")) (PyBool false))
  ∧ ELANLinguisticType.set_time_alignable (Sample.linguistic_type_with (Some "Symbolic_Subdivision")) (PyBool false)
    = Raise (RuntimeError "Constraint Symbolic_Subdivision is time alignable.")
  ∧ ELANLinguisticType.set_time_alignable (Sample.linguistic_type_with (Some "Symbolic_Association")) (PyBool false)
    = Raise (RuntimeError "Constraint Symbolic_Association is time alignable.").
Proof. repeat split; reflexivity. Qed.

(** The table itself, as the constructor derives the flag from the
    constraint. *)
Lemma constructor_table :
  ELANLinguisticType.__init__ "lt" (PyStr "true") None PyNone None None None
    = OK (ELANLinguisticType.mk "lt" (PyBool true) None PyNone None None None)
  ∧ ELANLinguisticType.__init__ "lt" PyNone (Some "Time_Subdivision") PyNone None None None
    = OK (ELANLinguisticType.mk "lt" (PyBool true) (Some "Time_Subdivision") PyNone None None None)
  ∧ ELANLinguisticType.__init__ "lt" PyNone (Some "Included_In") PyNone None None None
    = OK (ELANLinguisticType.mk "lt" (PyBool true) (Some "Included_In") PyNone None None None)
  ∧ ELANLinguisticType.__init__ "lt" PyNone (Some "Symbolic_Subdivision") PyNone None None None
    = OK (ELANLinguisticType.mk "lt" (PyBool false) (Some "Symbolic_Subdivision") PyNone None None None)
  ∧ ELANLinguisticType.__init__ "lt" PyNone (Some "Symbolic_Association") PyNone None None None
    = OK (ELANLinguisticType.mk "lt" (PyBool false) (Some "Symbolic_Association") PyNone None None None).
Proof. repeat split; reflexivity. Qed.

(** ** Controlled vocabularies: [add_cv_entry] *)

(** C5 (as the code has it).  With an external reference the call raises
    the [RuntimeError] and no new state of the entries exists.  Without
    one, an entry whose value is already in the dictionary is skipped: the
    call returns normally and the entries are as before.  Otherwise the
    entry is put last in the list of entries and is found under its
    value. *)
Theorem add_cv_entry_cases
    (V : ELANControlledVocabulary.t) (e : ELANControlledVocabularyEntry.t)
    (C : ELANControlledVocabulary.cls) :
  (is_Some (ELANControlledVocabulary.ext_ref V) →
     ELANControlledVocabulary.add_cv_entry V e C
     = Raise (RuntimeError "Cannot add entries to a controlled vocabulary pointing to an external reference."))
  ∧ (ELANControlledVocabulary.ext_ref V = None →
     is_Some (ELANControlledVocabulary.get_cv_entry_by_value C V
                (ELANControlledVocabularyEntry.value e)) →
     ELANControlledVocabulary.add_cv_entry V e C = OK C)
  ∧ (ELANControlledVocabulary.ext_ref V = None →
     ELANControlledVocabulary.get_cv_entry_by_value C V
       (ELANControlledVocabularyEntry.value e) = None →
     ∃ C', ELANControlledVocabulary.add_cv_entry V e C = OK C'
           ∧ ELANControlledVocabulary.get_cv_entries C' V
             = ELANControlledVocabulary.get_cv_entries C V ++ [e]
           ∧ ELANControlledVocabulary.get_cv_entry_by_value C' V
               (ELANControlledVocabularyEntry.value e) = Some e
           ∧ ∀ v, v ≠ ELANControlledVocabularyEntry.value e →
                  ELANControlledVocabulary.get_cv_entry_by_value C' V v
                  = ELANControlledVocabulary.get_cv_entry_by_value C V v).
Proof.
  unfold ELANControlledVocabulary.add_cv_entry,
    ELANControlledVocabulary.get_cv_entry_by_value,
    ELANControlledVocabulary.get_cv_entries,
    ELANControlledVocabularyEntry.get_value.
  split; [|split].
  - by intros [x ->].
  - intros -> [x Hx]. rewrite bool_decide_eq_false_2; [done | by rewrite Hx].
  - intros -> Hx. rewrite bool_decide_eq_true_2 by done.
    eexists; split; [done|]. simpl. split; [done|]. split.
    + apply lookup_insert_eq.
    + intros v Hv. by apply lookup_insert_ne.
Qed.

Lemma add_cv_entry_cases_witness :
  ELANControlledVocabulary.add_cv_entry
    (ELANControlledVocabulary.__init__ "cv2" None (Some "er1")) Sample.entry_a Sample.class_with_a
  = Raise (RuntimeError "Cannot add entries to a controlled vocabulary pointing to an external reference.")
  ∧ ELANControlledVocabulary.add_cv_entry
      (ELANControlledVocabulary.__init__ "cv1" None None) Sample.entry_a' Sample.class_with_a
    = OK Sample.class_with_a
  ∧ ∃ C', ELANControlledVocabulary.add_cv_entry
            (ELANControlledVocabulary.__init__ "cv1" None None) Sample.entry_a
            ELANControlledVocabulary.class_body = OK C'
          ∧ ELANControlledVocabulary.get_cv_entries C'
              (ELANControlledVocabulary.__init__ "cv1" None None) = [] ++ [Sample.entry_a]
          ∧ ELANControlledVocabulary.get_cv_entry_by_value C'
              (ELANControlledVocabulary.__init__ "cv1" None None) "a" = Some Sample.entry_a
          ∧ ∀ v, v ≠ "a" →
                 ELANControlledVocabulary.get_cv_entry_by_value C'
                   (ELANControlledVocabulary.__init__ "cv1" None None) v
                 = ELANControlledVocabulary.get_cv_entry_by_value
                     ELANControlledVocabulary.class_body
                     (ELANControlledVocabulary.__init__ "cv1" None None) v.
Proof.
  split; [|split].
  - apply (add_cv_entry_cases (ELANControlledVocabulary.__init__ "cv2" None (Some "er1"))
             Sample.entry_a Sample.class_with_a).
    by exists "er1".
  - apply (add_cv_entry_cases (ELANControlledVocabulary.__init__ "cv1" None None)
             Sample.entry_a' Sample.class_with_a); [reflexivity|].
    by exists Sample.entry_a.
  - apply (add_cv_entry_cases (ELANControlledVocabulary.__init__ "cv1" None None)
             Sample.entry_a ELANControlledVocabulary.class_body); reflexivity.
Defined.

(** A vocabulary without external reference that has an entry of value a
    is given another entry of value a: no error. *)
Lemma add_cv_entry_duplicate_value_accepted :
  ELANControlledVocabulary.ext_ref (ELANControlledVocabulary.__init__ "cv1" None None) = None
  ∧ ELANControlledVocabulary.get_cv_entry_by_value Sample.class_with_a
      (ELANControlledVocabulary.__init__ "cv1" None None)
      (ELANControlledVocabularyEntry.value Sample.entry_a') = Some Sample.entry_a
  ∧ ELANControlledVocabulary.add_cv_entry
      (ELANControlledVocabulary.__init__ "cv1" None None) Sample.entry_a' Sample.class_with_a
    = OK Sample.class_with_a.
Proof. repeat split; reflexivity. Qed.

(** C10.  Two vocabularies are constructed independently and an entry is
    added to the first: the second has that entry too, in its list of
    entries, in its length and under the entry's value. *)
Theorem cv_entries_shared_between_instances :
  let V1 := ELANControlledVocabulary.__init__ "cv1" None None in
  let V2 := ELANControlledVocabulary.__init__ "cv2" (Some "another vocabulary") None in
  ELANControlledVocabulary.get_cv_entries ELANControlledVocabulary.class_body V2 = []
  ∧ ∃ C', ELANControlledVocabulary.add_cv_entry V1 Sample.entry_a ELANControlledVocabulary.class_body
          = OK C'
          ∧ ELANControlledVocabulary.get_cv_entries C' V2 = [Sample.entry_a]
          ∧ ELANControlledVocabulary.__len__ C' V2 = 1
          ∧ ELANControlledVocabulary.get_cv_entry_by_value C' V2 "a" = Some Sample.entry_a.
Proof. split; [reflexivity|]. eexists. repeat split; reflexivity. Qed.

(** ** Decoding: the attributes of the root element *)

(** C7.  A root element ANNOTATION_DOCUMENT that has DATE and VERSION
    and no AUTHOR is decoded without an error, into a document whose author
    is [None]; and so for a root element without any attribute. *)
Theorem parse_xml_accepts_missing_root_attributes :
  (∃ D, ELANFile.parse_xml
          [Element "ANNOTATION_DOCUMENT" [("DATE", "2016-06-01"); ("VERSION", "2.7")] []]
          Sample.objects = OK (D, Sample.objects)
        ∧ ELANFile.author D = None
        ∧ ELANFile.date D = Some "2016-06-01"
        ∧ ELANFile.version D = Some "2.7")
  ∧ (∃ D, ELANFile.parse_xml [Element "ANNOTATION_DOCUMENT" [] []] Sample.objects
          = OK (D, Sample.objects)
        ∧ ELANFile.author D = None
        ∧ ELANFile.date D = None
        ∧ ELANFile.version D = None).
Proof. split; eexists; repeat split; reflexivity. Qed.

(** The factories of the other elements do check: a TIME_SLOT without its
    identifier, for one, is refused by name. *)
Lemma time_slot_requires_its_id :
  ELANTimeSlot.from_xml (Element "TIME_SLOT" [("TIME_VALUE", "0")] [])
  = Raise (RuntimeError "TIME_SLOT is missing TIME_SLOT_ID attribute.").
Proof. reflexivity. Qed.

(** ** Decoding: the external reference of an annotation *)

(** C8.  An ALIGNABLE_ANNOTATION and a REF_ANNOTATION element that carry
    EXT_REF are decoded into annotations without external reference, whose
    encoding has no EXT_REF attribute. *)
Theorem annotation_ext_ref_not_decoded :
  let alignable :=
    Element "ALIGNABLE_ANNOTATION"
      [("ANNOTATION_ID", "a1"); ("TIME_SLOT_REF1", "ts1"); ("TIME_SLOT_REF2", "ts2");
       ("EXT_REF", "er1")]
      [Element "ANNOTATION_VALUE" [] [Text "hello"]] in
  let ref :=
    Element "REF_ANNOTATION"
      [("ANNOTATION_ID", "a2"); ("ANNOTATION_REF", "a1"); ("EXT_REF", "er1")]
      [Element "ANNOTATION_VALUE" [] [Text "hallo"]] in
  (∃ a, ELANAlignableAnnotation.from_xml alignable = OK a
        ∧ has_external_ref (Alignable a) = false
        ∧ get_external_ref (Alignable a) = None
        ∧ ∃ attrs childNodes,
            first_element (annotation_to_xml default_indent (Alignable a)) ≫= child_element
            = Some (Element "ALIGNABLE_ANNOTATION" attrs childNodes)
            ∧ hasAttribute attrs "EXT_REF" = false)
  ∧ (∃ r, ELANRefAnnotation.from_xml ref = OK r
        ∧ has_external_ref (Ref r) = false
        ∧ get_external_ref (Ref r) = None).
Proof.
  split; eexists; repeat split; try reflexivity.
  do 2 eexists. split; reflexivity.
Qed.

(** ** Adding annotations *)

(** C2 (as the code has it).  No identifier is checked when an annotation
    is added, whether or not it is in the annotation index of the document.
    [add_annotation] on a tier puts the annotation last in that tier and
    changes no other tier; the document is not touched, so that its
    annotation index is as before.  [add_tier] puts the tier last in the
    document and enters every annotation of the tier in the index under its
    identifier, in place of the annotation that was there. *)
Theorem adding_annotations_is_unchecked
    (s : store) (D : ELANFile.t) (r : tier_ref) (tier : ELANTier.t) (a : annotation) :
  tier_objects s !! r = Some tier →
  (∃ s', call_add_annotation r a s = OK s'
         ∧ tier_objects s' !! r = Some (ELANTier.add_annotation tier a)
         ∧ ELANTier.annotations (ELANTier.add_annotation tier a)
           = ELANTier.annotations tier ++ [a]
         ∧ (∀ r', r' ≠ r → tier_objects s' !! r' = tier_objects s !! r')
         ∧ cv_class s' = cv_class s)
  ∧ (∃ D', ELANFile.add_tier s r D = OK D'
           ∧ ELANFile.tiers D' = ELANFile.tiers D ++ [r]
           ∧ ELANFile.tiers_dict D' = <[ELANTier.tier_id tier := r]> (ELANFile.tiers_dict D)
           ∧ (∀ l1 l2, ELANTier.annotations tier = l1 ++ a :: l2 →
                (∀ b, b ∈ l2 → get_annotation_id b ≠ get_annotation_id a) →
                ELANFile.get_annotation_by_id D' (get_annotation_id a) = OK a)
           ∧ (∀ k, (∀ b, b ∈ ELANTier.annotations tier → get_annotation_id b ≠ k) →
                ELANFile.annotations_dict D' !! k = ELANFile.annotations_dict D !! k)).
Proof.
  intros Hr. split.
  - unfold call_add_annotation. rewrite Hr. eexists; split; [done|]. simpl.
    repeat split.
    + apply list_lookup_insert_eq. by eapply lookup_lt_Some.
    + intros r' Hr'. by apply list_lookup_insert_ne.
  - unfold ELANFile.add_tier. rewrite Hr. eexists; split; [done|].
    split; [reflexivity|]. split; [reflexivity|]. split.
    + intros l1 l2 Hl Hl2. unfold ELANFile.get_annotation_by_id.
      change (ELANFile.annotations_dict _)
        with (index get_annotation_id (ELANFile.annotations_dict D)
                (ELANTier.annotations tier)).
      by rewrite Hl, index_last.
    + intros k Hk. by apply (index_not_in get_annotation_id).
Qed.

Lemma adding_annotations_is_unchecked_witness :
  (∃ s', call_add_annotation 0 (Alignable Sample.a1') Sample.objects = OK s'
         ∧ tier_objects s' !! 0
           = Some (ELANTier.add_annotation Sample.T (Alignable Sample.a1'))
         ∧ ELANTier.annotations (ELANTier.add_annotation Sample.T (Alignable Sample.a1'))
           = ELANTier.annotations Sample.T ++ [Alignable Sample.a1']
         ∧ (∀ r', r' ≠ 0 → tier_objects s' !! r' = tier_objects Sample.objects !! r')
         ∧ cv_class s' = cv_class Sample.objects)
  ∧ (∃ D', ELANFile.add_tier Sample.objects 0 Sample.doc = OK D'
           ∧ ELANFile.tiers D' = ELANFile.tiers Sample.doc ++ [0]
           ∧ ELANFile.tiers_dict D'
             = <[ELANTier.tier_id Sample.T := 0]> (ELANFile.tiers_dict Sample.doc)
           ∧ (∀ l1 l2, ELANTier.annotations Sample.T = l1 ++ Alignable Sample.a1' :: l2 →
                (∀ b, b ∈ l2 → get_annotation_id b ≠ get_annotation_id (Alignable Sample.a1')) →
                ELANFile.get_annotation_by_id D' (get_annotation_id (Alignable Sample.a1'))
                = OK (Alignable Sample.a1'))
           ∧ (∀ k, (∀ b, b ∈ ELANTier.annotations Sample.T → get_annotation_id b ≠ k) →
                ELANFile.annotations_dict D' !! k = ELANFile.annotations_dict Sample.doc !! k)).
Proof.
  apply (adding_annotations_is_unchecked Sample.objects Sample.doc 0 Sample.T
           (Alignable Sample.a1')).
  reflexivity.
Defined.

(** The identifier a1 is in the annotation index of the sample document.
    The annotation [a1'], which has this identifier too, is appended to the
    tier T of the document without an error, and T then holds both; the
    tier U, which holds [a1'], is added to the document without an error,
    and the index then has [a1'] under a1. *)
Lemma duplicate_annotation_id_accepted :
  get_annotation_id (Alignable Sample.a1') = "a1"
  ∧ ELANFile.annotations_dict Sample.doc !! "a1" = Some (Alignable Sample.a1)
  ∧ ELANFile.get_tier_by_id Sample.doc "T" = Some 0
  ∧ (∃ s', call_add_annotation 0 (Alignable Sample.a1') Sample.objects = OK s'
           ∧ ELANTier.annotations <$> tier_objects s' !! 0
             = Some [Alignable Sample.a1; Alignable Sample.a1'])
  ∧ (∃ D', ELANFile.add_tier Sample.objects 1 Sample.doc = OK D'
           ∧ ELANFile.tiers D' = [0; 1]
           ∧ ELANFile.annotations_dict D' !! "a1" = Some (Alignable Sample.a1')).
Proof.
  repeat split; try reflexivity.
  - eexists; split; reflexivity.
  - eexists; repeat split; reflexivity.
Qed.

(** ** Encoding: the order of the elements *)

Lemma elements_merge (l : list node) : elements (merge l) = elements l.
Proof.
  induction l as [|n l IH]; [done|].
  destruct n as [tag attrs children | a | c]; simpl; [by rewrite IH| |done].
  rewrite <- IH. destruct (merge l) as [|[| |] r]; simpl; try done;
    by destruct (String.eqb a EmptyString).
Qed.

Lemma elements_app (l1 l2 : list node) : elements (l1 ++ l2) = elements l1 ++ elements l2.
Proof. apply List.filter_app. Qed.

Lemma elements_concat {A} (f : A → list node) (l : list A) :
  elements (concat (f <$> l)) = l ≫= elements ∘ f.
Proof.
  induction l as [|x l IH]; [done|].
  change (elements (f x ++ concat (f <$> l)) = elements (f x) ++ (l ≫= elements ∘ f)).
  by rewrite elements_app, IH.
Qed.

Lemma tag_names_app (l1 l2 : list node) : tag_names (l1 ++ l2) = tag_names l1 ++ tag_names l2.
Proof. apply omap_app. Qed.

Lemma tag_names_bind {A} (f : A → list node) (tag : string) (l : list A) :
  (∀ x, tag_names (f x) = [tag]) → tag_names (l ≫= f) = replicate (length l) tag.
Proof.
  intros H. induction l as [|x l IH]; [done|].
  change (tag_names (f x ++ (l ≫= f)) = tag :: replicate (length l) tag).
  by rewrite tag_names_app, H, IH.
Qed.



(** The properties a = 1 and b = 2, set in this order, are written in this
    order. *)
Lemma properties_in_insertion_order :
  dict_set (dict_set [] "a" "1") "b" "2" = ELANFile.properties Sample.doc
  ∧ ∃ header,
      ELANFile.header_to_xml default_indent Sample.doc = OK header
      ∧ (elements header ≫= λ n, match n with
                                 | Element _ _ childNodes => elements childNodes
                                 | _ => []
                                 end)
        = [ Element "PROPERTY" [("NAME", "a")] [Text "1"];
            Element "PROPERTY" [("NAME", "b")] [Text "2"] ].
Proof. split; [reflexivity|]. eexists. split; reflexivity. Qed.

(** ** Decoding what has been encoded *)

Lemma int_str (z : Z) : int (str z) = OK z.
Proof.
  unfold int, str.
  assert (H : NilZero.int_of_string (NilZero.string_of_int (Z.to_int z))
              = Some (Z.to_int z) ∨ z = 0%Z).
  { destruct z as [|p|p]; [by right| |]; left; apply NilZero.isi; simpl;
      intros [= H]; by apply DecimalPos.Unsigned.to_uint_nonnil in H. }
  destruct H as [-> | ->]; [|reflexivity].
  by rewrite DecimalZ.of_to.
Qed.

Lemma first_element_elements (l : list node) (e : node) (es : list node) :
  elements l = e :: es → first_element l = Some e.
Proof.
  induction l as [|n l IH]; [done|].
  unfold elements in *. cbn [List.filter]. destruct (is_element n) eqn:E.
  - intros [= -> _]. destruct l; cbn [first_element]; [done|]. by rewrite E.
  - intros H. destruct l as [|n' l']; [done|].
    cbn [first_element]. rewrite E. by apply IH.
Qed.

Lemma merge_text (v : string) : v ≠ EmptyString → merge [Text v] = [Text v].
Proof. intros H. simpl. destruct v; [done|reflexivity]. Qed.

Lemma first_text_merge_text (v : string) :
  default EmptyString (first_text (merge [Text v])) = v.
Proof. by destruct v. Qed.

Lemma time_slot_decoded (indent : string) (ts : ELANTimeSlot.t) :
  ∃ attrs children,
    elements (ELANTimeSlot.to_xml indent ts) = [Element "TIME_SLOT" attrs children]
    ∧ ELANTimeSlot.from_xml (Element "TIME_SLOT" attrs children) = OK ts.
Proof.
  do 2 eexists. split; [reflexivity|].
  destruct ts as [i [v|]]; [|reflexivity].
  unfold ELANTimeSlot.from_xml. cbn -[int str].
  by rewrite int_str.
Qed.

Lemma media_descriptor_decoded (indent : string) (x : ELANMediaDescriptor.t) :
  ∃ attrs children,
    elements (ELANMediaDescriptor.to_xml indent x) = [Element "MEDIA_DESCRIPTOR" attrs children]
    ∧ ELANMediaDescriptor.from_xml (Element "MEDIA_DESCRIPTOR" attrs children) = OK x.
Proof.
  do 2 eexists. split; [reflexivity|].
  by destruct x as [? ? [?|] [?|] [?|]].
Qed.

Lemma linked_file_descriptor_decoded (indent : string) (x : ELANLinkedFileDescriptor.t) :
  ∃ attrs children,
    elements (ELANLinkedFileDescriptor.to_xml indent x)
    = [Element "LINKED_FILE_DESCRIPTOR" attrs children]
    ∧ ELANLinkedFileDescriptor.from_xml (Element "LINKED_FILE_DESCRIPTOR" attrs children) = OK x.
Proof.
  do 2 eexists. split; [reflexivity|].
  by destruct x as [? ? [?|] [?|] [?|]].
Qed.

Lemma locale_decoded (indent : string) (x : ELANLocale.t) :
  ∃ attrs children,
    elements (ELANLocale.to_xml indent x) = [Element "LOCALE" attrs children]
    ∧ ELANLocale.from_xml (Element "LOCALE" attrs children) = OK x.
Proof.
  do 2 eexists. split; [reflexivity|].
  by destruct x as [? [?|] [?|]].
Qed.

Lemma constraint_decoded (indent : string) (x : ELANConstraint.t) :
  ∃ attrs children,
    elements (ELANConstraint.to_xml indent x) = [Element "CONSTRAINT" attrs children]
    ∧ ELANConstraint.from_xml (Element "CONSTRAINT" attrs children) = OK x.
Proof.
  do 2 eexists. split; [reflexivity|].
  by destruct x as [? [?|]].
Qed.

Lemma cv_entry_decoded (indent : string) (x : ELANControlledVocabularyEntry.t) :
  ∃ attrs children,
    elements (ELANControlledVocabularyEntry.to_xml indent x) = [Element "CV_ENTRY" attrs children]
    ∧ ELANControlledVocabularyEntry.from_xml (Element "CV_ENTRY" attrs children) = OK x.
Proof.
  do 2 eexists. split; [reflexivity|].
  by destruct x as [[|] [?|] [?|]].
Qed.

Lemma for_each_elements {S} (body : S → node → result S) (l : list node) (s : S) :
  (∀ s n, is_element n = false → body s n = OK s) →
  for_each body l s = for_each body (elements l) s.
Proof.
  intros H. revert s; induction l as [|n l IH]; intros s; [done|].
  unfold elements. cbn [List.filter for_each]. destruct (is_element n) eqn:E.
  - cbn [for_each]. destruct (body s n); [apply IH | done].
  - rewrite H by done. apply IH.
Qed.

Lemma for_each_merge {S} (body : S → node → result S) (l : list node) (s : S) :
  (∀ s n, is_element n = false → body s n = OK s) →
  for_each body (merge l) s = for_each body (elements l) s.
Proof. intros H. by rewrite for_each_elements, elements_merge. Qed.

Lemma for_each_bind {A S} (body : S → node → result S) (f : A → list node)
    (step : S → A → S) (l : list A) (s : S) :
  (∀ s x, for_each body (f x) s = OK (step s x)) →
  for_each body (l ≫= f) s = OK (foldl step s l).
Proof.
  intros H. revert s; induction l as [|x l IH]; intros s; [done|].
  change (for_each body (f x ++ (l ≫= f)) s = OK (foldl step (step s x) l)).
  rewrite for_each_app, H. apply IH.
Qed.

(** *** Annotations *)

Lemma annotation_value_decoded (owner indent after : string) (b : ELANAnnotation.t) :
  ELANAnnotation.value_from_xml owner
    (merge ([Text nl] ++ ELANAnnotation.value_to_xml indent b ++ [Text after]))
  = OK (ELANAnnotation.annotation_value b).
Proof.
  unfold ELANAnnotation.value_from_xml.
  destruct b as [i [|c v] e].
  - erewrite first_element_elements; [|by rewrite elements_merge]. reflexivity.
  - erewrite first_element_elements; [|by rewrite elements_merge]. reflexivity.
Qed.

Lemma alignable_from_xml_eq (attrs : list (string * string)) (childNodes : list node) :
  ELANAlignableAnnotation.from_xml (Element "ALIGNABLE_ANNOTATION" attrs childNodes)
  = (annotation_id ← required attrs "ANNOTATION_ID" "ALIGNABLE_ANNOTATION is missing ANNOTATION_ID attribute.";
     time_slot_ref1 ← required attrs "TIME_SLOT_REF1" "ALIGNABLE_ANNOTATION is missing TIME_SLOT_REF1 attribute.";
     time_slot_ref2 ← required attrs "TIME_SLOT_REF2" "ALIGNABLE_ANNOTATION is missing TIME_SLOT_REF2 attribute.";
     annotation_value ← ELANAnnotation.value_from_xml "ALIGNABLE_ANNOTATION" childNodes;
     mret (ELANAlignableAnnotation.__init__ annotation_id annotation_value time_slot_ref1
             time_slot_ref2 (optional attrs "SVG_REF") (optional attrs "EXTERNAL_REF"))).
Proof. reflexivity. Qed.

Lemma ref_from_xml_eq (attrs : list (string * string)) (childNodes : list node) :
  ELANRefAnnotation.from_xml (Element "REF_ANNOTATION" attrs childNodes)
  = (annotation_id ← required attrs "ANNOTATION_ID" "ALIGNABLE_ANNOTATION is missing ANNOTATION_ID attribute.";
     annotation_ref ← required attrs "ANNOTATION_REF" "REF_ANNOTATION is missing ANNOTATION_REF attribute.";
     annotation_value ← ELANAnnotation.value_from_xml "REF_ANNOTATION" childNodes;
     mret (ELANRefAnnotation.__init__ annotation_id annotation_value annotation_ref
             (optional attrs "PREVIOUS_ANNOTATION") (optional attrs "EXTERNAL_REF"))).
Proof. reflexivity. Qed.

Lemma annotation_decoded (indent : string) (a : annotation) :
  ∃ attrs children gtag gattrs gchildren,
    elements (annotation_to_xml indent a) = [Element "ANNOTATION" attrs children]
    ∧ first_element children = Some (Element gtag gattrs gchildren)
    ∧ match a with
      | Alignable _ =>
          gtag = "ALIGNABLE_ANNOTATION"
          ∧ Alignable <$> ELANAlignableAnnotation.from_xml (Element gtag gattrs gchildren)
            = OK (without_external_ref a)
      | Ref _ =>
          gtag = "REF_ANNOTATION"
          ∧ Ref <$> ELANRefAnnotation.from_xml (Element gtag gattrs gchildren)
            = OK (without_external_ref a)
      end.
Proof.
  destruct a as [[b start stop svg] | [b ref prev]].
  - do 5 eexists. split; [reflexivity|]. split.
    { apply first_element_elements with (es := []). by rewrite elements_merge. }
    split; [reflexivity|].
    rewrite alignable_from_xml_eq, annotation_value_decoded.
    by destruct b as [i v [e|]], svg as [svg|].
  - do 5 eexists. split; [reflexivity|]. split.
    { apply first_element_elements with (es := []). by rewrite elements_merge. }
    split; [reflexivity|].
    rewrite ref_from_xml_eq, annotation_value_decoded.
    by destruct b as [i v [e|]], prev as [prev|].
Qed.

(** Evaluate the lookups of required attributes in a written element. *)
Ltac required :=
  repeat (match goal with
          | |- context [required ?attrs ?name ?msg] =>
              let v := eval cbv in (required attrs name msg) in
              change (required attrs name msg) with v
          end; cbn [mbind result_bind]).

Lemma fmap_OK {A B} (f : A → B) (m : result A) (b : B) :
  f <$> m = OK b → ∃ a, m = OK a ∧ b = f a.
Proof. destruct m as [a|e]; [intros [= <-]; eauto | discriminate]. Qed.

Lemma tier_child_decoded (indent : string) (tier : ELANTier.t) (a : annotation) :
  for_each ELANTier.from_xml_child (elements (annotation_to_xml indent a)) tier
  = OK (ELANTier.add_annotation tier (without_external_ref a)).
Proof.
  destruct (annotation_decoded indent a)
    as (attrs & children & gtag & gattrs & gchildren & -> & Hfirst & H).
  cbn [for_each]. unfold ELANTier.from_xml_child. rewrite Hfirst.
  destruct a; destruct H as [-> H]; apply fmap_OK in H as (a' & H & ->);
    cbn [String.eqb Ascii.eqb Bool.eqb negb]; by rewrite H.
Qed.

Lemma tier_from_xml_skips (tier : ELANTier.t) (n : node) :
  is_element n = false → ELANTier.from_xml_child tier n = OK tier.
Proof. by destruct n. Qed.

Lemma add_annotations (f : annotation → annotation) (tier : ELANTier.t) (l : list annotation) :
  foldl (λ tier a, ELANTier.add_annotation tier (f a)) tier l
  = ELANTier.mk (ELANTier.tier_id tier) (ELANTier.linguistic_type tier)
      (ELANTier.participant tier) (ELANTier.annotator tier) (ELANTier.default_locale tier)
      (ELANTier.parent_tier_ref tier) (ELANTier.annotations tier ++ (f <$> l)).
Proof.
  revert tier; induction l as [|a l IH]; intros tier; simpl.
  - rewrite app_nil_r. by destruct tier.
  - rewrite IH. simpl. by rewrite <- app_assoc.
Qed.

Lemma tier_from_xml_eq (attrs : list (string * string)) (childNodes : list node) :
  ELANTier.from_xml (Element "TIER" attrs childNodes)
  = (tier_id ← required attrs "TIER_ID" "TIER is missing TIER_ID attribute.";
     linguistic_type_ref ← required attrs "LINGUISTIC_TYPE_REF" "TIER is missing LINGUISTIC_TYPE_REF attribute.";
     for_each ELANTier.from_xml_child childNodes
       (ELANTier.__init__ tier_id linguistic_type_ref (optional attrs "PARTICIPANT")
          (optional attrs "ANNOTATOR") (optional attrs "DEFAULT_LOCALE")
          (optional attrs "PARENT_REF"))).
Proof. reflexivity. Qed.

Lemma tier_children_decoded (indent : string) (l : list annotation) (tier : ELANTier.t) :
  for_each ELANTier.from_xml_child
    (merge ([Text nl] ++ concat (annotation_to_xml indent <$> l) ++ [Text indent])) tier
  = OK (foldl (λ tier a, ELANTier.add_annotation tier (without_external_ref a)) tier l).
Proof.
  rewrite for_each_merge by apply tier_from_xml_skips.
  rewrite !elements_app, elements_concat. cbn [elements List.filter is_element app].
  rewrite app_nil_r.
  apply for_each_bind. intros. apply tier_child_decoded.
Qed.

Lemma tier_decoded (indent : string) (tier : ELANTier.t) :
  ∃ attrs children,
    elements (ELANTier.to_xml indent tier) = [Element "TIER" attrs children]
    ∧ ELANTier.from_xml (Element "TIER" attrs children) = OK (without_external_refs tier).
Proof.
  do 2 eexists. split; [reflexivity|].
  rewrite tier_from_xml_eq.
  destruct tier as [id lt [p|] [an|] [dl|] [pr|] anns];
    required; rewrite tier_children_decoded, add_annotations; reflexivity.
Qed.

Lemma for_each_bind_result {A S} (body : S → node → result S) (f : A → list node)
    (step : S → A → result S) (l : list A) (s : S) :
  (∀ s x, for_each body (f x) s = step s x) →
  for_each body (l ≫= f) s = for_each step l s.
Proof.
  intros H. revert s; induction l as [|x l IH]; intros s; [done|].
  change (for_each body (f x ++ (l ≫= f)) s = step s x ≫= for_each step l).
  rewrite for_each_app, H. destruct (step s x); [apply IH | done].
Qed.

(** *** The time order *)

Lemma time_slot_child_decoded (indent : string) (time_order : ELANTimeOrder.t)
    (ts : ELANTimeSlot.t) :
  for_each ELANTimeOrder.from_xml_child (elements (ELANTimeSlot.to_xml indent ts)) time_order
  = ELANTimeOrder.add_time_slot time_order ts.
Proof.
  destruct (time_slot_decoded indent ts) as (attrs & children & -> & H).
  cbn [for_each]. unfold ELANTimeOrder.from_xml_child.
  cbn [String.eqb Ascii.eqb Bool.eqb negb]. rewrite H. cbn [mbind result_bind].
  by destruct (ELANTimeOrder.add_time_slot time_order ts).
Qed.

Lemma add_time_slot_fresh (time_order : ELANTimeOrder.t) (ts : ELANTimeSlot.t) :
  ELANTimeOrder.time_slots_dict time_order !! ELANTimeSlot.get_id ts = None →
  ELANTimeOrder.add_time_slot time_order ts
  = OK (ELANTimeOrder.mk (ELANTimeOrder.time_slots time_order ++ [ts])
          (<[ELANTimeSlot.get_id ts := ts]> (ELANTimeOrder.time_slots_dict time_order))).
Proof.
  intros H. unfold ELANTimeOrder.add_time_slot, ELANTimeOrder.__contains__.
  rewrite bool_decide_eq_false_2; [done|]. rewrite H. by intros [? ?].
Qed.

Lemma add_time_slots (l : list ELANTimeSlot.t) (time_order : ELANTimeOrder.t) :
  NoDup (ELANTimeSlot.get_id <$> l) →
  (∀ ts, ts ∈ l →
     ELANTimeOrder.time_slots_dict time_order !! ELANTimeSlot.get_id ts = None) →
  for_each ELANTimeOrder.add_time_slot l time_order
  = OK (ELANTimeOrder.mk (ELANTimeOrder.time_slots time_order ++ l)
          (index ELANTimeSlot.get_id (ELANTimeOrder.time_slots_dict time_order) l)).
Proof.
  revert time_order; induction l as [|ts l IH]; intros time_order Hnodup Hfresh.
  - simpl. rewrite app_nil_r. by destruct time_order.
  - cbn [for_each]. rewrite add_time_slot_fresh by (apply Hfresh; left).
    cbn [mbind result_bind]. rewrite fmap_cons in Hnodup. apply NoDup_cons in Hnodup as [Hts Hl].
    rewrite IH; [|done|].
    + simpl. by rewrite <- app_assoc.
    + intros ts' Hts'. simpl. rewrite lookup_insert_ne.
      * apply Hfresh. by right.
      * intros E. apply Hts. rewrite E. by apply list_elem_of_fmap_2.
Qed.

Lemma time_order_skips (time_order : ELANTimeOrder.t) (n : node) :
  is_element n = false → ELANTimeOrder.from_xml_child time_order n = OK time_order.
Proof. by destruct n. Qed.

Lemma time_order_decoded (indent : string) (time_order : ELANTimeOrder.t) :
  NoDup (ELANTimeSlot.get_id <$> ELANTimeOrder.time_slots time_order) →
  ELANTimeOrder.time_slots_dict time_order
  = index ELANTimeSlot.get_id ∅ (ELANTimeOrder.time_slots time_order) →
  ∃ attrs children,
    elements (ELANTimeOrder.to_xml indent time_order) = [Element "TIME_ORDER" attrs children]
    ∧ ELANTimeOrder.from_xml (Element "TIME_ORDER" attrs children) = OK time_order.
Proof.
  intros Hnodup Hdict. do 2 eexists. split; [reflexivity|].
  unfold ELANTimeOrder.from_xml. cbn [String.eqb Ascii.eqb Bool.eqb negb].
  rewrite for_each_merge by apply time_order_skips.
  replace (if ELANTimeOrder.has_time_slots time_order then _ else _)
    with (concat (ELANTimeSlot.to_xml indent <$> ELANTimeOrder.time_slots time_order))
    by (by destruct time_order as [[|] ?]).
  rewrite !elements_app, elements_concat. cbn [elements List.filter is_element app].
  rewrite app_nil_r.
  rewrite (for_each_bind_result _ _ ELANTimeOrder.add_time_slot)
    by (intros; apply time_slot_child_decoded).
  rewrite add_time_slots; [|done|by intros].
  destruct time_order as [slots dict]. simpl in *. by rewrite Hdict.
Qed.

(** *** Linguistic types *)

Ltac lookups :=
  repeat (match goal with
          | |- context [required ?attrs ?name ?msg] =>
              let v := eval cbv in (required attrs name msg) in
              change (required attrs name msg) with v
          | |- context [optional ?attrs ?name] =>
              let v := eval cbv in (optional attrs name) in
              change (optional attrs name) with v
          end; cbn [mbind result_bind]).

Lemma linguistic_type_from_xml_eq (attrs : list (string * string)) (childNodes : list node) :
  ELANLinguisticType.from_xml (Element "LINGUISTIC_TYPE" attrs childNodes)
  = (linguistic_type_id ← required attrs "LINGUISTIC_TYPE_ID" "LINGUISTIC_TYPE is missing LINGUISTIC_TYPE_ID attribute.";
     ELANLinguisticType.__init__ linguistic_type_id
       (ELANLinguisticType.of_attribute (optional attrs "TIME_ALIGNABLE"))
       (optional attrs "CONSTRAINTS")
       (ELANLinguisticType.of_attribute (optional attrs "GRAPHIC_REFERENCES"))
       (optional attrs "CONTROLLED_VOCABULARY_REF") (optional attrs "EXT_REF")
       (optional attrs "LEXICON_REF")).
Proof. reflexivity. Qed.

Lemma linguistic_type_decoded (indent : string) (lt : ELANLinguisticType.t) :
  (∃ time_alignable,
     ELANLinguisticType.__init__ (ELANLinguisticType.linguistic_type_id lt) time_alignable
       (ELANLinguisticType.constraints lt) (ELANLinguisticType.graphic_references lt)
       (ELANLinguisticType.controlled_vocabulary_ref lt)
       (ELANLinguisticType.external_ref lt) (ELANLinguisticType.lexicon_ref lt) = OK lt) →
  ∃ attrs children lt',
    elements (ELANLinguisticType.to_xml indent lt) = [Element "LINGUISTIC_TYPE" attrs children]
    ∧ ELANLinguisticType.from_xml (Element "LINGUISTIC_TYPE" attrs children) = OK lt'
    ∧ without_graphic_references lt' = without_graphic_references lt.
Proof.
  intros [ta0 H]. destruct lt as [id ta c g cv e l]. simpl in H.
  unfold ELANLinguisticType.__init__ in H.
  destruct c as [c|];
    repeat match type of H with
           | (if ?b then _ else _) = _ => destruct b eqn:?
           end; try discriminate; injection H as <-;
    destruct g as [|[|]|], cv as [cv|], e as [e|], l as [l|];
    do 3 eexists; (split; [reflexivity|]);
    rewrite linguistic_type_from_xml_eq; lookups;
    unfold ELANLinguisticType.__init__, ELANLinguisticType.of_attribute;
    repeat match goal with
           | H : (_ =? _) = _ |- _ => rewrite H
           end;
    (split; reflexivity).
Qed.

(** *** Controlled vocabularies *)

Lemma merge_no_comment (l : list node) : Forall no_comment l → Forall no_comment (merge l).
Proof.
  induction 1 as [|n l Hn Hl IH]; [constructor|].
  destruct n as [| a |]; simpl; [by constructor| |done].
  destruct (merge l) as [|[| b |] r]; try destruct (String.eqb a EmptyString);
    repeat constructor; try done; by inversion IH.
Qed.

Lemma for_each_merge_text {S} (body : S → node → result S) (l : list node) (s : S) :
  (∀ s d, body s (Text d) = OK s) →
  Forall no_comment l →
  for_each body (merge l) s = for_each body (elements l) s.
Proof.
  intros H Hl. rewrite <- elements_merge. apply merge_no_comment in Hl.
  revert s; induction Hl as [|n l' Hn Hl' IH]; intros s; [done|].
  unfold elements. cbn [List.filter for_each].
  destruct n as [| d |]; cbn [is_element for_each]; [|rewrite H; apply IH|by destruct Hn].
  destruct (body s _); [apply IH | done].
Qed.

Lemma cv_entry_child_decoded (indent tag : string) (cv : ELANControlledVocabulary.t)
    (C : ELANControlledVocabulary.cls) (e : ELANControlledVocabularyEntry.t) :
  for_each (ELANControlledVocabulary.from_xml_child tag cv)
    (elements (ELANControlledVocabularyEntry.to_xml indent e)) C
  = ELANControlledVocabulary.add_cv_entry cv e C.
Proof.
  destruct (cv_entry_decoded indent e) as (attrs & children & -> & H).
  cbn [for_each]. unfold ELANControlledVocabulary.from_xml_child.
  cbn [String.eqb Ascii.eqb Bool.eqb negb]. rewrite H. cbn [mbind result_bind].
  by destruct (ELANControlledVocabulary.add_cv_entry cv e C).
Qed.

Lemma add_cv_entry_present (cv : ELANControlledVocabulary.t)
    (C : ELANControlledVocabulary.cls) (e : ELANControlledVocabularyEntry.t) :
  ELANControlledVocabulary.ext_ref cv = None →
  is_Some (ELANControlledVocabulary.cv_entries_dict C
             !! ELANControlledVocabularyEntry.get_value e) →
  ELANControlledVocabulary.add_cv_entry cv e C = OK C.
Proof.
  intros Hcv [x Hx]. unfold ELANControlledVocabulary.add_cv_entry. rewrite Hcv.
  rewrite bool_decide_eq_false_2; [done | by rewrite Hx].
Qed.

Lemma add_known_cv_entries (cv : ELANControlledVocabulary.t)
    (C : ELANControlledVocabulary.cls) (l : list ELANControlledVocabularyEntry.t) :
  (∀ e, e ∈ l →
     is_Some (ELANControlledVocabulary.cv_entries_dict C
                !! ELANControlledVocabularyEntry.get_value e)) →
  l = [] ∨ ELANControlledVocabulary.ext_ref cv = None →
  for_each (λ C e, ELANControlledVocabulary.add_cv_entry cv e C) l C = OK C.
Proof.
  intros Hl [-> | Hcv]; [done|].
  induction l as [|e l IH]; [done|].
  cbn [for_each]. rewrite add_cv_entry_present by (done || apply Hl; left).
  cbn [mbind result_bind]. apply IH. intros e' He'. apply Hl. by right.
Qed.

Lemma cv_from_xml_eq (attrs : list (string * string)) (childNodes : list node)
    (C : ELANControlledVocabulary.cls) :
  ELANControlledVocabulary.from_xml (Element "CONTROLLED_VOCABULARY" attrs childNodes) C
  = (cv_id ← required attrs "CV_ID" "CONTROLLED_VOCABULARY is missing CV_ID attribute.";
     C' ← for_each
            (ELANControlledVocabulary.from_xml_child "CONTROLLED_VOCABULARY"
               (ELANControlledVocabulary.__init__ cv_id (optional attrs "DESCRIPTION")
                  (optional attrs "EXT_REF")))
            childNodes C;
     mret (ELANControlledVocabulary.__init__ cv_id (optional attrs "DESCRIPTION")
             (optional attrs "EXT_REF"), C')).
Proof. reflexivity. Qed.

Lemma cv_decoded (indent : string) (C : ELANControlledVocabulary.cls)
    (cv : ELANControlledVocabulary.t) :
  (∀ e, e ∈ ELANControlledVocabulary.cv_entries C →
     is_Some (ELANControlledVocabulary.cv_entries_dict C
                !! ELANControlledVocabularyEntry.get_value e)) →
  ELANControlledVocabulary.cv_entries C = [] ∨ ELANControlledVocabulary.ext_ref cv = None →
  ∃ attrs children,
    elements (ELANControlledVocabulary.to_xml indent C cv)
    = [Element "CONTROLLED_VOCABULARY" attrs children]
    ∧ ELANControlledVocabulary.from_xml (Element "CONTROLLED_VOCABULARY" attrs children) C
      = OK (cv, C).
Proof.
  intros Hdict Hcv. do 2 eexists. split; [reflexivity|].
  rewrite cv_from_xml_eq.
  assert (Hloop : ∀ cv',
    ELANControlledVocabulary.ext_ref cv' = ELANControlledVocabulary.ext_ref cv →
    for_each (ELANControlledVocabulary.from_xml_child "CONTROLLED_VOCABULARY" cv')
      (merge ([Text nl]
              ++ concat (ELANControlledVocabularyEntry.to_xml indent
                           <$> ELANControlledVocabulary.cv_entries C)
              ++ [Text indent])) C = OK C).
  { intros cv' Hcv'. rewrite for_each_merge_text; [|done|].
    - rewrite !elements_app, elements_concat. cbn [elements List.filter is_element app].
      rewrite app_nil_r.
      rewrite (for_each_bind_result _ _ (λ C e, ELANControlledVocabulary.add_cv_entry cv' e C))
        by (intros; apply cv_entry_child_decoded).
      apply add_known_cv_entries; [done|]. by rewrite Hcv'.
    - apply Forall_app. split; [by repeat constructor|].
      apply Forall_app. split; [|by repeat constructor].
      apply Forall_concat, Forall_fmap, Forall_forall. intros e _. by repeat constructor. }
  destruct cv as [id [d|] [x|]]; lookups; (rewrite Hloop by reflexivity); reflexivity.
Qed.

(** *** External references *)

Lemma external_reference_decoded (indent : string) (x : ELANExternalReference.t) :
  ELANExternalReference.__init__ (ELANExternalReference.ext_ref_id x)
    (ELANExternalReference.ext_ref_type x) (ELANExternalReference.value x) = OK x →
  ∃ attrs children x',
    elements (ELANExternalReference.to_xml indent x) = [Element "EXTERNAL_REF" attrs children]
    ∧ ELANExternalReference.from_xml (Element "EXTERNAL_REF" attrs children) = OK x'
    ∧ without_value x' = without_value x.
Proof.
  intros H. destruct x as [id type value]. simpl in H.
  unfold ELANExternalReference.__init__ in H.
  destruct (negb _) eqn:E in H; [discriminate|].
  do 3 eexists. split; [reflexivity|].
  unfold ELANExternalReference.from_xml. cbn [String.eqb Ascii.eqb Bool.eqb negb].
  lookups.
  replace (first_text _) with (Some (nl +:+ value)) by (by destruct value).
  cbn [mbind result_bind]. unfold ELANExternalReference.__init__. rewrite E.
  split; reflexivity.
Qed.

(** *** The loops of [parse_xml] *)

Lemma for_each_decoded {A B S} (I : S → Prop) (body : S → node → result S)
    (f : A → list node) (step : S → B → S) (l : list A) (l' : list B) (s : S) :
  (∀ s y, I s → I (step s y)) →
  Forall2 (λ x y, ∀ s, I s → for_each body (f x) s = OK (step s y)) l l' →
  I s →
  for_each body (l ≫= f) s = OK (foldl step s l').
Proof.
  intros HI H. revert s; induction H as [|x y l l' Hxy _ IH]; intros s Hs; [done|].
  change (for_each body (f x ++ (l ≫= f)) s = OK (foldl step (step s y) l')).
  rewrite for_each_app, Hxy by done. apply IH. by apply HI.
Qed.

Lemma Forall2_choice {A B} (R : A → B → Prop) (l : list A) :
  (∀ x, x ∈ l → ∃ y, R x y) → ∃ l', Forall2 R l l'.
Proof.
  induction l as [|x l IH]; intros H; [by exists []|].
  destruct (H x) as [y Hy]; [left|].
  destruct IH as [l' Hl']; [intros; apply H; by right|].
  exists (y :: l'). by constructor.
Qed.

Lemma Forall2_fmap_eq {A B} (g : A → B) (l l' : list A) :
  Forall2 (λ x y, g y = g x) l l' → g <$> l' = g <$> l.
Proof. induction 1; [done|]. simpl. by f_equal. Qed.

Lemma index_fmap {A} (key : A → string) (g : A → A) (d : gmap string A) (l : list A) :
  (∀ x, key (g x) = key x) →
  g <$> index key d l = index key (g <$> d) (g <$> l).
Proof.
  intros H. revert d; induction l as [|x l IH]; intros d; [done|].
  simpl. rewrite IH, fmap_insert, H. done.
Qed.

Lemma foldl_fst {A S T} (g : S → A → S) (l : list A) (acc : S * T) :
  foldl (λ acc x, (g acc.1 x, acc.2)) acc l = (foldl g acc.1 l, acc.2).
Proof. revert acc; induction l as [|x l IH]; intros [s t]; [done|]. simpl. by rewrite IH. Qed.

Section register.
Context {X : Type} (key : X → string).
Context (get_list : ELANFile.t → list X) (get_dict : ELANFile.t → gmap string X).
Context (set : list X → gmap string X → ELANFile.t → ELANFile.t).
Hypothesis get_list_set : ∀ l d D, get_list (set l d D) = l.
Hypothesis get_dict_set : ∀ l d D, get_dict (set l d D) = d.
Hypothesis set_set : ∀ l d l' d' D, set l' d' (set l d D) = set l' d' D.
Hypothesis set_get : ∀ D, set (get_list D) (get_dict D) D = D.

Lemma foldl_register (l : list X) (D : ELANFile.t) :
  foldl (λ D x, set (get_list D ++ [x]) (<[key x := x]> (get_dict D)) D) D l
  = set (get_list D ++ l) (index key (get_dict D) l) D.
Proof.
  revert D; induction l as [|x l IH]; intros D; simpl.
  - by rewrite app_nil_r, set_get.
  - by rewrite IH, get_list_set, get_dict_set, set_set, <- app_assoc.
Qed.
End register.

Lemma parse_header_child_skips (D : ELANFile.t) (n : node) :
  is_element n = false → ELANFile.parse_header_child D n = OK D.
Proof. by destruct n. Qed.

Lemma parse_child_skips (acc : ELANFile.t * store) (n : node) :
  is_element n = false → ELANFile.parse_child acc n = OK acc.
Proof. by destruct n. Qed.

Ltac dispatch f :=
  cbn [for_each]; unfold f; cbn [String.eqb Ascii.eqb Bool.eqb negb].

Lemma media_descriptor_parsed (indent : string) (x : ELANMediaDescriptor.t) (D : ELANFile.t) :
  for_each ELANFile.parse_header_child (elements (ELANMediaDescriptor.to_xml indent x)) D
  = OK (ELANFile.with_media_files_dict
          (<[ELANMediaDescriptor.get_media_url x := x]> (ELANFile.media_files_dict D))
          (ELANFile.with_media_files (ELANFile.media_files D ++ [x]) D)).
Proof.
  destruct (media_descriptor_decoded indent x) as (attrs & children & -> & H).
  dispatch ELANFile.parse_header_child. by rewrite H.
Qed.

Lemma linked_file_descriptor_parsed (indent : string) (x : ELANLinkedFileDescriptor.t)
    (D : ELANFile.t) :
  for_each ELANFile.parse_header_child (elements (ELANLinkedFileDescriptor.to_xml indent x)) D
  = OK (ELANFile.with_linked_files_dict
          (<[ELANLinkedFileDescriptor.get_link_url x := x]> (ELANFile.linked_files_dict D))
          (ELANFile.with_linked_files (ELANFile.linked_files D ++ [x]) D)).
Proof.
  destruct (linked_file_descriptor_decoded indent x) as (attrs & children & -> & H).
  dispatch ELANFile.parse_header_child. by rewrite H.
Qed.

Lemma property_parsed (indent name value : string) (D : ELANFile.t) :
  value ≠ EmptyString →
  for_each ELANFile.parse_header_child
    (elements [ Text (indent +:+ indent);
                element "PROPERTY" [("NAME", name)] [Text value];
                Text nl ]) D
  = OK (ELANFile.with_properties (dict_set (ELANFile.properties D) name value) D).
Proof.
  intros Hvalue. cbn [elements List.filter is_element element]. unfold element.
  dispatch ELANFile.parse_header_child. lookups.
  by rewrite merge_text.
Qed.

Lemma time_order_parsed (indent : string) (time_order : ELANTimeOrder.t)
    (acc : ELANFile.t * store) :
  NoDup (ELANTimeSlot.get_id <$> ELANTimeOrder.time_slots time_order) →
  ELANTimeOrder.time_slots_dict time_order
  = index ELANTimeSlot.get_id ∅ (ELANTimeOrder.time_slots time_order) →
  for_each ELANFile.parse_child (elements (ELANTimeOrder.to_xml indent time_order)) acc
  = OK (ELANFile.with_time_slots_dict
          (index ELANTimeSlot.get_id (ELANFile.time_slots_dict acc.1)
             (ELANTimeOrder.time_slots time_order))
          (ELANFile.with_time_order (Some time_order) acc.1), acc.2).
Proof.
  intros H1 H2.
  destruct (time_order_decoded indent time_order H1 H2) as (attrs & children & -> & H).
  dispatch ELANFile.parse_child. by rewrite H.
Qed.

Local Abbreviation tier_step :=
  (λ (acc : ELANFile.t * store) (tier : ELANTier.t),
     (ELANFile.append_tier (length (tier_objects acc.2)) tier acc.1,
      (new_tier tier acc.2).2)).

Lemma tier_parsed (indent : string) (tier : ELANTier.t) (acc : ELANFile.t * store) :
  for_each ELANFile.parse_child (elements (ELANTier.to_xml indent tier)) acc
  = OK (tier_step acc (without_external_refs tier)).
Proof.
  destruct (tier_decoded indent tier) as (attrs & children & -> & H).
  dispatch ELANFile.parse_child. by rewrite H.
Qed.

Lemma linguistic_type_parsed (indent : string) (lt lt' : ELANLinguisticType.t)
    (attrs : list (string * string)) (children : list node) (acc : ELANFile.t * store) :
  elements (ELANLinguisticType.to_xml indent lt) = [Element "LINGUISTIC_TYPE" attrs children] →
  ELANLinguisticType.from_xml (Element "LINGUISTIC_TYPE" attrs children) = OK lt' →
  for_each ELANFile.parse_child (elements (ELANLinguisticType.to_xml indent lt)) acc
  = OK (ELANFile.with_linguistic_types_dict
          (<[ELANLinguisticType.get_linguistic_type_id lt' := lt']>
             (ELANFile.linguistic_types_dict acc.1))
          (ELANFile.with_linguistic_types (ELANFile.linguistic_types acc.1 ++ [lt']) acc.1),
        acc.2).
Proof. intros -> H. dispatch ELANFile.parse_child. by rewrite H. Qed.

Lemma locale_parsed (indent : string) (x : ELANLocale.t) (acc : ELANFile.t * store) :
  for_each ELANFile.parse_child (elements (ELANLocale.to_xml indent x)) acc
  = OK (ELANFile.with_locales (ELANFile.locales acc.1 ++ [x]) acc.1, acc.2).
Proof.
  destruct (locale_decoded indent x) as (attrs & children & -> & H).
  dispatch ELANFile.parse_child. by rewrite H.
Qed.

Lemma constraint_parsed (indent : string) (x : ELANConstraint.t) (acc : ELANFile.t * store) :
  for_each ELANFile.parse_child (elements (ELANConstraint.to_xml indent x)) acc
  = OK (ELANFile.with_constraints_dict
          (<[ELANConstraint.get_stereotype x := x]> (ELANFile.constraints_dict acc.1))
          (ELANFile.with_constraints (ELANFile.constraints acc.1 ++ [x]) acc.1), acc.2).
Proof.
  destruct (constraint_decoded indent x) as (attrs & children & -> & H).
  dispatch ELANFile.parse_child. by rewrite H.
Qed.

Lemma controlled_vocabulary_parsed (indent : string) (C : ELANControlledVocabulary.cls)
    (cv : ELANControlledVocabulary.t) (acc : ELANFile.t * store) :
  (∀ e, e ∈ ELANControlledVocabulary.cv_entries C →
     is_Some (ELANControlledVocabulary.cv_entries_dict C
                !! ELANControlledVocabularyEntry.get_value e)) →
  ELANControlledVocabulary.cv_entries C = [] ∨ ELANControlledVocabulary.ext_ref cv = None →
  cv_class acc.2 = C →
  for_each ELANFile.parse_child (elements (ELANControlledVocabulary.to_xml indent C cv)) acc
  = OK (ELANFile.with_controlled_vocabularies_dict
          (<[ELANControlledVocabulary.get_cv_id cv := cv]>
             (ELANFile.controlled_vocabularies_dict acc.1))
          (ELANFile.with_controlled_vocabularies
             (ELANFile.controlled_vocabularies acc.1 ++ [cv]) acc.1), acc.2).
Proof.
  intros H1 H2 HC.
  destruct (cv_decoded indent C cv H1 H2) as (attrs & children & -> & H).
  dispatch ELANFile.parse_child. rewrite HC, H. cbn [mbind result_bind mret result_ret].
  by rewrite <- HC.
Qed.

Lemma external_reference_parsed (indent : string) (x x' : ELANExternalReference.t)
    (attrs : list (string * string)) (children : list node) (acc : ELANFile.t * store) :
  elements (ELANExternalReference.to_xml indent x) = [Element "EXTERNAL_REF" attrs children] →
  ELANExternalReference.from_xml (Element "EXTERNAL_REF" attrs children) = OK x' →
  for_each ELANFile.parse_child (elements (ELANExternalReference.to_xml indent x)) acc
  = OK (ELANFile.with_external_references_dict
          (<[ELANExternalReference.get_id x' := x']> (ELANFile.external_references_dict acc.1))
          (ELANFile.with_external_references (ELANFile.external_references acc.1 ++ [x']) acc.1),
        acc.2).
Proof. intros -> H. dispatch ELANFile.parse_child. by rewrite H. Qed.

(** *** The groups of elements *)

Lemma without_external_ref_idemp (a : annotation) :
  without_external_ref (without_external_ref a) = without_external_ref a.
Proof. by destruct a. Qed.

Lemma without_external_refs_idemp (tier : ELANTier.t) :
  without_external_refs (without_external_refs tier) = without_external_refs tier.
Proof.
  unfold without_external_refs. simpl. f_equal.
  rewrite <- list_fmap_compose. apply list_fmap_ext. intros _ a _. apply without_external_ref_idemp.
Qed.

Lemma annotations_without (tiers : list ELANTier.t) :
  without_external_ref <$> ((without_external_refs <$> tiers) ≫= ELANTier.annotations)
  = without_external_ref <$> (tiers ≫= ELANTier.annotations).
Proof.
  induction tiers as [|tier tiers IH]; [done|].
  rewrite fmap_cons, !bind_cons, !fmap_app, IH. f_equal.
  simpl. rewrite <- list_fmap_compose. apply list_fmap_ext.
  intros _ a _. apply without_external_ref_idemp.
Qed.

Lemma tiers_parsed (l : list ELANTier.t) (D : ELANFile.t) (s : store) :
  foldl tier_step (D, s) l
  = (ELANFile.with_annotations_dict
       (index get_annotation_id (ELANFile.annotations_dict D) (l ≫= ELANTier.annotations))
       (ELANFile.with_tiers_dict
          (index_tiers (mk_store (tier_objects s ++ l) (cv_class s)) (ELANFile.tiers_dict D)
             (seq (length (tier_objects s)) (length l)))
          (ELANFile.with_tiers (ELANFile.tiers D ++ seq (length (tier_objects s)) (length l)) D)),
     mk_store (tier_objects s ++ l) (cv_class s)).
Proof.
  revert D s; induction l as [|tier l IH]; intros D s.
  - simpl. by rewrite !app_nil_r.
  - cbn [foldl]. cbn [fst snd new_tier]. rewrite IH. cbn [tier_objects cv_class].
    rewrite length_app, Nat.add_1_r, <- !app_assoc. cbn [app length seq].
    unfold index_tiers at 2. cbn [foldl tier_objects].
    rewrite list_lookup_middle by done.
    unfold ELANFile.append_tier.
    cbn [ELANFile.annotations_dict ELANFile.tiers_dict ELANFile.tiers
           ELANFile.with_annotations_dict ELANFile.with_tiers_dict ELANFile.with_tiers].
    rewrite <- index_app, <- app_assoc. reflexivity.
Qed.

(** *** Properties and the header *)

Lemma dict_set_fresh (d : list (string * string)) (k v : string) :
  k ∉ d.*1 → dict_set d k v = d ++ [(k, v)].
Proof.
  induction d as [|[k' v'] d IH]; [done|].
  intros H. apply not_elem_of_cons in H as [Hk Hd]. simpl in *.
  rewrite (proj2 (String.eqb_neq k' k)) by done. by rewrite IH.
Qed.

Lemma foldl_dict_set (d l : list (string * string)) :
  NoDup ((d ++ l).*1) →
  foldl (λ d prop, dict_set d prop.1 prop.2) d l = d ++ l.
Proof.
  revert d; induction l as [|[k v] l IH]; intros d H; simpl.
  - by rewrite app_nil_r.
  - rewrite dict_set_fresh.
    + rewrite IH; rewrite <- app_assoc; done.
    + rewrite fmap_app in H. apply NoDup_app in H as (_ & H & _).
      intros Hk. apply (H k Hk). left.
Qed.

Lemma dict_get_NoDup (d : list (string * string)) (k v : string) :
  NoDup (d.*1) → (k, v) ∈ d → dict_get d k = Some v.
Proof.
  induction d as [|[k' v'] d IH]; [by intros _ ?%elem_of_nil|].
  intros [Hk' Hd]%NoDup_cons [[= -> ->] | Hin]%elem_of_cons; simpl in *.
  - by rewrite String.eqb_refl.
  - rewrite (proj2 (String.eqb_neq k' k)); [by apply IH|].
    intros ->. apply Hk'. by apply (list_elem_of_fmap_2 fst _ (k, v)).
Qed.

Lemma mapM_fmap_OK {A B} (g : A → result B) (f : A → B) (l : list A) :
  (∀ x, x ∈ l → g x = OK (f x)) → mapM g l = OK (f <$> l).
Proof.
  induction l as [|x l IH]; intros H; [done|].
  simpl. rewrite H by left. simpl. rewrite IH; [done|]. intros; apply H. by right.
Qed.

Local Abbreviation property_to_xml indent :=
  (λ prop : string * string,
     [ Text (indent +:+ indent);
       element "PROPERTY" [("NAME", prop.1)] [Text prop.2];
       Text nl ]).

Lemma header_to_xml_OK (indent : string) (D : ELANFile.t) :
  NoDup (ELANFile.properties D).*1 →
  ELANFile.header_to_xml indent D
  = OK [ Text indent;
         element "HEADER"
           [("MEDIA_FILE", EmptyString);
            ("TIME_UNITS", default "milliseconds" (ELANFile.time_units D))]
           ([Text nl]
              ++ concat (ELANMediaDescriptor.to_xml indent <$> ELANFile.media_files D)
              ++ concat (ELANLinkedFileDescriptor.to_xml indent <$> ELANFile.linked_files D)
              ++ concat (property_to_xml indent <$> ELANFile.properties D)
              ++ [Text indent]);
         Text nl ].
Proof.
  intros Hnodup. unfold ELANFile.header_to_xml, ELANFile.has_time_units.
  rewrite (mapM_fmap_OK _ (property_to_xml indent)).
  - by destruct (ELANFile.time_units D).
  - intros [k v] Hin. unfold ELANFile.get_property.
    by rewrite (dict_get_NoDup _ k v).
Qed.

Lemma properties_parsed (indent : string) (l : list (string * string)) (D : ELANFile.t) :
  (∀ prop, prop ∈ l → prop.2 ≠ EmptyString) →
  for_each ELANFile.parse_header_child (l ≫= elements ∘ property_to_xml indent) D
  = OK (ELANFile.with_properties
          (foldl (λ d prop, dict_set d prop.1 prop.2) (ELANFile.properties D) l) D).
Proof.
  revert D; induction l as [|prop l IH]; intros D H; [done|].
  rewrite bind_cons, for_each_app. cbn [compose].
  rewrite property_parsed by (apply H; left).
  cbn [mbind result_bind]. rewrite IH by (intros; apply H; by right). done.
Qed.

Lemma media_files_parsed (indent : string) (l : list ELANMediaDescriptor.t) (D : ELANFile.t) :
  for_each ELANFile.parse_header_child (l ≫= elements ∘ ELANMediaDescriptor.to_xml indent) D
  = OK (ELANFile.with_media_files_dict
          (index ELANMediaDescriptor.get_media_url (ELANFile.media_files_dict D) l)
          (ELANFile.with_media_files (ELANFile.media_files D ++ l) D)).
Proof.
  rewrite (for_each_bind _ _ _ _ _ (λ D x, media_descriptor_parsed indent x D)).
  f_equal.
  apply (foldl_register ELANMediaDescriptor.get_media_url ELANFile.media_files
           ELANFile.media_files_dict
           (λ l d D, ELANFile.with_media_files_dict d (ELANFile.with_media_files l D)));
    reflexivity.
Qed.

Lemma linked_files_parsed (indent : string) (l : list ELANLinkedFileDescriptor.t)
    (D : ELANFile.t) :
  for_each ELANFile.parse_header_child
    (l ≫= elements ∘ ELANLinkedFileDescriptor.to_xml indent) D
  = OK (ELANFile.with_linked_files_dict
          (index ELANLinkedFileDescriptor.get_link_url (ELANFile.linked_files_dict D) l)
          (ELANFile.with_linked_files (ELANFile.linked_files D ++ l) D)).
Proof.
  rewrite (for_each_bind _ _ _ _ _ (λ D x, linked_file_descriptor_parsed indent x D)).
  f_equal.
  apply (foldl_register ELANLinkedFileDescriptor.get_link_url ELANFile.linked_files
           ELANFile.linked_files_dict
           (λ l d D, ELANFile.with_linked_files_dict d (ELANFile.with_linked_files l D)));
    reflexivity.
Qed.

Ltac attributes :=
  repeat (match goal with
          | |- context [hasAttribute ?attrs ?name] =>
              let v := eval cbv in (hasAttribute attrs name) in
              change (hasAttribute attrs name) with v
          | |- context [getAttribute ?attrs ?name] =>
              let v := eval cbv in (getAttribute attrs name) in
              change (getAttribute attrs name) with v
          end; cbv iota).

Lemma header_parsed (indent time_units : string) (acc : ELANFile.t * store)
    (media_files : list ELANMediaDescriptor.t)
    (linked_files : list ELANLinkedFileDescriptor.t) (properties : list (string * string)) :
  (∀ prop, prop ∈ properties → prop.2 ≠ EmptyString) →
  for_each ELANFile.parse_child
    (elements
       [ Text indent;
         element "HEADER" [("MEDIA_FILE", EmptyString); ("TIME_UNITS", time_units)]
           ([Text nl]
              ++ concat (ELANMediaDescriptor.to_xml indent <$> media_files)
              ++ concat (ELANLinkedFileDescriptor.to_xml indent <$> linked_files)
              ++ concat (property_to_xml indent <$> properties)
              ++ [Text indent]);
         Text nl ]) acc
  = OK (ELANFile.with_properties
          (foldl (λ d prop, dict_set d prop.1 prop.2) (ELANFile.properties acc.1) properties)
          (ELANFile.with_linked_files_dict
             (index ELANLinkedFileDescriptor.get_link_url (ELANFile.linked_files_dict acc.1)
                linked_files)
             (ELANFile.with_linked_files (ELANFile.linked_files acc.1 ++ linked_files)
                (ELANFile.with_media_files_dict
                   (index ELANMediaDescriptor.get_media_url (ELANFile.media_files_dict acc.1)
                      media_files)
                   (ELANFile.with_media_files (ELANFile.media_files acc.1 ++ media_files)
                      (ELANFile.with_media_file (Some time_units) acc.1))))), acc.2).
Proof.
  intros Hvalues. cbn [elements List.filter is_element element]. unfold element.
  dispatch ELANFile.parse_child. attributes.
  rewrite for_each_merge by apply parse_header_child_skips.
  rewrite !elements_app, !elements_concat. cbn [elements List.filter is_element app].
  rewrite app_nil_r.
  rewrite for_each_app, media_files_parsed. cbn [mbind result_bind].
  rewrite for_each_app, linked_files_parsed. cbn [mbind result_bind].
  rewrite properties_parsed by done. reflexivity.
Qed.

(** *** The groups at the level of the document *)

Lemma tier_group_parsed (indent : string) (l : list ELANTier.t) (acc : ELANFile.t * store) :
  for_each ELANFile.parse_child (l ≫= elements ∘ ELANTier.to_xml indent) acc
  = OK (foldl tier_step acc (without_external_refs <$> l)).
Proof.
  rewrite (for_each_bind _ _ (λ acc tier, tier_step acc (without_external_refs tier)))
    by (intros; apply tier_parsed).
  by rewrite foldl_fmap.
Qed.

Lemma linguistic_types_parsed (indent : string) (l : list ELANLinguisticType.t) :
  (∀ lt, lt ∈ l →
     ∃ time_alignable,
       ELANLinguisticType.__init__ (ELANLinguisticType.linguistic_type_id lt) time_alignable
         (ELANLinguisticType.constraints lt) (ELANLinguisticType.graphic_references lt)
         (ELANLinguisticType.controlled_vocabulary_ref lt)
         (ELANLinguisticType.external_ref lt) (ELANLinguisticType.lexicon_ref lt) = OK lt) →
  ∃ l', without_graphic_references <$> l' = without_graphic_references <$> l
        ∧ ∀ acc,
            for_each ELANFile.parse_child
              (l ≫= elements ∘ ELANLinguisticType.to_xml indent) acc
            = OK (ELANFile.with_linguistic_types_dict
                    (index ELANLinguisticType.get_linguistic_type_id
                       (ELANFile.linguistic_types_dict acc.1) l')
                    (ELANFile.with_linguistic_types
                       (ELANFile.linguistic_types acc.1 ++ l') acc.1), acc.2).
Proof.
  intros H.
  destruct (Forall2_choice
              (λ lt lt', ∃ attrs children,
                 elements (ELANLinguisticType.to_xml indent lt)
                 = [Element "LINGUISTIC_TYPE" attrs children]
                 ∧ ELANLinguisticType.from_xml (Element "LINGUISTIC_TYPE" attrs children)
                   = OK lt'
                 ∧ without_graphic_references lt' = without_graphic_references lt) l)
    as [l' Hl'].
  { intros lt Hlt.
    destruct (linguistic_type_decoded indent lt (H lt Hlt)) as (attrs & children & lt' & ?).
    eauto. }
  exists l'. split.
  - apply Forall2_fmap_eq. eapply Forall2_impl; [exact Hl'|].
    by intros lt lt' (? & ? & _ & _ & ?).
  - intros acc.
    rewrite (for_each_decoded (λ _, True) _ _
               (λ acc lt',
                  (ELANFile.with_linguistic_types_dict
                     (<[ELANLinguisticType.get_linguistic_type_id lt' := lt']>
                        (ELANFile.linguistic_types_dict acc.1))
                     (ELANFile.with_linguistic_types
                        (ELANFile.linguistic_types acc.1 ++ [lt']) acc.1), acc.2))
               l l'); [|done| |done].
    + rewrite (foldl_fst (λ D lt', ELANFile.with_linguistic_types_dict
                 (<[ELANLinguisticType.get_linguistic_type_id lt' := lt']>
                    (ELANFile.linguistic_types_dict D))
                 (ELANFile.with_linguistic_types (ELANFile.linguistic_types D ++ [lt']) D))).
      do 2 f_equal.
      apply (foldl_register ELANLinguisticType.get_linguistic_type_id
               ELANFile.linguistic_types ELANFile.linguistic_types_dict
               (λ l d D, ELANFile.with_linguistic_types_dict d
                           (ELANFile.with_linguistic_types l D))); reflexivity.
    + eapply Forall2_impl; [exact Hl'|].
      intros lt lt' (attrs & children & H1 & H2 & _) acc' _.
      by eapply linguistic_type_parsed.
Qed.

Lemma locales_parsed (indent : string) (l : list ELANLocale.t) (acc : ELANFile.t * store) :
  for_each ELANFile.parse_child (l ≫= elements ∘ ELANLocale.to_xml indent) acc
  = OK (ELANFile.with_locales (ELANFile.locales acc.1 ++ l) acc.1, acc.2).
Proof.
  rewrite (for_each_bind _ _ _ _ _ (λ acc x, locale_parsed indent x acc)).
  rewrite (foldl_fst (λ D x, ELANFile.with_locales (ELANFile.locales D ++ [x]) D)).
  do 2 f_equal. generalize acc.1. clear acc.
  induction l as [|x l IH]; intros D; simpl; [by rewrite app_nil_r|].
  rewrite IH. simpl. by rewrite <- app_assoc.
Qed.

Lemma constraints_parsed (indent : string) (l : list ELANConstraint.t)
    (acc : ELANFile.t * store) :
  for_each ELANFile.parse_child (l ≫= elements ∘ ELANConstraint.to_xml indent) acc
  = OK (ELANFile.with_constraints_dict
          (index ELANConstraint.get_stereotype (ELANFile.constraints_dict acc.1) l)
          (ELANFile.with_constraints (ELANFile.constraints acc.1 ++ l) acc.1), acc.2).
Proof.
  rewrite (for_each_bind _ _ _ _ _ (λ acc x, constraint_parsed indent x acc)).
  rewrite (foldl_fst (λ D x, ELANFile.with_constraints_dict
             (<[ELANConstraint.get_stereotype x := x]> (ELANFile.constraints_dict D))
             (ELANFile.with_constraints (ELANFile.constraints D ++ [x]) D))).
  do 2 f_equal.
  apply (foldl_register ELANConstraint.get_stereotype ELANFile.constraints
           ELANFile.constraints_dict
           (λ l d D, ELANFile.with_constraints_dict d (ELANFile.with_constraints l D)));
    reflexivity.
Qed.

Lemma controlled_vocabularies_parsed (indent : string) (C : ELANControlledVocabulary.cls)
    (l : list ELANControlledVocabulary.t) (acc : ELANFile.t * store) :
  (∀ e, e ∈ ELANControlledVocabulary.cv_entries C →
     is_Some (ELANControlledVocabulary.cv_entries_dict C
                !! ELANControlledVocabularyEntry.get_value e)) →
  ELANControlledVocabulary.cv_entries C = []
  ∨ (∀ cv, cv ∈ l → ELANControlledVocabulary.ext_ref cv = None) →
  cv_class acc.2 = C →
  for_each ELANFile.parse_child
    (l ≫= elements ∘ ELANControlledVocabulary.to_xml indent C) acc
  = OK (ELANFile.with_controlled_vocabularies_dict
          (index ELANControlledVocabulary.get_cv_id
             (ELANFile.controlled_vocabularies_dict acc.1) l)
          (ELANFile.with_controlled_vocabularies
             (ELANFile.controlled_vocabularies acc.1 ++ l) acc.1), acc.2).
Proof.
  intros H1 H2 HC.
  rewrite (for_each_decoded (λ acc, cv_class acc.2 = C) _ _
             (λ acc cv,
                (ELANFile.with_controlled_vocabularies_dict
                   (<[ELANControlledVocabulary.get_cv_id cv := cv]>
                      (ELANFile.controlled_vocabularies_dict acc.1))
                   (ELANFile.with_controlled_vocabularies
                      (ELANFile.controlled_vocabularies acc.1 ++ [cv]) acc.1), acc.2))
             l l); [|done| |done].
  - rewrite (foldl_fst (λ D cv, ELANFile.with_controlled_vocabularies_dict
               (<[ELANControlledVocabulary.get_cv_id cv := cv]>
                  (ELANFile.controlled_vocabularies_dict D))
               (ELANFile.with_controlled_vocabularies
                  (ELANFile.controlled_vocabularies D ++ [cv]) D))).
    do 2 f_equal.
    apply (foldl_register ELANControlledVocabulary.get_cv_id
             ELANFile.controlled_vocabularies ELANFile.controlled_vocabularies_dict
             (λ l d D, ELANFile.with_controlled_vocabularies_dict d
                         (ELANFile.with_controlled_vocabularies l D))); reflexivity.
  - apply Forall_Forall2_diag, Forall_forall. intros cv Hcv acc' Hacc'.
    apply controlled_vocabulary_parsed; [done| |done].
    destruct H2 as [H2|H2]; [by left | right; by apply H2].
Qed.

Lemma external_references_parsed (indent : string) (l : list ELANExternalReference.t) :
  (∀ x, x ∈ l →
     ELANExternalReference.__init__ (ELANExternalReference.ext_ref_id x)
       (ELANExternalReference.ext_ref_type x) (ELANExternalReference.value x) = OK x) →
  ∃ l', without_value <$> l' = without_value <$> l
        ∧ ∀ acc,
            for_each ELANFile.parse_child
              (l ≫= elements ∘ ELANExternalReference.to_xml indent) acc
            = OK (ELANFile.with_external_references_dict
                    (index ELANExternalReference.get_id
                       (ELANFile.external_references_dict acc.1) l')
                    (ELANFile.with_external_references
                       (ELANFile.external_references acc.1 ++ l') acc.1), acc.2).
Proof.
  intros H.
  destruct (Forall2_choice
              (λ x x', ∃ attrs children,
                 elements (ELANExternalReference.to_xml indent x)
                 = [Element "EXTERNAL_REF" attrs children]
                 ∧ ELANExternalReference.from_xml (Element "EXTERNAL_REF" attrs children)
                   = OK x'
                 ∧ without_value x' = without_value x) l)
    as [l' Hl'].
  { intros x Hx.
    destruct (external_reference_decoded indent x (H x Hx)) as (attrs & children & x' & ?).
    eauto. }
  exists l'. split.
  - apply Forall2_fmap_eq. eapply Forall2_impl; [exact Hl'|].
    by intros x x' (? & ? & _ & _ & ?).
  - intros acc.
    rewrite (for_each_decoded (λ _, True) _ _
               (λ acc x',
                  (ELANFile.with_external_references_dict
                     (<[ELANExternalReference.get_id x' := x']>
                        (ELANFile.external_references_dict acc.1))
                     (ELANFile.with_external_references
                        (ELANFile.external_references acc.1 ++ [x']) acc.1), acc.2))
               l l'); [|done| |done].
    + rewrite (foldl_fst (λ D x', ELANFile.with_external_references_dict
                 (<[ELANExternalReference.get_id x' := x']>
                    (ELANFile.external_references_dict D))
                 (ELANFile.with_external_references
                    (ELANFile.external_references D ++ [x']) D))).
      do 2 f_equal.
      apply (foldl_register ELANExternalReference.get_id
               ELANFile.external_references ELANFile.external_references_dict
               (λ l d D, ELANFile.with_external_references_dict d
                           (ELANFile.with_external_references l D))); reflexivity.
    + eapply Forall2_impl; [exact Hl'|].
      intros x x' (attrs & children & H1 & H2 & _) acc' _.
      by eapply external_reference_parsed.
Qed.

(** *** Tiers by reference *)

Lemma get_tier_objects_OK (s : store) (D : ELANFile.t) :
  (∀ r, r ∈ ELANFile.tiers D → is_Some (tier_objects s !! r)) →
  ∃ tiers, ELANFile.get_tier_objects s D = OK tiers
           ∧ Forall2 (λ r tier, tier_objects s !! r = Some tier) (ELANFile.tiers D) tiers.
Proof.
  unfold ELANFile.get_tier_objects. generalize (ELANFile.tiers D). intros l H.
  induction l as [|r l IH]; [by exists []|].
  destruct (H r) as [tier Hr]; [left|].
  destruct IH as (tiers & Htiers & Hall); [intros; apply H; by right|].
  exists (tier :: tiers). split; [|by constructor].
  simpl. rewrite Hr. simpl. by rewrite Htiers.
Qed.

Lemma tiers_of_objects (objects : list ELANTier.t) (refs : list tier_ref)
    (tiers : list ELANTier.t) :
  Forall2 (λ r tier, objects !! r = Some tier) refs tiers →
  (λ r, objects !! r) <$> refs = Some <$> tiers.
Proof. induction 1; [done|]. simpl. by f_equal. Qed.

Lemma new_tier_objects (objects l : list ELANTier.t) :
  Forall2 (λ r tier, (objects ++ l) !! r = Some tier) (seq (length objects) (length l)) l.
Proof.
  revert objects; induction l as [|tier l IH]; intros objects; [constructor|].
  simpl. constructor; [by apply list_lookup_middle|].
  specialize (IH (objects ++ [tier])).
  rewrite length_app, Nat.add_1_r, <- app_assoc in IH. exact IH.
Qed.

Lemma index_tiers_lookup (s : store) (refs : list tier_ref) (tiers : list ELANTier.t)
    (tier_id : string) :
  Forall2 (λ r tier, tier_objects s !! r = Some tier) refs tiers →
  index_tiers s ∅ refs !! tier_id ≫= (λ r, tier_objects s !! r)
  = last (filter (λ tier, ELANTier.tier_id tier = tier_id) tiers).
Proof.
  revert tiers; induction refs as [|r refs IH] using rev_ind; intros tiers H.
  - by apply Forall2_nil_inv_l in H as ->.
  - apply Forall2_app_inv_l in H as (tiers' & tl & H' & Hr & ->).
    apply Forall2_cons_inv_l in Hr as (tier & ? & Hr & ->%Forall2_nil_inv_l & ->).
    unfold index_tiers. rewrite foldl_app. simpl. rewrite Hr. fold (index_tiers s ∅ refs).
    rewrite filter_app, filter_cons, filter_nil. unfold ELANTier.get_tier_id.
    case_decide as E.
    + rewrite E, lookup_insert_eq, last_snoc. simpl. done.
    + rewrite lookup_insert_ne by done. rewrite app_nil_r. by apply IH.
Qed.

Lemma last_filter_fmap {A} (P : A → Prop) `{∀ x, Decision (P x)} (g : A → A) (l : list A) :
  (∀ x, P (g x) ↔ P x) →
  last (filter P (g <$> l)) = g <$> last (filter P l).
Proof.
  intros HP. rewrite <- fmap_last. f_equal.
  induction l as [|x l IH]; [done|].
  rewrite fmap_cons, !filter_cons. destruct (decide (P x)) as [Hx|Hx].
  - rewrite decide_True by (by apply HP). by rewrite fmap_cons, IH.
  - by rewrite decide_False by (by rewrite HP).
Qed.

(** *** The document *)

Ltac normalise :=
  cbn [fst snd tier_objects cv_class app mbind result_bind ELANFile.author ELANFile.date
       ELANFile.format ELANFile.version ELANFile.media_file ELANFile.time_units
       ELANFile.media_files ELANFile.linked_files ELANFile.properties ELANFile.time_order
       ELANFile.tiers ELANFile.linguistic_types ELANFile.constraints
       ELANFile.controlled_vocabularies ELANFile.locales ELANFile.lexicon_references
       ELANFile.external_references ELANFile.media_files_dict ELANFile.linked_files_dict
       ELANFile.time_slots_dict ELANFile.tiers_dict ELANFile.annotations_dict
       ELANFile.linguistic_types_dict ELANFile.constraints_dict
       ELANFile.controlled_vocabularies_dict ELANFile.external_references_dict
       ELANFile.lexicon_references_dict ELANFile.with_media_file ELANFile.with_time_units
       ELANFile.with_media_files ELANFile.with_linked_files ELANFile.with_properties
       ELANFile.with_time_order ELANFile.with_tiers ELANFile.with_linguistic_types
       ELANFile.with_constraints ELANFile.with_controlled_vocabularies ELANFile.with_locales
       ELANFile.with_lexicon_references ELANFile.with_external_references
       ELANFile.with_media_files_dict ELANFile.with_linked_files_dict
       ELANFile.with_time_slots_dict ELANFile.with_tiers_dict ELANFile.with_annotations_dict
       ELANFile.with_linguistic_types_dict ELANFile.with_constraints_dict
       ELANFile.with_controlled_vocabularies_dict ELANFile.with_external_references_dict
       ELANFile.with_lexicon_references_dict].




Local Set Warnings "-clear-no-such-hyp".

(** ** The codecs of the entities *)


Lemma add_time_slot_used (time_order : ELANTimeOrder.t) (ts : ELANTimeSlot.t) :
  is_Some (ELANTimeOrder.time_slots_dict time_order !! ELANTimeSlot.get_id ts) →
  ELANTimeOrder.add_time_slot time_order ts
  = Raise (KeyError "Cannot append time_slot. ID is already in use.").
Proof.
  intros H. unfold ELANTimeOrder.add_time_slot, ELANTimeOrder.__contains__.
  by rewrite bool_decide_eq_true_2.
Qed.

Lemma add_time_slots_used (l : list ELANTimeSlot.t) (time_order : ELANTimeOrder.t) :
  ¬ (NoDup (ELANTimeSlot.get_id <$> l)
     ∧ ∀ ts, ts ∈ l →
         ELANTimeOrder.time_slots_dict time_order !! ELANTimeSlot.get_id ts = None) →
  for_each ELANTimeOrder.add_time_slot l time_order
  = Raise (KeyError "Cannot append time_slot. ID is already in use.").
Proof.
  revert time_order. induction l as [|ts l IH]; intros time_order H.
  - destruct H. split; [constructor|]. intros ? ?%elem_of_nil. done.
  - cbn [for_each].
    destruct (ELANTimeOrder.time_slots_dict time_order !! ELANTimeSlot.get_id ts) as [x|] eqn:E.
    + rewrite add_time_slot_used by (by rewrite E). reflexivity.
    + rewrite add_time_slot_fresh by done. cbn [mbind result_bind].
      apply IH. cbn [ELANTimeOrder.time_slots_dict]. intros [Hnd Hl]. apply H. split.
      * rewrite fmap_cons. constructor; [|done].
        intros (ts' & Hid & Hts')%list_elem_of_fmap.
        specialize (Hl ts' Hts'). rewrite <- Hid, lookup_insert_eq in Hl. done.
      * intros ts' [->|Hts']%elem_of_cons; [done|].
        specialize (Hl ts' Hts').
        destruct (decide (ELANTimeSlot.get_id ts = ELANTimeSlot.get_id ts')) as [Heq|Hne].
        -- rewrite Heq, lookup_insert_eq in Hl. done.
        -- by rewrite lookup_insert_ne in Hl.
Qed.

Lemma index_lookup_NoDup {A} (key : A → string) (l : list A) (x : A) :
  NoDup (key <$> l) → x ∈ l → index key ∅ l !! key x = Some x.
Proof.
  induction l as [|y l IH] using rev_ind; [by intros _ ?%elem_of_nil|].
  rewrite fmap_app, index_app. cbn [index foldl]. intros [Hl [Hy _]]%NoDup_app [Hx| ->%list_elem_of_singleton]%elem_of_app.
  - rewrite lookup_insert_ne; [by apply IH|].
    intros Heq. apply (Hy (key x)); [by apply list_elem_of_fmap_2|].
    rewrite <- Heq. apply list_elem_of_fmap_2. by left.
  - apply lookup_insert_eq.
Qed.

Lemma index_lookup_Some {A} (key : A → string) (l : list A) (k : string) (x : A) :
  index key ∅ l !! k = Some x → x ∈ l ∧ key x = k.
Proof.
  induction l as [|y l IH] using rev_ind;
    [cbn [index foldl]; by rewrite lookup_empty|].
  rewrite index_app. cbn [index foldl].
  destruct (decide (key y = k)) as [<-|Hne].
  - rewrite lookup_insert_eq. intros [= ->]. split; [|done]. apply elem_of_app. right. by left.
  - rewrite lookup_insert_ne by done. intros [? ?]%IH. split; [|done]. apply elem_of_app. by left.
Qed.

(** ** The time order *)

(** X2.  [add_time_slot] on a time order.  When the lookup by identifier
    finds a slot under the identifier of the new slot, the call raises
    [KeyError].  Otherwise it succeeds: the slot is last in the list, the
    length is one more, the slot is contained and is found under its
    identifier, and every other identifier is looked up as before. *)
Theorem add_time_slot_lookup (time_order : ELANTimeOrder.t) (ts : ELANTimeSlot.t) :
  match ELANTimeOrder.get_time_slot_by_id time_order (ELANTimeSlot.get_id ts) with
  | OK _ =>
      ELANTimeOrder.add_time_slot time_order ts
      = Raise (KeyError "Cannot append time_slot. ID is already in use.")
  | Raise _ =>
      ∃ time_order',
        ELANTimeOrder.add_time_slot time_order ts = OK time_order'
        ∧ ELANTimeOrder.get_time_slots time_order'
          = ELANTimeOrder.get_time_slots time_order ++ [ts]
        ∧ ELANTimeOrder.__len__ time_order' = S (ELANTimeOrder.__len__ time_order)
        ∧ ELANTimeOrder.__contains__ time_order' ts = true
        ∧ ELANTimeOrder.get_time_slot_by_id time_order' (ELANTimeSlot.get_id ts) = OK ts
        ∧ ∀ ID, ID ≠ ELANTimeSlot.get_id ts →
            ELANTimeOrder.get_time_slot_by_id time_order' ID
            = ELANTimeOrder.get_time_slot_by_id time_order ID
  end.
Proof.
  unfold ELANTimeOrder.get_time_slot_by_id.
  destruct (ELANTimeOrder.time_slots_dict time_order !! ELANTimeSlot.get_id ts) as [x|] eqn:E.
  - apply add_time_slot_used. by rewrite E.
  - eexists. split; [by apply add_time_slot_fresh|].
    unfold ELANTimeOrder.get_time_slots, ELANTimeOrder.__len__, ELANTimeOrder.__contains__.
    cbn [ELANTimeOrder.time_slots ELANTimeOrder.time_slots_dict].
    split; [done|]. split; [by rewrite length_app, Nat.add_1_r|].
    rewrite lookup_insert_eq. split; [by apply bool_decide_eq_true_2|]. split; [done|].
    intros ID HID. by rewrite lookup_insert_ne.
Qed.

(** X3.  A time order built from the empty one by adding the slots of a
    list one after the other.  When the identifiers in the list are
    distinct, every call succeeds, the slots are those of the list in its
    order, and the lookup by identifier finds exactly the slots of the
    list, each under its own identifier.  When an identifier occurs twice,
    the construction stops with [KeyError]. *)
Theorem time_order_built (l : list ELANTimeSlot.t) :
  if decide (NoDup (ELANTimeSlot.get_id <$> l)) then
    ∃ time_order,
      for_each ELANTimeOrder.add_time_slot l ELANTimeOrder.__init__ = OK time_order
      ∧ ELANTimeOrder.get_time_slots time_order = l
      ∧ ∀ ID ts, ELANTimeOrder.get_time_slot_by_id time_order ID = OK ts
                 ↔ ts ∈ l ∧ ELANTimeSlot.get_id ts = ID
  else
    for_each ELANTimeOrder.add_time_slot l ELANTimeOrder.__init__
    = Raise (KeyError "Cannot append time_slot. ID is already in use.").
Proof.
  destruct (decide _) as [Hnd|Hnd].
  - eexists. split; [apply add_time_slots; [done|]; by intros|].
    split; [done|]. intros ID ts.
    unfold ELANTimeOrder.get_time_slot_by_id.
    cbn [ELANTimeOrder.time_slots_dict ELANTimeOrder.__init__].
    split.
    + destruct (index _ _ _ !! ID) as [x|] eqn:E; [|done].
      intros [= ->]. by apply index_lookup_Some in E.
    + intros [Hts <-]. by rewrite index_lookup_NoDup.
  - apply add_time_slots_used. by intros [? _].
Qed.


(** ** The entities written as one empty element *)






(** ** Tiers *)


(** ** Linguistic types *)



Lemma linguistic_type_init_inv (ID : string) (ta : pyval) (c : option string) (g : pyval)
    (cv e l : option string) (lt : ELANLinguisticType.t) :
  ELANLinguisticType.__init__ ID ta c g cv e l = OK lt →
  ∃ b, lt = ELANLinguisticType.mk ID (PyBool b) c g cv e l.
Proof.
  unfold ELANLinguisticType.__init__. intros H.
  destruct c as [c|];
    repeat match type of H with
           | (if ?b then _ else _) = _ => destruct b
           end; try discriminate; injection H as <-; eauto.
Qed.

(** X12.  A linguistic type that has been decoded never has graphic
    references, whatever the element says: the decoder keeps the attribute
    GRAPHIC_REFERENCES as a string and [has_graphic_references] tests for
    [True].  Encoding the decoded type therefore writes
    GRAPHIC_REFERENCES as false whenever the element had the attribute. *)
Theorem decoded_graphic_references (indent : string) (tagName : string)
    (attributes : list (string * string)) (childNodes : list node)
    (lt : ELANLinguisticType.t) :
  ELANLinguisticType.from_xml (Element tagName attributes childNodes) = OK lt →
  ELANLinguisticType.has_graphic_references lt = false
  ∧ ∃ attributes',
      parseString (ELANLinguisticType.to_xml indent lt)
      = [Element "LINGUISTIC_TYPE" attributes' []]
      ∧ optional attributes' "GRAPHIC_REFERENCES"
        = if hasAttribute attributes "GRAPHIC_REFERENCES" then Some "false" else None.
Proof.
  unfold ELANLinguisticType.from_xml.
  destruct (negb (tagName =? "LINGUISTIC_TYPE")); [done|].
  intros (ID & _ & H)%bind_OK.
  apply linguistic_type_init_inv in H as [b ->].
  change (optional attributes "GRAPHIC_REFERENCES")
    with (if hasAttribute attributes "GRAPHIC_REFERENCES"
          then Some (getAttribute attributes "GRAPHIC_REFERENCES") else None).
  destruct (hasAttribute attributes "GRAPHIC_REFERENCES");
    (split; [reflexivity|]); eexists; (split; [reflexivity|]);
    destruct b, (optional attributes "CONSTRAINTS"),
      (optional attributes "CONTROLLED_VOCABULARY_REF"), (optional attributes "EXT_REF"),
      (optional attributes "LEXICON_REF"); reflexivity.
Qed.

Lemma decoded_graphic_references_witness :
  ELANLinguisticType.has_graphic_references
    (ELANLinguisticType.mk "lt" (PyBool true) None (PyStr "true") None None None) = false
  ∧ ∃ attributes',
      parseString (ELANLinguisticType.to_xml default_indent
                     (ELANLinguisticType.mk "lt" (PyBool true) None (PyStr "true") None None None))
      = [Element "LINGUISTIC_TYPE" attributes' []]
      ∧ optional attributes' "GRAPHIC_REFERENCES" = Some "false".
Proof.
  apply (decoded_graphic_references default_indent "LINGUISTIC_TYPE"
           [("LINGUISTIC_TYPE_ID", "lt"); ("TIME_ALIGNABLE", "true");
            ("GRAPHIC_REFERENCES", "true")] []).
  reflexivity.
Defined.

(** ** Controlled vocabularies *)

Lemma add_cv_entry_fresh (cv : ELANControlledVocabulary.t)
    (C : ELANControlledVocabulary.cls) (e : ELANControlledVocabularyEntry.t) :
  ELANControlledVocabulary.ext_ref cv = None →
  ELANControlledVocabulary.cv_entries_dict C !! ELANControlledVocabularyEntry.get_value e = None →
  ELANControlledVocabulary.add_cv_entry cv e C
  = OK (ELANControlledVocabulary.mk_cls (ELANControlledVocabulary.cv_entries C ++ [e])
          (<[ELANControlledVocabularyEntry.get_value e := e]>
             (ELANControlledVocabulary.cv_entries_dict C))).
Proof.
  intros Hcv He. unfold ELANControlledVocabulary.add_cv_entry.
  by rewrite Hcv, bool_decide_eq_true_2.
Qed.

Lemma add_fresh_cv_entries (cv : ELANControlledVocabulary.t)
    (l : list ELANControlledVocabularyEntry.t) (C : ELANControlledVocabulary.cls) :
  ELANControlledVocabulary.ext_ref cv = None →
  NoDup (ELANControlledVocabularyEntry.get_value <$> l) →
  (∀ e, e ∈ l →
     ELANControlledVocabulary.cv_entries_dict C !! ELANControlledVocabularyEntry.get_value e
     = None) →
  for_each (λ C e, ELANControlledVocabulary.add_cv_entry cv e C) l C
  = OK (ELANControlledVocabulary.mk_cls (ELANControlledVocabulary.cv_entries C ++ l)
          (index ELANControlledVocabularyEntry.get_value
             (ELANControlledVocabulary.cv_entries_dict C) l)).
Proof.
  intros Hcv. revert C. induction l as [|e l IH]; intros C Hnd Hl.
  - cbn [for_each index foldl]. rewrite app_nil_r. by destruct C.
  - cbn [for_each]. rewrite add_cv_entry_fresh; [|done|apply Hl; by left].
    cbn [mbind result_bind]. rewrite fmap_cons in Hnd. apply NoDup_cons in Hnd as [Hne Hnd].
    rewrite IH; [|done|].
    + cbn [ELANControlledVocabulary.cv_entries ELANControlledVocabulary.cv_entries_dict].
      by rewrite <- app_assoc.
    + intros e' He'. cbn [ELANControlledVocabulary.cv_entries_dict].
      rewrite lookup_insert_ne; [apply Hl; by right|].
      intros Heq. apply Hne. rewrite Heq. by apply list_elem_of_fmap_2.
Qed.



Lemma add_cv_entry_keeps_index (cv : ELANControlledVocabulary.t)
    (e : ELANControlledVocabularyEntry.t) (C C' : ELANControlledVocabulary.cls) :
  NoDup (ELANControlledVocabularyEntry.get_value <$> ELANControlledVocabulary.cv_entries C) →
  ELANControlledVocabulary.cv_entries_dict C
  = index ELANControlledVocabularyEntry.get_value ∅ (ELANControlledVocabulary.cv_entries C) →
  ELANControlledVocabulary.add_cv_entry cv e C = OK C' →
  NoDup (ELANControlledVocabularyEntry.get_value <$> ELANControlledVocabulary.cv_entries C')
  ∧ ELANControlledVocabulary.cv_entries_dict C'
    = index ELANControlledVocabularyEntry.get_value ∅ (ELANControlledVocabulary.cv_entries C').
Proof.
  intros Hnd Hdict. unfold ELANControlledVocabulary.add_cv_entry.
  destruct (ELANControlledVocabulary.ext_ref cv); [done|].
  case_bool_decide as Hfresh; intros [= <-]; [|done].
  cbn [ELANControlledVocabulary.cv_entries ELANControlledVocabulary.cv_entries_dict].
  split.
  - rewrite fmap_app. apply NoDup_app. split; [done|]. split; [|apply NoDup_singleton].
    intros v (e' & -> & He')%list_elem_of_fmap
             (e'' & Heq & ->%list_elem_of_singleton)%list_elem_of_fmap.
    rewrite Hdict, <- Heq in Hfresh.
    destruct (index_is_Some ELANControlledVocabularyEntry.get_value ∅ _ _ He') as [x Hx].
    congruence.
  - by rewrite index_app, <- Hdict.
Qed.

Lemma add_cv_entries_keep_index
    (calls : list (ELANControlledVocabulary.t * ELANControlledVocabularyEntry.t))
    (C C' : ELANControlledVocabulary.cls) :
  NoDup (ELANControlledVocabularyEntry.get_value <$> ELANControlledVocabulary.cv_entries C) →
  ELANControlledVocabulary.cv_entries_dict C
  = index ELANControlledVocabularyEntry.get_value ∅ (ELANControlledVocabulary.cv_entries C) →
  for_each (λ C call, ELANControlledVocabulary.add_cv_entry call.1 call.2 C) calls C = OK C' →
  NoDup (ELANControlledVocabularyEntry.get_value <$> ELANControlledVocabulary.cv_entries C')
  ∧ ELANControlledVocabulary.cv_entries_dict C'
    = index ELANControlledVocabularyEntry.get_value ∅ (ELANControlledVocabulary.cv_entries C').
Proof.
  revert C. induction calls as [|[cv e] calls IH]; intros C Hnd Hdict H.
  - cbn [for_each] in H. by injection H as <-.
  - cbn [for_each] in H. apply bind_OK in H as (C1 & Hadd & H).
    destruct (add_cv_entry_keeps_index cv e C C1) as [Hnd1 Hdict1]; [done..|].
    by apply (IH C1).
Qed.

(** X14.  The entries of the vocabulary class after any sequence of
    successful [add_cv_entry] calls, to whichever vocabularies, that starts
    with the class as loaded.  No two entries of the list have the same
    value; the lookup by value finds exactly the entries of the list, each
    under its own value; and adding an entry of the list once more, to a
    vocabulary without external reference, changes nothing. *)
Theorem cv_entries_stay_indexed
    (calls : list (ELANControlledVocabulary.t * ELANControlledVocabularyEntry.t))
    (C : ELANControlledVocabulary.cls) :
  for_each (λ C call, ELANControlledVocabulary.add_cv_entry call.1 call.2 C) calls
    ELANControlledVocabulary.class_body = OK C →
  NoDup (ELANControlledVocabularyEntry.get_value <$> ELANControlledVocabulary.cv_entries C)
  ∧ (∀ cv value e,
       ELANControlledVocabulary.get_cv_entry_by_value C cv value = Some e
       ↔ e ∈ ELANControlledVocabulary.get_cv_entries C cv
         ∧ ELANControlledVocabularyEntry.get_value e = value)
  ∧ (∀ cv e,
       ELANControlledVocabulary.ext_ref cv = None →
       e ∈ ELANControlledVocabulary.get_cv_entries C cv →
       ELANControlledVocabulary.add_cv_entry cv e C = OK C).
Proof.
  intros H.
  assert (Hinv :
    NoDup (ELANControlledVocabularyEntry.get_value <$> ELANControlledVocabulary.cv_entries C)
    ∧ ELANControlledVocabulary.cv_entries_dict C
      = index ELANControlledVocabularyEntry.get_value ∅
          (ELANControlledVocabulary.cv_entries C)).
  { apply (add_cv_entries_keep_index calls ELANControlledVocabulary.class_body);
      [constructor|reflexivity|done]. }
  destruct Hinv as [Hnd Hdict]. split; [done|].
  unfold ELANControlledVocabulary.get_cv_entry_by_value,
    ELANControlledVocabulary.get_cv_entries.
  split.
  - intros _ value e. rewrite Hdict. split.
    + apply index_lookup_Some.
    + intros [He <-]. by apply index_lookup_NoDup.
  - intros cv e Hcv He. apply add_cv_entry_present; [done|].
    rewrite Hdict. by apply index_is_Some.
Qed.

Lemma cv_entries_stay_indexed_witness :
  NoDup (ELANControlledVocabularyEntry.get_value
           <$> ELANControlledVocabulary.cv_entries Sample.class_with_a)
  ∧ (∀ cv value e,
       ELANControlledVocabulary.get_cv_entry_by_value Sample.class_with_a cv value = Some e
       ↔ e ∈ ELANControlledVocabulary.get_cv_entries Sample.class_with_a cv
         ∧ ELANControlledVocabularyEntry.get_value e = value)
  ∧ (∀ cv e,
       ELANControlledVocabulary.ext_ref cv = None →
       e ∈ ELANControlledVocabulary.get_cv_entries Sample.class_with_a cv →
       ELANControlledVocabulary.add_cv_entry cv e Sample.class_with_a
       = OK Sample.class_with_a).
Proof.
  apply (cv_entries_stay_indexed
           [(ELANControlledVocabulary.__init__ "cv1" None None, Sample.entry_a);
            (ELANControlledVocabulary.__init__ "cv2" None None, Sample.entry_a')]).
  reflexivity.
Defined.

(** ** The properties of a document *)

Lemma dict_get_set (d : list (string * string)) (k v : string) :
  dict_get (dict_set d k v) k = Some v.
Proof.
  induction d as [|[k' v'] d IH]; simpl; [by rewrite String.eqb_refl|].
  destruct (k' =? k) eqn:E; simpl; [by rewrite String.eqb_refl|by rewrite E].
Qed.

Lemma dict_get_set_ne (d : list (string * string)) (k k' v : string) :
  k' ≠ k → dict_get (dict_set d k v) k' = dict_get d k'.
Proof.
  intros Hne.
  assert (Hf : (k =? k') = false) by (apply String.eqb_neq; congruence).
  induction d as [|[k0 v0] d IH]; simpl.
  - by rewrite Hf.
  - destruct (k0 =? k) eqn:E; simpl; [|by rewrite IH].
    apply String.eqb_eq in E as ->. by rewrite Hf.
Qed.

Lemma dict_set_keys (d : list (string * string)) (k v : string) :
  (dict_set d k v).*1 = if decide (k ∈ d.*1) then d.*1 else d.*1 ++ [k].
Proof.
  induction d as [|[k0 v0] d IH].
  - rewrite decide_False; [done|]. by intros ?%elem_of_nil.
  - cbn [dict_set]. destruct (k0 =? k) eqn:E.
    + apply String.eqb_eq in E as ->. rewrite decide_True; [done|]. by left.
    + apply String.eqb_neq in E. rewrite !fmap_cons, IH. cbn [fst].
      destruct (decide (k ∈ d.*1)) as [Hk|Hk].
      * rewrite decide_True; [done|]. by right.
      * rewrite decide_False; [done|]. by intros [->|?]%elem_of_cons.
Qed.

(** X15.  [set_property] and [get_property].  The value set is the value
    got; the other keys keep their values; a key that was present keeps its
    place among the keys and a new key comes last, so that the order in
    which properties are written does not change; and no key ever occurs
    twice. *)
Theorem set_property_get_property (D : ELANFile.t) (prop value : string) :
  let D' := ELANFile.set_property D prop value in
  ELANFile.get_property D' prop = Some value
  ∧ (∀ key, key ≠ prop → ELANFile.get_property D' key = ELANFile.get_property D key)
  ∧ (ELANFile.properties D').*1
    = (if decide (prop ∈ (ELANFile.properties D).*1)
       then (ELANFile.properties D).*1
       else (ELANFile.properties D).*1 ++ [prop])
  ∧ (NoDup (ELANFile.properties D).*1 → NoDup (ELANFile.properties D').*1).
Proof.
  unfold ELANFile.set_property, ELANFile.get_property. normalise.
  split; [apply dict_get_set|]. split; [intros; by apply dict_get_set_ne|].
  split; [apply dict_set_keys|].
  rewrite dict_set_keys. destruct (decide _) as [Hk|Hk]; [done|].
  intros Hnd. apply NoDup_app. split; [done|]. split; [|apply NoDup_singleton].
  by intros k Hk' ->%list_elem_of_singleton.
Qed.

(** ** The [add_] methods and the dictionary views *)

Lemma index_snoc {A} (key : A → string) (l : list A) (x : A) :
  index key ∅ (l ++ [x]) = <[key x := x]> (index key ∅ l).
Proof. by rewrite index_app. Qed.

Lemma get_tier_objects_snoc (s : store) (D : ELANFile.t) (r : tier_ref) (tier : ELANTier.t)
    (tiers : list ELANTier.t) :
  tier_objects s !! r = Some tier →
  ELANFile.get_tier_objects s (ELANFile.append_tier r tier D) = OK tiers →
  ∃ tiers', ELANFile.get_tier_objects s D = OK tiers' ∧ tiers = tiers' ++ [tier].
Proof.
  unfold ELANFile.get_tier_objects, ELANFile.append_tier. normalise.
  generalize (ELANFile.tiers D). intros l Hr. revert tiers.
  induction l as [|r' l IH]; intros tiers.
  - cbn. rewrite Hr. cbn. intros [= <-]. by exists [].
  - rewrite <- app_comm_cons. cbn [mapM].
    intros (tier' & Hr' & (tl & Htl & [= <-])%bind_OK)%bind_OK.
    destruct (IH tl Htl) as (tl' & Htl' & ->).
    exists (tier' :: tl'). split; [|done].
    rewrite Hr'. cbn [mbind result_bind]. by rewrite Htl'.
Qed.

(** X16.  The [add_] methods keep the dictionary views in step with the
    lists.  In a document whose dictionaries hold what its lists hold,
    adding a linguistic type, a constraint, a locale, a lexicon reference or
    an external reference, adding a tier, and adding a time slot whose
    identifier is free, each leave a document whose dictionaries hold what
    its lists hold. *)
Theorem add_methods_keep_indexed (s : store) (D : ELANFile.t) :
  indexed s D →
  (∀ linguistic_type, indexed s (ELANFile.add_linguistic_type D linguistic_type))
  ∧ (∀ constraint, indexed s (ELANFile.add_constraint D constraint))
  ∧ (∀ locale, indexed s (ELANFile.add_locale D locale))
  ∧ (∀ lexicon_reference, indexed s (ELANFile.add_lexicon_reference D lexicon_reference))
  ∧ (∀ external_reference, indexed s (ELANFile.add_external_reference D external_reference))
  ∧ (∀ r D', ELANFile.add_tier s r D = OK D' → indexed s D')
  ∧ (∀ time_slot D', ELANFile.add_time_slot D time_slot = OK D' → indexed s D').
Proof.
  intros [Imedia Ilinked Itime Itiers Iannotations Itypes Iconstraints Icvs Ixrefs Ilexrefs].
  split; [|split; [|split; [|split; [|split; [|split]]]]].
  - intros x. unfold ELANFile.add_linguistic_type.
    constructor; normalise; try assumption.
    by rewrite index_snoc, Itypes.
  - intros x. unfold ELANFile.add_constraint.
    constructor; normalise; try assumption.
    by rewrite index_snoc, Iconstraints.
  - intros x. unfold ELANFile.add_locale.
    constructor; normalise; assumption.
  - intros x. unfold ELANFile.add_lexicon_reference.
    constructor; normalise; try assumption.
    by rewrite index_snoc, Ilexrefs.
  - intros x. unfold ELANFile.add_external_reference.
    constructor; normalise; try assumption.
    by rewrite index_snoc, Ixrefs.
  - intros r D'. unfold ELANFile.add_tier.
    destruct (tier_objects s !! r) as [tier|] eqn:Hr; [|done]. intros [= <-].
    constructor; try assumption.
    + unfold ELANFile.append_tier; normalise.
      unfold index_tiers. rewrite foldl_app. cbn [foldl]. rewrite Hr.
      fold (index_tiers s ∅ (ELANFile.tiers D)). by rewrite Itiers.
    + intros tiers Htiers.
      apply (get_tier_objects_snoc s D r tier) in Htiers as (tiers' & Htiers' & ->); [|done].
      unfold ELANFile.append_tier; normalise.
      rewrite bind_app, index_app, <- (Iannotations tiers' Htiers').
      change ([tier] ≫= ELANTier.annotations) with (ELANTier.annotations tier ++ []).
      by rewrite app_nil_r.
  - intros time_slot D'. unfold ELANFile.add_time_slot.
    destruct (ELANFile.time_order D) as [time_order|] eqn:Hto; [|intros; discriminate].
    destruct (Itime time_order eq_refl) as [Hdict Hslots].
    intros (time_order' & Hadd & [= <-])%bind_OK.
    unfold ELANTimeOrder.add_time_slot in Hadd.
    destruct (ELANTimeOrder.__contains__ time_order time_slot); [done|]. injection Hadd as <-.
    constructor; normalise; try assumption.
    intros ? [= <-]. cbn [ELANTimeOrder.time_slots ELANTimeOrder.time_slots_dict].
    split; [by rewrite index_snoc, Hdict|by rewrite Hslots].
Qed.

Lemma add_methods_keep_indexed_witness :
  (∀ linguistic_type,
     indexed Sample.objects (ELANFile.add_linguistic_type Sample.doc linguistic_type))
  ∧ (∀ constraint, indexed Sample.objects (ELANFile.add_constraint Sample.doc constraint))
  ∧ (∀ locale, indexed Sample.objects (ELANFile.add_locale Sample.doc locale))
  ∧ (∀ lexicon_reference,
       indexed Sample.objects (ELANFile.add_lexicon_reference Sample.doc lexicon_reference))
  ∧ (∀ external_reference,
       indexed Sample.objects (ELANFile.add_external_reference Sample.doc external_reference))
  ∧ (∀ r D', ELANFile.add_tier Sample.objects r Sample.doc = OK D' → indexed Sample.objects D')
  ∧ (∀ time_slot D',
       ELANFile.add_time_slot Sample.doc time_slot = OK D' → indexed Sample.objects D').
Proof.
  apply (add_methods_keep_indexed Sample.objects Sample.doc).
  constructor; try reflexivity.
  - intros ? [= <-]. split; reflexivity.
  - intros tiers [= <-]. reflexivity.
Defined.

(** X17.  [add_media_file], [add_linked_file] and
    [add_controlled_vocabulary] never return: each raises [AttributeError],
    leaving the new entity last in the list while every lookup in the
    dictionary answers as before.  After such a call on a document whose
    dictionaries held what its lists held, they no longer do, unless the
    entity was already found under its key. *)
Theorem add_methods_that_raise (s : store) (D : ELANFile.t)
    (media_file : ELANMediaDescriptor.t) (linked_file : ELANLinkedFileDescriptor.t)
    (controlled_vocabulary : ELANControlledVocabulary.t) :
  ((ELANFile.add_media_file D media_file).2
   = AttributeError "'ELANMediaDescriptor' object has no attribute 'get_url'"
   ∧ (ELANFile.add_linked_file D linked_file).2
     = AttributeError "'ELANLinkedFileDescriptor' object has no attribute 'get_url'"
   ∧ (ELANFile.add_controlled_vocabulary D controlled_vocabulary).2
     = AttributeError "'ELANControlledVocabulary' object has no attribute 'get_id'")
  ∧ (ELANFile.media_files (ELANFile.add_media_file D media_file).1
     = ELANFile.media_files D ++ [media_file]
     ∧ (∀ url, ELANFile.get_media_file_by_url (ELANFile.add_media_file D media_file).1 url
               = ELANFile.get_media_file_by_url D url)
     ∧ (ELANFile.get_media_file_by_url D (ELANMediaDescriptor.get_media_url media_file)
        ≠ Some media_file →
        ¬ indexed s (ELANFile.add_media_file D media_file).1))
  ∧ (ELANFile.linked_files (ELANFile.add_linked_file D linked_file).1
     = ELANFile.linked_files D ++ [linked_file]
     ∧ (∀ url, ELANFile.get_linked_file_by_url (ELANFile.add_linked_file D linked_file).1 url
               = ELANFile.get_linked_file_by_url D url)
     ∧ (ELANFile.get_linked_file_by_url D (ELANLinkedFileDescriptor.get_link_url linked_file)
        ≠ Some linked_file →
        ¬ indexed s (ELANFile.add_linked_file D linked_file).1))
  ∧ (ELANFile.controlled_vocabularies
       (ELANFile.add_controlled_vocabulary D controlled_vocabulary).1
     = ELANFile.controlled_vocabularies D ++ [controlled_vocabulary]
     ∧ ELANFile.controlled_vocabularies_dict
         (ELANFile.add_controlled_vocabulary D controlled_vocabulary).1
       = ELANFile.controlled_vocabularies_dict D
     ∧ (ELANFile.controlled_vocabularies_dict D
          !! ELANControlledVocabulary.get_cv_id controlled_vocabulary
        ≠ Some controlled_vocabulary →
        ¬ indexed s (ELANFile.add_controlled_vocabulary D controlled_vocabulary).1)).
Proof.
  split; [by repeat split|].
  unfold ELANFile.add_media_file, ELANFile.add_linked_file,
    ELANFile.add_controlled_vocabulary, ELANFile.get_media_file_by_url,
    ELANFile.get_linked_file_by_url.
  cbn [fst]. normalise.
  split; [|split]; (split; [done|]); (split; [done|]);
    intros Hnew [Imedia Ilinked _ _ _ _ _ Icvs _ _]; apply Hnew.
  - change (ELANFile.media_files_dict D
            = index ELANMediaDescriptor.get_media_url ∅
                (ELANFile.media_files D ++ [media_file])) in Imedia.
    rewrite Imedia, index_snoc. apply lookup_insert_eq.
  - change (ELANFile.linked_files_dict D
            = index ELANLinkedFileDescriptor.get_link_url ∅
                (ELANFile.linked_files D ++ [linked_file])) in Ilinked.
    rewrite Ilinked, index_snoc. apply lookup_insert_eq.
  - change (ELANFile.controlled_vocabularies_dict D
            = index ELANControlledVocabulary.get_cv_id ∅
                (ELANFile.controlled_vocabularies D ++ [controlled_vocabulary])) in Icvs.
    rewrite Icvs, index_snoc. apply lookup_insert_eq.
Qed.

(** ** The dictionary views of a decoded document *)

Lemma for_each_invariant {A S} (I : S → Prop) (body : S → A → result S) (l : list A) (s s' : S) :
  (∀ s x s', I s → body s x = OK s' → I s') →
  I s → for_each body l s = OK s' → I s'.
Proof.
  intros Hbody. revert s. induction l as [|x l IH]; intros s Hs H.
  - cbn [for_each] in H. by injection H as <-.
  - cbn [for_each] in H. apply bind_OK in H as (s1 & Hx & H). eauto.
Qed.

Lemma time_order_from_xml_indexed (xml_node : node) (time_order : ELANTimeOrder.t) :
  ELANTimeOrder.from_xml xml_node = OK time_order →
  ELANTimeOrder.time_slots_dict time_order
  = index ELANTimeSlot.get_id ∅ (ELANTimeOrder.time_slots time_order).
Proof.
  unfold ELANTimeOrder.from_xml. destruct xml_node as [tag attrs children| |]; [|done..].
  destruct (negb _); [done|].
  apply (for_each_invariant
           (λ t, ELANTimeOrder.time_slots_dict t
                 = index ELANTimeSlot.get_id ∅ (ELANTimeOrder.time_slots t))); [|done].
  intros t n t' Ht. unfold ELANTimeOrder.from_xml_child.
  destruct n as [tag' attrs' children'| |]; [|by intros [= <-]..].
  destruct (negb _); [done|].
  intros (ts & _ & Hadd)%bind_OK. unfold ELANTimeOrder.add_time_slot in Hadd.
  destruct (ELANTimeOrder.__contains__ t ts); [done|]. injection Hadd as <-.
  cbn [ELANTimeOrder.time_slots ELANTimeOrder.time_slots_dict].
  by rewrite index_snoc, Ht.
Qed.

Lemma parse_header_child_indexed (s : store) (D D' : ELANFile.t) (n : node) :
  indexed s D →
  ELANFile.parse_header_child D n = OK D' →
  indexed s D'
  ∧ ELANFile.tiers D' = ELANFile.tiers D
  ∧ ELANFile.time_order D' = ELANFile.time_order D
  ∧ ELANFile.time_slots_dict D' = ELANFile.time_slots_dict D.
Proof.
  intros [Imedia Ilinked Itime Itiers Iannotations Itypes Iconstraints Icvs Ixrefs Ilexrefs].
  unfold ELANFile.parse_header_child.
  destruct n as [tag attrs children| |]; [|by intros [= <-]..].
  destruct (tag =? "MEDIA_DESCRIPTOR").
  { intros (x & _ & [= <-])%bind_OK. split; [|done].
    constructor; normalise; try assumption. by rewrite index_snoc, Imedia. }
  destruct (tag =? "LINKED_FILE_DESCRIPTOR").
  { intros (x & _ & [= <-])%bind_OK. split; [|done].
    constructor; normalise; try assumption. by rewrite index_snoc, Ilinked. }
  destruct (tag =? "PROPERTY"); [|done].
  intros (name & _ & (value & _ & [= <-])%bind_OK)%bind_OK. split; [|done].
  constructor; normalise; assumption.
Qed.

Lemma parse_header_indexed (s : store) (l : list node) (D D' : ELANFile.t) :
  indexed s D →
  for_each ELANFile.parse_header_child l D = OK D' →
  indexed s D'
  ∧ ELANFile.tiers D' = ELANFile.tiers D
  ∧ ELANFile.time_order D' = ELANFile.time_order D
  ∧ ELANFile.time_slots_dict D' = ELANFile.time_slots_dict D.
Proof.
  intros HD H.
  apply (for_each_invariant
           (λ D', indexed s D'
                  ∧ ELANFile.tiers D' = ELANFile.tiers D
                  ∧ ELANFile.time_order D' = ELANFile.time_order D
                  ∧ ELANFile.time_slots_dict D' = ELANFile.time_slots_dict D)
           ELANFile.parse_header_child l D D'); [|done|done].
  intros D1 n D2 (H1 & <- & <- & <-) Hn.
  by apply (parse_header_child_indexed s D1 D2 n).
Qed.

Lemma index_tiers_grow (objects : list ELANTier.t) (tier : ELANTier.t)
    (C C' : ELANControlledVocabulary.cls) (d : gmap string tier_ref) (l : list tier_ref) :
  Forall (λ r, r < length objects) l →
  index_tiers (mk_store (objects ++ [tier]) C') d l = index_tiers (mk_store objects C) d l.
Proof.
  intros Hl. revert d. induction Hl as [|r l Hr Hl IH]; intros d; [done|].
  unfold index_tiers. cbn [foldl tier_objects].
  rewrite lookup_app_l by done. apply IH.
Qed.

Lemma index_tiers_snoc (s : store) (d : gmap string tier_ref) (l : list tier_ref)
    (r : tier_ref) (tier : ELANTier.t) :
  tier_objects s !! r = Some tier →
  index_tiers s d (l ++ [r]) = <[ELANTier.get_tier_id tier := r]> (index_tiers s d l).
Proof. intros Hr. unfold index_tiers. rewrite foldl_app. cbn [foldl]. by rewrite Hr. Qed.

Lemma mapM_ext_in {A B} (f g : A → result B) (l : list A) :
  Forall (λ x, f x = g x) l → mapM f l = mapM g l.
Proof. induction 1 as [|x l Hx Hl IH]; [done|]. cbn [mapM]. by rewrite Hx, IH. Qed.

Lemma get_tier_objects_grow (objects : list ELANTier.t) (tier : ELANTier.t)
    (C C' : ELANControlledVocabulary.cls) (D : ELANFile.t) :
  Forall (λ r, r < length objects) (ELANFile.tiers D) →
  ELANFile.get_tier_objects (mk_store (objects ++ [tier]) C') D
  = ELANFile.get_tier_objects (mk_store objects C) D.
Proof.
  intros Hl. unfold ELANFile.get_tier_objects. apply mapM_ext_in.
  eapply Forall_impl; [exact Hl|]. intros r Hr. cbn [tier_objects].
  by rewrite lookup_app_l.
Qed.

Lemma indexed_class (objects : list ELANTier.t) (C C' : ELANControlledVocabulary.cls)
    (D : ELANFile.t) :
  indexed (mk_store objects C) D → indexed (mk_store objects C') D.
Proof. intros []. by constructor. Qed.

Lemma parse_child_indexed (acc acc' : ELANFile.t * store) (n : node) :
  indexed acc.2 acc.1 →
  Forall (λ r, r < length (tier_objects acc.2)) (ELANFile.tiers acc.1) →
  (ELANFile.time_order acc.1 = None → ELANFile.time_slots_dict acc.1 = ∅) →
  (tag_names [n] = ["TIME_ORDER"] → ELANFile.time_order acc.1 = None) →
  ELANFile.parse_child acc n = OK acc' →
  indexed acc'.2 acc'.1
  ∧ Forall (λ r, r < length (tier_objects acc'.2)) (ELANFile.tiers acc'.1)
  ∧ (ELANFile.time_order acc'.1 = None → ELANFile.time_slots_dict acc'.1 = ∅)
  ∧ (tag_names [n] ≠ ["TIME_ORDER"] → ELANFile.time_order acc'.1 = ELANFile.time_order acc.1).
Proof.
  destruct acc as [D s]. cbn [fst snd]. intros HD Hrefs Hslots Hfirst.
  destruct n as [tag attrs children| |]; [|by intros [= <-]..].
  pose proof HD as
    [Imedia Ilinked Itime Itiers Iannotations Itypes Iconstraints Icvs Ixrefs Ilexrefs].
  unfold ELANFile.parse_child. cbn [fst snd].
  destruct (tag =? "HEADER") eqn:Eheader.
  { intros (D' & Hheader & [= <-])%bind_OK. cbn [fst snd].
    apply (parse_header_indexed s) in Hheader as (HD' & Htiers & Htime & Hdict).
    - rewrite Htiers, Htime, Hdict.
      destruct (hasAttribute attrs "MEDIA_FILE"), (hasAttribute attrs "TIME_UNITS");
        normalise; done.
    - destruct (hasAttribute attrs "MEDIA_FILE"), (hasAttribute attrs "TIME_UNITS");
        constructor; normalise; assumption. }
  destruct (tag =? "TIME_ORDER") eqn:Etime.
  { apply String.eqb_eq in Etime as ->.
    intros (time_order & Hfrom & [= <-])%bind_OK. cbn [fst snd]. normalise.
    apply time_order_from_xml_indexed in Hfrom.
    rewrite (Hslots (Hfirst eq_refl)).
    split; [|split; [done|split; [done|done]]].
    constructor; normalise; try assumption.
    intros ? [= <-]. by rewrite Hfrom. }
  assert (Hother : tag_names [Element tag attrs children] ≠ ["TIME_ORDER"]
                   → ELANFile.time_order D = ELANFile.time_order D) by done.
  destruct (tag =? "TIER").
  { intros (tier & _ & [= <-])%bind_OK. cbn [fst snd new_tier tier_objects].
    unfold ELANFile.append_tier. normalise.
    split; [|split; [|done]].
    - destruct s as [objects C]. cbn [tier_objects cv_class] in *.
      constructor; normalise; try assumption.
      + rewrite (index_tiers_snoc _ _ _ _ tier)
          by (cbn [tier_objects]; by apply list_lookup_middle).
        by rewrite (index_tiers_grow objects tier C C), Itiers.
      + intros tiers Htiers.
        apply (get_tier_objects_snoc (mk_store (objects ++ [tier]) C) D (length objects) tier)
          in Htiers as (tiers' & Htiers' & ->);
          [|cbn [tier_objects]; by apply list_lookup_middle].
        rewrite (get_tier_objects_grow objects tier C C) in Htiers' by done.
        rewrite bind_app, index_app, <- (Iannotations tiers' Htiers').
        change ([tier] ≫= ELANTier.annotations) with (ELANTier.annotations tier ++ []).
        by rewrite app_nil_r.
    - rewrite length_app, Nat.add_1_r. apply Forall_app. split.
      + eapply Forall_impl; [exact Hrefs|]. intros r Hr. simpl in Hr. lia.
      + repeat constructor. }
  destruct (tag =? "LINGUISTIC_TYPE").
  { intros (x & _ & [= <-])%bind_OK. cbn [fst snd]. normalise.
    split; [|done]. constructor; normalise; try assumption. by rewrite index_snoc, Itypes. }
  destruct (tag =? "CONSTRAINT").
  { intros (x & _ & [= <-])%bind_OK. cbn [fst snd]. normalise.
    split; [|done]. constructor; normalise; try assumption.
    by rewrite index_snoc, Iconstraints. }
  destruct (tag =? "CONTROLLED_VOCABULARY").
  { intros ([cv C'] & _ & [= <-])%bind_OK. cbn [fst snd]. normalise.
    split; [|done]. destruct s as [objects C]. apply (indexed_class objects C C').
    constructor; normalise; try assumption. by rewrite index_snoc, Icvs. }
  destruct (tag =? "EXTERNAL_REF").
  { intros (x & _ & [= <-])%bind_OK. cbn [fst snd]. normalise.
    split; [|done]. constructor; normalise; try assumption. by rewrite index_snoc, Ixrefs. }
  destruct (tag =? "LOCALE").
  { intros (x & _ & [= <-])%bind_OK. cbn [fst snd]. normalise.
    split; [|done]. constructor; normalise; assumption. }
  destruct (tag =? "LEXICON_REF"); [|done].
  intros (x & _ & [= <-])%bind_OK. cbn [fst snd]. normalise.
  split; [|done]. constructor; normalise; try assumption. by rewrite index_snoc, Ilexrefs.
Qed.

Lemma parse_children_indexed (l : list node) (acc acc' : ELANFile.t * store) :
  indexed acc.2 acc.1 →
  Forall (λ r, r < length (tier_objects acc.2)) (ELANFile.tiers acc.1) →
  (ELANFile.time_order acc.1 = None → ELANFile.time_slots_dict acc.1 = ∅) →
  (ELANFile.time_order acc.1 = None
   ∧ (length (filter (λ tag, tag = "TIME_ORDER") (tag_names l)) ≤ 1)%nat
   ∨ filter (λ tag, tag = "TIME_ORDER") (tag_names l) = []) →
  for_each ELANFile.parse_child l acc = OK acc' →
  indexed acc'.2 acc'.1.
Proof.
  revert acc. induction l as [|n l IH]; intros acc HD Hrefs Hslots Hcount H.
  - cbn [for_each] in H. by injection H as <-.
  - cbn [for_each] in H. apply bind_OK in H as (acc1 & Hn & H).
    change (n :: l) with ([n] ++ l) in Hcount. rewrite tag_names_app, filter_app in Hcount.
    destruct (decide (tag_names [n] = ["TIME_ORDER"])) as [Htag|Htag].
    + rewrite Htag in Hcount. rewrite filter_cons_True in Hcount by done.
      destruct Hcount as [[Hnone Hlen]|Hnil]; [|done].
      destruct (parse_child_indexed acc acc1 n) as (HD1 & Hrefs1 & Hslots1 & _); [done..|].
      apply (IH acc1); [done..| |done]. right.
      cbn [app length filter] in Hlen. apply length_zero_iff_nil.
      rewrite filter_nil in Hlen. cbn [app length] in Hlen. lia.
    + assert (Hnil : filter (λ tag, tag = "TIME_ORDER") (tag_names [n]) = []).
      { destruct n as [tag attrs children| |]; [|done..].
        change (tag_names [Element tag attrs children]) with [tag] in *.
        rewrite filter_cons_False; [done|]. intros ->. by apply Htag. }
      rewrite Hnil in Hcount. cbn [app] in Hcount.
      destruct (parse_child_indexed acc acc1 n) as (HD1 & Hrefs1 & Hslots1 & Hsame);
        [done..|].
      apply (IH acc1); [done..| |done].
      rewrite (Hsame Htag). exact Hcount.
Qed.

(** X18.  The document that [parse_xml] returns has dictionary views that
    hold what its lists hold, whatever the element tree is, as long as the
    root element has at most one TIME_ORDER child: every media and linked
    file descriptor, time slot, tier, annotation, linguistic type,
    constraint, controlled vocabulary, external and lexicon reference of the
    lists is in its dictionary, entered in the order of the lists. *)
Theorem parse_xml_indexed (attrs : list (string * string)) (childNodes rest : list node)
    (s s' : store) (D : ELANFile.t) :
  (length (filter (λ tag, tag = "TIME_ORDER") (tag_names childNodes)) ≤ 1)%nat →
  ELANFile.parse_xml (Element "ANNOTATION_DOCUMENT" attrs childNodes :: rest) s = OK (D, s') →
  indexed s' D.
Proof.
  intros Hcount H. unfold ELANFile.parse_xml in H.
  cbn [String.eqb Ascii.eqb Bool.eqb] in H.
  apply (parse_children_indexed childNodes _ (D, s')) in H; [done|..].
  - constructor; normalise; try done.
    unfold ELANFile.get_tier_objects. normalise. by intros ? [= <-].
  - normalise. constructor.
  - done.
  - left. by split.
Qed.

Lemma parse_xml_indexed_witness :
  match ELANFile.parse_xml Sample.tree Sample.objects with
  | OK (D, s') => indexed s' D
  | Raise _ => False
  end.
Proof.
  destruct (ELANFile.parse_xml Sample.tree Sample.objects) as [[D s']|e] eqn:E.
  - unfold Sample.tree in E. eapply parse_xml_indexed; [|exact E].
    by apply (bool_decide_unpack _).
  - vm_compute in E. discriminate.
Defined.

(** ** What the decoder skips and what it refuses *)

(** X19.  The decoder looks at element nodes only where it loops over
    child nodes: text and comments among the children of the root element,
    of HEADER, of TIME_ORDER and of TIER change nothing, whether the
    document is decoded or refused, and neither does any node that follows
    the root element. *)
Theorem decoder_skips_other_nodes (tagName : string) (attrs : list (string * string))
    (childNodes rest : list node) (s : store) (acc : ELANFile.t * store) :
  ELANFile.parse_xml (Element tagName attrs childNodes :: rest) s
  = ELANFile.parse_xml [Element tagName attrs (elements childNodes)] s
  ∧ ELANFile.parse_child acc (Element "HEADER" attrs childNodes)
    = ELANFile.parse_child acc (Element "HEADER" attrs (elements childNodes))
  ∧ ELANTimeOrder.from_xml (Element tagName attrs childNodes)
    = ELANTimeOrder.from_xml (Element tagName attrs (elements childNodes))
  ∧ ELANTier.from_xml (Element tagName attrs childNodes)
    = ELANTier.from_xml (Element tagName attrs (elements childNodes)).
Proof.
  split; [|split; [|split]].
  - unfold ELANFile.parse_xml. destruct (tagName =? "ANNOTATION_DOCUMENT"); [|done].
    apply for_each_elements, parse_child_skips.
  - unfold ELANFile.parse_child. cbn [String.eqb Ascii.eqb Bool.eqb].
    by rewrite (for_each_elements _ childNodes) by apply parse_header_child_skips.
  - unfold ELANTimeOrder.from_xml. destruct (negb _); [done|].
    apply for_each_elements, time_order_skips.
  - unfold ELANTier.from_xml. destruct (negb _); [done|].
    destruct (required attrs "TIER_ID" _); [|done]. cbn [mbind result_bind].
    destruct (required attrs "LINGUISTIC_TYPE_REF" _); [|done]. cbn [mbind result_bind].
    apply for_each_elements, tier_from_xml_skips.
Qed.

Lemma parse_child_unknown (acc : ELANFile.t * store) (tag : string)
    (attrs : list (string * string)) (children : list node) :
  tag ∉ ["HEADER"; "TIME_ORDER"; "TIER"; "LINGUISTIC_TYPE"; "CONSTRAINT";
         "CONTROLLED_VOCABULARY"; "EXTERNAL_REF"; "LOCALE"; "LEXICON_REF"] →
  ELANFile.parse_child acc (Element tag attrs children)
  = Raise (RuntimeError ("Unknown XML node: " +:+ tag)).
Proof.
  intros Htag. unfold ELANFile.parse_child.
  repeat match goal with
         | |- context [tag =? ?known] =>
             destruct (String.eqb_spec tag known) as [->|_];
             [exfalso; apply Htag; set_solver|]
         end.
  reflexivity.
Qed.

(** X20.  [parse_xml] never returns a document for a root element that has
    a child element of an unknown tag, wherever among the children it
    stands. *)
Theorem parse_xml_refuses_unknown_elements (attrs attrs' : list (string * string))
    (childNodes childNodes' rest : list node) (tag : string) (s : store) :
  Element tag attrs' childNodes' ∈ childNodes →
  tag ∉ ["HEADER"; "TIME_ORDER"; "TIER"; "LINGUISTIC_TYPE"; "CONSTRAINT";
         "CONTROLLED_VOCABULARY"; "EXTERNAL_REF"; "LOCALE"; "LEXICON_REF"] →
  raises (ELANFile.parse_xml (Element "ANNOTATION_DOCUMENT" attrs childNodes :: rest) s) = true.
Proof.
  intros Hin Htag. unfold ELANFile.parse_xml. cbn [String.eqb Ascii.eqb Bool.eqb].
  generalize (ELANFile.mk (optional attrs "AUTHOR") (optional attrs "DATE")
                (optional attrs "FORMAT") (optional attrs "VERSION") None None [] [] []
                None [] [] [] [] [] [] [] ∅ ∅ ∅ ∅ ∅ ∅ ∅ ∅ ∅ ∅, s).
  induction childNodes as [|n l IH]; intros acc; [by apply elem_of_nil in Hin|].
  cbn [for_each]. apply elem_of_cons in Hin as [<-|Hin].
  - by rewrite parse_child_unknown.
  - destruct (ELANFile.parse_child acc n) as [acc1|e]; [|done].
    cbn [mbind result_bind]. by apply IH.
Qed.

Lemma parse_xml_refuses_unknown_elements_witness :
  raises (ELANFile.parse_xml
            [Element "ANNOTATION_DOCUMENT"
               [("AUTHOR", "author"); ("DATE", "2016-06-01"); ("VERSION", "2.7")]
               [Element "TIME_ORDER" [] []; Element "LICENSE" [] []]]
            Sample.objects) = true.
Proof.
  apply (parse_xml_refuses_unknown_elements _ [] _ [] [] "LICENSE").
  - right. left.
  - by apply (bool_decide_unpack _).
Defined.

(** ** The order of time slots *)

Lemma timeslot_lt_true (a b : ELANTimeSlot.t) :
  ELANTimeSlot.__lt__ a b = OK true
  ↔ ∃ u v, ELANTimeSlot.time_value a = Some u ∧ ELANTimeSlot.time_value b = Some v ∧ (u < v)%Z.
Proof.
  unfold ELANTimeSlot.__lt__, py_lt.
  destruct (ELANTimeSlot.time_value a) as [u|], (ELANTimeSlot.time_value b) as [v|];
    cbn [mbind result_bind mret result_ret]; try case_bool_decide; naive_solver.
Qed.

Lemma timeslot_gt_true (a b : ELANTimeSlot.t) :
  ELANTimeSlot.__gt__ a b = OK true
  ↔ ∃ u v, ELANTimeSlot.time_value a = Some u ∧ ELANTimeSlot.time_value b = Some v ∧ (u > v)%Z.
Proof.
  unfold ELANTimeSlot.__gt__, py_gt.
  destruct (ELANTimeSlot.time_value a) as [u|], (ELANTimeSlot.time_value b) as [v|];
    cbn [mbind result_bind mret result_ret]; try case_bool_decide; naive_solver.
Qed.

Lemma timeslot_le_true (a b : ELANTimeSlot.t) :
  ELANTimeSlot.__le__ a b = OK true
  ↔ ELANTimeSlot.time_value a = ELANTimeSlot.time_value b
    ∨ ELANTimeSlot.__lt__ a b = OK true.
Proof.
  unfold ELANTimeSlot.__le__, py_eq. case_bool_decide as E; [naive_solver|].
  fold (ELANTimeSlot.__lt__ a b). naive_solver.
Qed.

Lemma timeslot_ge_true (a b : ELANTimeSlot.t) :
  ELANTimeSlot.__ge__ a b = OK true
  ↔ ELANTimeSlot.time_value a = ELANTimeSlot.time_value b
    ∨ ELANTimeSlot.__gt__ a b = OK true.
Proof.
  unfold ELANTimeSlot.__ge__, py_eq. case_bool_decide as E; [naive_solver|].
  fold (ELANTimeSlot.__gt__ a b). naive_solver.
Qed.

(** X21.  The comparison operators of time slots, as far as they answer
    [True].  [<] is irreflexive and transitive, [>] is its converse, [<=]
    holds exactly when [<] holds or the two time values are the same, [>=]
    is the converse of [<=], and two slots that are [<=] each other have
    the same time value.  [==] compares the identifier as well: it holds
    exactly for equal slots, and [!=] is its negation.  Two slots that both
    have a time value are always comparable by [<=]. *)
Theorem timeslot_order_laws (a b c : ELANTimeSlot.t) :
  ELANTimeSlot.__lt__ a a ≠ OK true
  ∧ (ELANTimeSlot.__lt__ a b = OK true → ELANTimeSlot.__lt__ b c = OK true →
     ELANTimeSlot.__lt__ a c = OK true)
  ∧ (ELANTimeSlot.__gt__ a b = OK true ↔ ELANTimeSlot.__lt__ b a = OK true)
  ∧ (ELANTimeSlot.__le__ a b = OK true
     ↔ ELANTimeSlot.__lt__ a b = OK true
       ∨ ELANTimeSlot.get_time_value a = ELANTimeSlot.get_time_value b)
  ∧ (ELANTimeSlot.__ge__ a b = OK true ↔ ELANTimeSlot.__le__ b a = OK true)
  ∧ (ELANTimeSlot.__le__ a b = OK true → ELANTimeSlot.__le__ b a = OK true →
     ELANTimeSlot.get_time_value a = ELANTimeSlot.get_time_value b)
  ∧ (ELANTimeSlot.__eq__ a b = true ↔ a = b)
  ∧ ELANTimeSlot.__ne__ a b = negb (ELANTimeSlot.__eq__ a b)
  ∧ (ELANTimeSlot.has_time_value a = true → ELANTimeSlot.has_time_value b = true →
     ELANTimeSlot.__le__ a b = OK true ∨ ELANTimeSlot.__le__ b a = OK true).
Proof.
  unfold ELANTimeSlot.get_time_value.
  rewrite !timeslot_le_true, !timeslot_ge_true, !timeslot_gt_true, !timeslot_lt_true.
  split; [naive_solver lia|]. split; [naive_solver lia|]. split; [naive_solver lia|].
  split; [naive_solver|]. split; [naive_solver lia|]. split; [naive_solver lia|].
  split.
  { unfold ELANTimeSlot.__eq__, py_eq. destruct a, b. cbn.
    repeat case_bool_decide; naive_solver. }
  split; [unfold ELANTimeSlot.__ne__; by destruct (ELANTimeSlot.__eq__ a b)|].
  unfold ELANTimeSlot.has_time_value.
  destruct (ELANTimeSlot.time_value a) as [u|], (ELANTimeSlot.time_value b) as [v|];
    try done.
  intros _ _. destruct (Z.lt_trichotomy u v) as [?|[->|?]]; naive_solver lia.
Qed.

(** ** The order of alignable annotations *)

Lemma alignable_lt_true (file file' : option ELANTimeOrder.t)
    (a b : ELANAlignableAnnotation.t) :
  ELANAlignableAnnotation.__lt__ file file' a b = OK true
  ↔ ∃ u v u',
      ELANAlignableAnnotation.get_start_time file a = OK (Some u)
      ∧ ELANAlignableAnnotation.get_end_time file a = OK (Some v)
      ∧ ELANAlignableAnnotation.get_start_time file' b = OK (Some u')
      ∧ (u < u')%Z ∧ (v <= u')%Z.
Proof.
  unfold ELANAlignableAnnotation.__lt__, py_lt, py_le.
  destruct (ELANAlignableAnnotation.get_start_time file a) as [[u|]|];
    destruct (ELANAlignableAnnotation.get_start_time file' b) as [[u'|]|];
    cbn [mbind result_bind mret result_ret]; try naive_solver.
  case_bool_decide; [|naive_solver].
  destruct (ELANAlignableAnnotation.get_end_time file a) as [[v|]|];
    cbn [mbind result_bind mret result_ret]; try naive_solver.
  case_bool_decide; naive_solver.
Qed.

Lemma alignable_gt_true (file file' : option ELANTimeOrder.t)
    (a b : ELANAlignableAnnotation.t) :
  ELANAlignableAnnotation.__gt__ file file' a b = OK true
  ↔ ∃ u u' v',
      ELANAlignableAnnotation.get_start_time file a = OK (Some u)
      ∧ ELANAlignableAnnotation.get_start_time file' b = OK (Some u')
      ∧ ELANAlignableAnnotation.get_end_time file' b = OK (Some v')
      ∧ (u >= v')%Z ∧ (u > u')%Z.
Proof.
  unfold ELANAlignableAnnotation.__gt__, py_gt, py_ge.
  destruct (ELANAlignableAnnotation.get_start_time file a) as [[u|]|];
    destruct (ELANAlignableAnnotation.get_end_time file' b) as [[v'|]|];
    cbn [mbind result_bind mret result_ret]; try naive_solver.
  case_bool_decide; [|naive_solver].
  destruct (ELANAlignableAnnotation.get_start_time file' b) as [[u'|]|];
    cbn [mbind result_bind mret result_ret]; try naive_solver.
  case_bool_decide; naive_solver.
Qed.

(** X22.  Temporal precedence of alignable annotations, each resolved in the
    time order of its own document.  [a < b] answers [True] exactly when
    the start and the end of [a] and the start of [b] resolve to time
    values, [a] starts before [b] starts and ends no later than [b]
    starts.  As far as it answers [True], [<] is irreflexive and
    transitive, and [>] is its converse. *)
Theorem alignable_precedence (fa fb fc : option ELANTimeOrder.t)
    (a b c : ELANAlignableAnnotation.t) :
  (ELANAlignableAnnotation.__lt__ fa fb a b = OK true
   ↔ ∃ u v u',
       ELANAlignableAnnotation.get_start_time fa a = OK (Some u)
       ∧ ELANAlignableAnnotation.get_end_time fa a = OK (Some v)
       ∧ ELANAlignableAnnotation.get_start_time fb b = OK (Some u')
       ∧ (u < u')%Z ∧ (v <= u')%Z)
  ∧ ELANAlignableAnnotation.__lt__ fa fa a a ≠ OK true
  ∧ (ELANAlignableAnnotation.__lt__ fa fb a b = OK true →
     ELANAlignableAnnotation.__lt__ fb fc b c = OK true →
     ELANAlignableAnnotation.__lt__ fa fc a c = OK true)
  ∧ (ELANAlignableAnnotation.__gt__ fa fb a b = OK true
     ↔ ELANAlignableAnnotation.__lt__ fb fa b a = OK true).
Proof.
  split; [apply alignable_lt_true|]. split; [|split].
  - intros (u & v & u' & Hu & Hv & Hu' & ? & ?)%alignable_lt_true.
    rewrite Hu in Hu'. injection Hu' as <-. lia.
  - intros (u & v & u' & Hu & Hv & Hu' & ? & ?)%alignable_lt_true
           (u1 & v' & u'' & Hu1 & Hv' & Hu'' & ? & ?)%alignable_lt_true.
    rewrite Hu' in Hu1. injection Hu1 as <-.
    apply alignable_lt_true. exists u, v, u''. repeat split; try done; lia.
  - rewrite alignable_gt_true, alignable_lt_true. split.
    + intros (u & u' & v' & Hu & Hu' & Hv' & ? & ?). exists u', v', u.
      repeat split; try done; lia.
    + intros (u' & v' & u & Hu' & Hv' & Hu & ? & ?). exists u, u', v'.
      repeat split; try done; lia.
Qed.

Lemma alignable_precedence_witness :
  ELANAlignableAnnotation.__lt__ (Some Sample.timeline) (Some Sample.timeline)
    Sample.first Sample.third = OK true
  ∧ ELANAlignableAnnotation.__gt__ (Some Sample.timeline) (Some Sample.timeline)
      Sample.third Sample.first = OK true.
Proof.
  destruct (alignable_precedence (Some Sample.timeline) (Some Sample.timeline)
              (Some Sample.timeline) Sample.first Sample.second Sample.third)
    as (_ & _ & Htrans & _).
  destruct (alignable_precedence (Some Sample.timeline) (Some Sample.timeline)
              (Some Sample.timeline) Sample.third Sample.first Sample.first)
    as (_ & _ & _ & Hconverse).
  split; [by apply Htrans|]. apply Hconverse. by apply Htrans.
Defined.

Lemma alignable_eq_true (file file' : option ELANTimeOrder.t)
    (a b : ELANAlignableAnnotation.t) :
  ELANAlignableAnnotation.__eq__ file file' a b = OK true
  ↔ ∃ u v,
      ELANAlignableAnnotation.get_start_time file a = OK u
      ∧ ELANAlignableAnnotation.get_start_time file' b = OK u
      ∧ ELANAlignableAnnotation.get_end_time file a = OK v
      ∧ ELANAlignableAnnotation.get_end_time file' b = OK v.
Proof.
  unfold ELANAlignableAnnotation.__eq__, py_eq.
  destruct (ELANAlignableAnnotation.get_start_time file a) as [u|];
    destruct (ELANAlignableAnnotation.get_start_time file' b) as [u'|];
    cbn [mbind result_bind mret result_ret]; try naive_solver.
  case_bool_decide; [|naive_solver].
  destruct (ELANAlignableAnnotation.get_end_time file a) as [v|];
    destruct (ELANAlignableAnnotation.get_end_time file' b) as [v'|];
    cbn [mbind result_bind mret result_ret]; try naive_solver.
  case_bool_decide; naive_solver.
Qed.

(** X23.  The length of an alignable annotation and temporal equality.  A
    length that is returned is the absolute difference of the time values
    of the end and the start slot, and is not negative; two annotations
    that are temporally equal have the same length, or fail for their
    length in the same way, and neither precedes the other; and [!=] is the
    negation of [==]. *)
Theorem alignable_length_and_equality (fa fb : option ELANTimeOrder.t)
    (a b : ELANAlignableAnnotation.t) :
  (∀ n, ELANAlignableAnnotation.__len__ fa a = OK n
        ↔ ∃ u v, ELANAlignableAnnotation.get_start_time fa a = OK (Some u)
                 ∧ ELANAlignableAnnotation.get_end_time fa a = OK (Some v)
                 ∧ n = Z.abs (v - u))
  ∧ (∀ n, ELANAlignableAnnotation.__len__ fa a = OK n → (0 <= n)%Z)
  ∧ (ELANAlignableAnnotation.__eq__ fa fb a b = OK true →
     ELANAlignableAnnotation.__len__ fa a = ELANAlignableAnnotation.__len__ fb b
     ∧ ELANAlignableAnnotation.__lt__ fa fb a b ≠ OK true
     ∧ ELANAlignableAnnotation.__gt__ fa fb a b ≠ OK true)
  ∧ (∀ r, ELANAlignableAnnotation.__ne__ fa fb a b = OK r
          ↔ ELANAlignableAnnotation.__eq__ fa fb a b = OK (negb r)).
Proof.
  assert (Hlen : ∀ n, ELANAlignableAnnotation.__len__ fa a = OK n
        ↔ ∃ u v, ELANAlignableAnnotation.get_start_time fa a = OK (Some u)
                 ∧ ELANAlignableAnnotation.get_end_time fa a = OK (Some v)
                 ∧ n = Z.abs (v - u)).
  { intros n. unfold ELANAlignableAnnotation.__len__, py_sub.
    destruct (ELANAlignableAnnotation.get_start_time fa a) as [[u|]|];
      destruct (ELANAlignableAnnotation.get_end_time fa a) as [[v|]|];
      cbn [mbind result_bind mret result_ret];
      (split; [intros [= <-]; eauto | intros (? & ? & [= <-] & [= <-] & ->); done])
      || (split; [done | by intros (? & ? & ? & ? & ?)]). }
  split; [done|]. split; [intros n (u & v & _ & _ & ->)%Hlen; lia|]. split.
  - rewrite alignable_eq_true, alignable_gt_true, alignable_lt_true.
    intros (u & v & Hu & Hu' & Hv & Hv'). split; [|split].
    + unfold ELANAlignableAnnotation.__len__. by rewrite Hu, Hu', Hv, Hv'.
    + intros (u1 & v1 & u2 & Hu1 & Hv1 & Hu2 & ? & ?).
      rewrite Hu in Hu1. rewrite Hu' in Hu2. simplify_eq. lia.
    + intros (u1 & u2 & v2 & Hu1 & Hu2 & Hv2 & ? & ?).
      rewrite Hu in Hu1. rewrite Hu' in Hu2. simplify_eq. lia.
  - intros r. unfold ELANAlignableAnnotation.__ne__.
    destruct (ELANAlignableAnnotation.__eq__ fa fb a b) as [[|]|];
      cbn [mbind result_bind mret result_ret]; destruct r; naive_solver.
Qed.

Lemma alignable_length_and_equality_witness :
  ELANAlignableAnnotation.__len__ (Some Sample.timeline) Sample.second = OK 1500%Z
  ∧ ELANAlignableAnnotation.__len__ (Some Sample.time_order) Sample.a2
    = Raise (KeyError "No ELANTimeSlot with the given ID found.")
  ∧ ELANAlignableAnnotation.__len__ (Some Sample.time_order) Sample.a1'
    = Raise (TypeError "unsupported operand type(s) for -: 'NoneType' and 'int'").
Proof.
  split; [|split; reflexivity].
  destruct (alignable_length_and_equality (Some Sample.timeline) (Some Sample.timeline)
              Sample.second Sample.second) as [Hlen _].
  apply Hlen. exists 1000%Z, 2500%Z. repeat split; reflexivity.
Defined.

(** ** External references and constraints *)

(** X24.  The constructor of an external reference accepts exactly the
    five known types.  Of the five predicates [refers_to_isocat],
    [refers_to_external_cv], [refers_to_external_cv_entry],
    [refers_to_lexeme] and [refers_to_url], exactly one holds of a
    reference the constructor returns; for any other type the constructor
    raises and none of the five would hold. *)
Theorem external_reference_kinds (ext_ref_id ext_ref_type value : string) :
  let x := ELANExternalReference.mk ext_ref_id ext_ref_type value in
  let kinds := [ELANExternalReference.refers_to_isocat x;
                ELANExternalReference.refers_to_external_cv x;
                ELANExternalReference.refers_to_external_cv_entry x;
                ELANExternalReference.refers_to_lexeme x;
                ELANExternalReference.refers_to_url x] in
  if decide (ext_ref_type ∈ ELANExternalReference.known_types) then
    ELANExternalReference.__init__ ext_ref_id ext_ref_type value = OK x
    ∧ length (filter (λ b, b = true) kinds) = 1%nat
  else
    ELANExternalReference.__init__ ext_ref_id ext_ref_type value
    = Raise (RuntimeError ("Unknown type of external reference: " +:+ ext_ref_type))
    ∧ filter (λ b, b = true) kinds = [].
Proof.
  cbv zeta. unfold ELANExternalReference.__init__, ELANExternalReference.known_types,
    ELANExternalReference.refers_to_isocat, ELANExternalReference.refers_to_external_cv,
    ELANExternalReference.refers_to_external_cv_entry, ELANExternalReference.refers_to_lexeme,
    ELANExternalReference.refers_to_url.
  cbn [ELANExternalReference.ext_ref_type existsb].
  destruct (decide _) as [Hin|Hout].
  - repeat (apply elem_of_cons in Hin as [->|Hin]; [by split|]).
    by apply elem_of_nil in Hin.
  - repeat match goal with
           | |- context [ext_ref_type =? ?known] =>
               destruct (String.eqb_spec ext_ref_type known) as [->|_];
               [exfalso; apply Hout; set_solver|]
           end.
    by split.
Qed.

(** X25.  The constraint and the linguistic type agree on the four
    stereotypes.  When [is_time_alignable] of a constraint answers [True]
    or [False], a linguistic type constructed with that stereotype, and one
    given it by [set_constraints], have that answer as their time alignable
    flag.  When it answers [None] the stereotype is none of the four:
    [set_constraints] raises, having assigned the constraint and left the
    flag as it was, and the constructor raises unless the stereotype is the
    string None. *)
Theorem constraint_table_agreement (stereotype : string) (description : option string)
    (lt : ELANLinguisticType.t) (time_alignable : pyval) :
  match ELANConstraint.is_time_alignable (ELANConstraint.mk stereotype description) with
  | Some b =>
      ELANLinguisticType.__init__ (ELANLinguisticType.linguistic_type_id lt) time_alignable
        (Some stereotype) (ELANLinguisticType.graphic_references lt)
        (ELANLinguisticType.controlled_vocabulary_ref lt) (ELANLinguisticType.external_ref lt)
        (ELANLinguisticType.lexicon_ref lt)
      = OK (ELANLinguisticType.with_time_alignable
              (ELANLinguisticType.with_constraints lt (Some stereotype)) (PyBool b))
      ∧ ELANLinguisticType.set_constraints lt (Some stereotype)
        = (ELANLinguisticType.with_time_alignable
             (ELANLinguisticType.with_constraints lt (Some stereotype)) (PyBool b), None)
  | None =>
      ELANLinguisticType.set_constraints lt (Some stereotype)
      = (ELANLinguisticType.with_constraints lt (Some stereotype),
         Some (RuntimeError ("Unknown constraint: " +:+ stereotype)))
      ∧ (stereotype ≠ "None" →
         ELANLinguisticType.__init__ (ELANLinguisticType.linguistic_type_id lt) time_alignable
           (Some stereotype) (ELANLinguisticType.graphic_references lt)
           (ELANLinguisticType.controlled_vocabulary_ref lt) (ELANLinguisticType.external_ref lt)
           (ELANLinguisticType.lexicon_ref lt)
         = Raise (RuntimeError ("Unknown constraint: " +:+ stereotype)))
  end.
Proof.
  unfold ELANConstraint.is_time_alignable, ELANLinguisticType.__init__,
    ELANLinguisticType.set_constraints.
  cbn [ELANConstraint.stereotype].
  destruct (String.eqb_spec stereotype "Time_Subdivision") as [->|_]; [done|].
  destruct (String.eqb_spec stereotype "Symbolic_Subdivision") as [->|_]; [done|].
  destruct (String.eqb_spec stereotype "Symbolic_Association") as [->|_]; [done|].
  destruct (String.eqb_spec stereotype "Included_In") as [->|_]; [done|].
  split; [done|]. intros Hnone.
  by destruct (String.eqb_spec stereotype "None").
Qed.

(** ** The entities of a decoded document *)

Lemma time_order_from_xml_NoDup (xml_node : node) (time_order : ELANTimeOrder.t) :
  ELANTimeOrder.from_xml xml_node = OK time_order →
  NoDup (ELANTimeSlot.get_id <$> ELANTimeOrder.time_slots time_order).
Proof.
  intros H. pose proof (time_order_from_xml_indexed _ _ H) as Hdict. revert H.
  unfold ELANTimeOrder.from_xml. destruct xml_node as [tag attrs children| |]; [|done..].
  destruct (negb _); [done|]. clear Hdict.
  intros H.
  apply (for_each_invariant
           (λ t, NoDup (ELANTimeSlot.get_id <$> ELANTimeOrder.time_slots t)
                 ∧ ELANTimeOrder.time_slots_dict t
                   = index ELANTimeSlot.get_id ∅ (ELANTimeOrder.time_slots t))) in H;
    [by destruct H| |by split; [constructor|]].
  clear. intros t n t' [Hnd Hdict]. unfold ELANTimeOrder.from_xml_child.
  destruct n as [tag' attrs' children'| |]; [|by intros [= <-]..].
  destruct (negb _); [done|].
  intros (ts & _ & Hadd)%bind_OK. unfold ELANTimeOrder.add_time_slot in Hadd.
  unfold ELANTimeOrder.__contains__ in Hadd. case_bool_decide as Hused; [done|].
  injection Hadd as <-.
  cbn [ELANTimeOrder.time_slots ELANTimeOrder.time_slots_dict]. split.
  - rewrite fmap_app. apply NoDup_app. split; [done|]. split; [|apply NoDup_singleton].
    intros ID (ts' & -> & Hts')%list_elem_of_fmap
              (ts'' & Heq & ->%list_elem_of_singleton)%list_elem_of_fmap.
    apply Hused. rewrite Hdict, <- Heq. by apply index_is_Some.
  - by rewrite index_snoc, Hdict.
Qed.

Lemma dict_set_NoDup (d : list (string * string)) (k v : string) :
  NoDup d.*1 → NoDup (dict_set d k v).*1.
Proof.
  intros Hnd. rewrite dict_set_keys. destruct (decide _) as [Hk|Hk]; [done|].
  apply NoDup_app. split; [done|]. split; [|apply NoDup_singleton].
  by intros k' Hk' ->%list_elem_of_singleton.
Qed.

Lemma parse_header_child_entities (D D' : ELANFile.t) (n : node) :
  ELANFile.parse_header_child D n = OK D' →
  (NoDup (ELANFile.properties D).*1 → NoDup (ELANFile.properties D').*1)
  ∧ ELANFile.tiers D' = ELANFile.tiers D
  ∧ ELANFile.time_order D' = ELANFile.time_order D
  ∧ ELANFile.linguistic_types D' = ELANFile.linguistic_types D
  ∧ ELANFile.external_references D' = ELANFile.external_references D.
Proof.
  unfold ELANFile.parse_header_child.
  destruct n as [tag attrs children| |]; [|by intros [= <-]..].
  destruct (tag =? "MEDIA_DESCRIPTOR"); [by intros (x & _ & [= <-])%bind_OK|].
  destruct (tag =? "LINKED_FILE_DESCRIPTOR"); [by intros (x & _ & [= <-])%bind_OK|].
  destruct (tag =? "PROPERTY"); [|done].
  intros (name & _ & (value & _ & [= <-])%bind_OK)%bind_OK. normalise.
  split; [apply dict_set_NoDup|done].
Qed.

Lemma linguistic_type_from_xml_constructed (xml_node : node) (lt : ELANLinguisticType.t) :
  ELANLinguisticType.from_xml xml_node = OK lt →
  ∃ time_alignable,
    ELANLinguisticType.__init__ (ELANLinguisticType.linguistic_type_id lt) time_alignable
      (ELANLinguisticType.constraints lt) (ELANLinguisticType.graphic_references lt)
      (ELANLinguisticType.controlled_vocabulary_ref lt)
      (ELANLinguisticType.external_ref lt) (ELANLinguisticType.lexicon_ref lt) = OK lt.
Proof.
  unfold ELANLinguisticType.from_xml. destruct xml_node as [tag attrs children| |]; [|done..].
  destruct (negb _); [done|]. intros (ID & _ & H)%bind_OK.
  destruct (linguistic_type_init_inv _ _ _ _ _ _ _ _ H) as [b ->].
  eexists. exact H.
Qed.

Lemma external_reference_from_xml_constructed (xml_node : node)
    (x : ELANExternalReference.t) :
  ELANExternalReference.from_xml xml_node = OK x →
  ELANExternalReference.__init__ (ELANExternalReference.ext_ref_id x)
    (ELANExternalReference.ext_ref_type x) (ELANExternalReference.value x) = OK x.
Proof.
  unfold ELANExternalReference.from_xml. destruct xml_node as [tag attrs children| |]; [|done..].
  destruct (negb _); [done|].
  intros (i & _ & (ty & _ & (v & _ & H)%bind_OK)%bind_OK)%bind_OK.
  unfold ELANExternalReference.__init__ in *.
  destruct (negb (existsb (String.eqb ty) _)) eqn:E; [done|]. injection H as <-.
  cbn [ELANExternalReference.ext_ref_id ELANExternalReference.ext_ref_type
       ELANExternalReference.value].
  by rewrite E.
Qed.

Lemma parse_child_entities (s0 : store) (acc acc' : ELANFile.t * store) (n : node) :
  decoded_entities s0 acc →
  ELANFile.parse_child acc n = OK acc' →
  decoded_entities s0 acc'.
Proof.
  destruct acc as [D s]. intros Hinv.
  destruct n as [tag attrs children| |]; [|by intros [= <-]..].
  cbn [fst snd] in Hinv.
  destruct Hinv as ((new & Hobjects & Htiers) & Hprops & Htime & Htypes & Hxrefs).
  unfold ELANFile.parse_child. cbn [fst snd].
  destruct (tag =? "HEADER").
  { intros (D' & Hheader & [= <-])%bind_OK. cbn [fst snd].
    apply (for_each_invariant
             (λ D', NoDup (ELANFile.properties D').*1
                    ∧ ELANFile.tiers D' = ELANFile.tiers D
                    ∧ ELANFile.time_order D' = ELANFile.time_order D
                    ∧ ELANFile.linguistic_types D' = ELANFile.linguistic_types D
                    ∧ ELANFile.external_references D' = ELANFile.external_references D))
      in Hheader as (Hprops' & Htiers' & Htime' & Htypes' & Hxrefs').
    - rewrite Htiers', Htime', Htypes', Hxrefs'.
      split; [by exists new|]. split; [done|]. split; [done|]. by split.
    - intros D1 n D2 (H1 & <- & <- & <- & <-) Hn.
      apply parse_header_child_entities in Hn as (? & ? & ? & ? & ?).
      repeat split; auto.
    - by destruct (hasAttribute attrs "MEDIA_FILE"), (hasAttribute attrs "TIME_UNITS"). }
  destruct (tag =? "TIME_ORDER").
  { intros (time_order & Hfrom & [= <-])%bind_OK. cbn [fst snd]. normalise.
    split; [by exists new|]. split; [done|]. split; [|done].
    intros ? [= <-]. split.
    - by apply (time_order_from_xml_NoDup _ _ Hfrom).
    - by apply (time_order_from_xml_indexed _ _ Hfrom). }
  destruct (tag =? "TIER").
  { intros (tier & _ & [= <-])%bind_OK. cbn [fst snd new_tier tier_objects].
    unfold ELANFile.append_tier. normalise.
    split; [|done]. exists (new ++ [tier]).
    rewrite Hobjects, Htiers, <- app_assoc, !length_app, Nat.add_1_r, seq_S. done. }
  destruct (tag =? "LINGUISTIC_TYPE").
  { intros (x & Hfrom & [= <-])%bind_OK. cbn [fst snd]. normalise.
    split; [by exists new|]. split; [done|]. split; [done|]. split; [|done].
    intros lt [Hlt| ->%list_elem_of_singleton]%elem_of_app; [by apply Htypes|].
    by apply (linguistic_type_from_xml_constructed _ _ Hfrom). }
  destruct (tag =? "CONSTRAINT").
  { intros (x & _ & [= <-])%bind_OK. cbn [fst snd]. normalise.
    split; [by exists new|]. split; [done|]. split; [done|]. by split. }
  destruct (tag =? "CONTROLLED_VOCABULARY").
  { intros ([cv C'] & _ & [= <-])%bind_OK. cbn [fst snd]. normalise.
    split; [by exists new|]. split; [done|]. split; [done|]. by split. }
  destruct (tag =? "EXTERNAL_REF").
  { intros (x & Hfrom & [= <-])%bind_OK. cbn [fst snd]. normalise.
    split; [by exists new|]. split; [done|]. split; [done|]. split; [done|].
    intros x' [Hx'| ->%list_elem_of_singleton]%elem_of_app; [by apply Hxrefs|].
    by apply (external_reference_from_xml_constructed _ _ Hfrom). }
  destruct (tag =? "LOCALE").
  { intros (x & _ & [= <-])%bind_OK. cbn [fst snd]. normalise.
    split; [by exists new|]. split; [done|]. split; [done|]. by split. }
  destruct (tag =? "LEXICON_REF"); [|done].
  intros (x & _ & [= <-])%bind_OK. cbn [fst snd]. normalise.
    split; [by exists new|]. split; [done|]. split; [done|]. by split.
Qed.

(** X26.  The entities of the document that [parse_xml] returns, whatever
    the element tree is.  The tiers of the document are new tier objects,
    one per TIER element in the order of the elements, and the objects that
    existed are untouched; no two properties have the same name; the time
    slots of the time order have distinct identifiers and are in its
    dictionary; and every linguistic type and external reference is as its
    constructor returns it. *)
Theorem parse_xml_entities (xml_tree : list node) (s s' : store) (D : ELANFile.t) :
  ELANFile.parse_xml xml_tree s = OK (D, s') →
  (∃ new, tier_objects s' = tier_objects s ++ new
          ∧ ELANFile.tiers D = seq (length (tier_objects s)) (length new))
  ∧ NoDup (ELANFile.properties D).*1
  ∧ (∀ time_order, ELANFile.time_order D = Some time_order →
       NoDup (ELANTimeSlot.get_id <$> ELANTimeOrder.time_slots time_order)
       ∧ ELANTimeOrder.time_slots_dict time_order
         = index ELANTimeSlot.get_id ∅ (ELANTimeOrder.time_slots time_order))
  ∧ (∀ lt, lt ∈ ELANFile.linguistic_types D →
       ∃ time_alignable,
         ELANLinguisticType.__init__ (ELANLinguisticType.linguistic_type_id lt) time_alignable
           (ELANLinguisticType.constraints lt) (ELANLinguisticType.graphic_references lt)
           (ELANLinguisticType.controlled_vocabulary_ref lt)
           (ELANLinguisticType.external_ref lt) (ELANLinguisticType.lexicon_ref lt) = OK lt)
  ∧ (∀ x, x ∈ ELANFile.external_references D →
       ELANExternalReference.__init__ (ELANExternalReference.ext_ref_id x)
         (ELANExternalReference.ext_ref_type x) (ELANExternalReference.value x) = OK x).
Proof.
  unfold ELANFile.parse_xml.
  destruct xml_tree as [|[nodeName attrs childNodes| |] rest]; [done| |done..].
  destruct (nodeName =? "ANNOTATION_DOCUMENT"); [|done].
  intros H.
  apply (for_each_invariant (λ acc, decoded_entities s acc)) in H; [exact H| |].
  - intros acc n acc'. apply parse_child_entities.
  - cbn [fst snd]. normalise. split; [exists []; by rewrite app_nil_r|].
    split; [constructor|]. split; [done|]. split; by intros ? ?%elem_of_nil.
Qed.

Lemma parse_xml_entities_witness :
  match ELANFile.parse_xml Sample.tree Sample.objects with
  | OK (D, s') =>
      NoDup (ELANFile.properties D).*1
      ∧ ∃ new, tier_objects s' = tier_objects Sample.objects ++ new
               ∧ ELANFile.tiers D = seq 2 (length new)
  | Raise _ => False
  end.
Proof.
  destruct (ELANFile.parse_xml Sample.tree Sample.objects) as [[D s']|e] eqn:E.
  - destruct (parse_xml_entities Sample.tree Sample.objects s' D E) as (Hnew & Hnd & _).
    by split.
  - vm_compute in E. discriminate.
Defined.
